(** * The collection cycle of the Datadog agent ([checks/__init__.py])

    A shallow embedding of the class [checks]: the plugin loader
    [getPlugins] and the collection cycle [doChecks], followed by the
    properties of the cycle that the specification states.

    Python values are an inductive type and dictionaries are finite maps
    with string keys: every dictionary the source builds has string keys,
    and the one way another key can reach the payload,
    [checksData.update] with the CPU statistics, leaves the entries under
    string keys as they are, which are what the map holds.  A method is a
    function in a state-and-exception monad over the fields
    of the [checks] instance.  Everything the methods obtain from outside
    the file (the built-in probes, the file system, the plugin modules, the
    host name, the clock, the emitter) is read from a [world], one per
    cycle.  Calls that matter to the specification are recorded, in order,
    in a trace kept next to the instance fields.

    Lines of the source that only write a debug message are not modelled,
    nor is [sys.path.append]; the two log lines the specification speaks of
    (the error in [getPlugins], the host name message in [doChecks]) are. *)

From stdpp Require Import gmap strings list fin_maps.
From Stdlib Require Import ZArith QArith Ascii String.

Set Warnings "-register-all,-clear-no-such-hyp".
#[local] Close Scope Q_scope.
#[local] Open Scope string_scope.
#[local] Open Scope list_scope.

(** ** Python values *)

Inductive pyval :=
| PyNone
| PyBool (b : bool)
| PyInt (n : Z)
| PyFloat (q : Q)
| PyStr (s : string)
| PyTuple (xs : list pyval)
| PyList (xs : list pyval)
| PyDict (d : gmap string pyval).

Abbreviation pydict := (gmap string pyval).

Abbreviation PyFalse := (PyBool false).
Abbreviation PyTrue := (PyBool true).

(** Truth value of an object, as [if x:] tests it. *)
Definition truthy (v : pyval) : bool :=
  match v with
  | PyNone => false
  | PyBool b => b
  | PyInt n => negb (n =? 0)%Z
  | PyFloat q => negb (Qnum q =? 0)%Z
  | PyStr s => negb (String.eqb s "")
  | PyTuple xs | PyList xs => match xs with [] => false | _ => true end
  | PyDict d => negb (bool_decide (d = ∅))
  end.

(** [x != False]: only a number equal to zero compares equal to [False]. *)
Definition ne_False (v : pyval) : bool :=
  match v with
  | PyBool b => b
  | PyInt n => negb (n =? 0)%Z
  | PyFloat q => negb (Qnum q =? 0)%Z
  | _ => true
  end.

(** [x == True]: only a number equal to one compares equal to [True]. *)
Definition eq_True (v : pyval) : bool :=
  match v with
  | PyBool b => b
  | PyInt n => (n =? 1)%Z
  | PyFloat q => (Qnum q =? Z.pos (Qden q))%Z
  | _ => false
  end.

(** [x is not False and x is not None] (identity, not equality). *)
Definition not_False_nor_None (v : pyval) : bool :=
  match v with
  | PyNone | PyBool false => false
  | _ => true
  end.

(** [x != None]. *)
Definition ne_None (v : pyval) : bool :=
  match v with PyNone => false | _ => true end.

(** ** Exceptions and results *)

(** The exception classes the cycle can meet.  [SystemExit] and
    [KeyboardInterrupt] derive from [BaseException] only, so a clause
    [except Exception] lets them through. *)
Inductive exn :=
| TypeError
| KeyError (k : string)
| IndexError
| ValueError
| AttributeError (a : string)
| IOError
| SocketError
| OtherException (msg : string)
| SystemExit
| KeyboardInterrupt.

Definition is_Exception (e : exn) : bool :=
  match e with
  | SystemExit | KeyboardInterrupt => false
  | _ => true
  end.

Definition is_TypeError (e : exn) : bool :=
  match e with TypeError => true | _ => false end.

Definition is_socket_error (e : exn) : bool :=
  match e with SocketError => true | _ => false end.

Inductive result (A : Type) :=
| Ok (a : A)
| Raise (e : exn).
Arguments Ok {A} a.
Arguments Raise {A} e.

Definition is_Ok {A} (r : result A) : bool :=
  match r with Ok _ => true | Raise _ => false end.

(** ** Subscripts and dictionary updates *)

(** [v[k]] for a string key. *)
Definition getitem (v : pyval) (k : string) : result pyval :=
  match v with
  | PyDict d => match d !! k with Some x => Ok x | None => Raise (KeyError k) end
  | _ => Raise TypeError
  end.

(** [v[i]] for a literal index [0] or [1]. *)
Definition getindex (v : pyval) (i : nat) : result pyval :=
  match v with
  | PyTuple xs | PyList xs =>
      match xs !! i with Some x => Ok x | None => Raise IndexError end
  | PyStr s =>
      match String.get i s with
      | Some c => Ok (PyStr (String c EmptyString))
      | None => Raise IndexError
      end
  | PyDict _ => Raise (KeyError (if Nat.eqb i 0 then "0" else "1"))
  | _ => Raise TypeError
  end.

(** [d[k1][k2] = x] where [d] is a dictionary held in a local variable. *)
Definition setitem2 (d : pydict) (k1 k2 : string) (x : pyval) : result pydict :=
  match d !! k1 with
  | None => Raise (KeyError k1)
  | Some (PyDict inner) => Ok (<[k1 := PyDict (<[k2 := x]> inner)]> d)
  | Some _ => Raise TypeError
  end.

(** Whether an object can be the key of a dictionary: lists and
    dictionaries cannot, a tuple can when its elements can. *)
Fixpoint hashable (v : pyval) : bool :=
  match v with
  | PyList _ | PyDict _ => false
  | PyTuple xs => forallb hashable xs
  | _ => true
  end.

(** One element of the sequence form of [dict.update]: any sequence of two
    objects, the first being the key.  A tuple or a list of two objects is
    one, so is a string of two characters, and so is a mapping of two
    keys, which yields its keys; [reversed] tells whether it yields them
    in the reverse of the order in which the finite map lists them.  An
    element that is no sequence raises [TypeError], one of another length
    [ValueError], a key that cannot be hashed [TypeError].  The entry
    written under a key that is not a string is not represented ([None]):
    a [pydict] holds the entries under string keys, the only ones this
    file reads. *)
Definition as_item (reversed : pydict -> bool) (v : pyval)
  : result (option (string * pyval)) :=
  match v with
  | PyTuple [key; x] | PyList [key; x] =>
      match key with
      | PyStr k => Ok (Some (k, x))
      | _ => if hashable key then Ok None else Raise TypeError
      end
  | PyStr (String a (String b EmptyString)) =>
      Ok (Some (String a EmptyString, PyStr (String b EmptyString)))
  | PyDict m =>
      match map_to_list m with
      | [(ka, _); (kb, _)] =>
          if reversed m then Ok (Some (kb, PyStr ka))
          else Ok (Some (ka, PyStr kb))
      | _ => Raise ValueError
      end
  | PyTuple _ | PyList _ | PyStr _ => Raise ValueError
  | _ => Raise TypeError
  end.

Fixpoint update_items (reversed : pydict -> bool) (d : pydict)
    (items : list pyval) : result pydict :=
  match items with
  | [] => Ok d
  | v :: rest =>
      match as_item reversed v with
      | Ok (Some (k, x)) => update_items reversed (<[k := x]> d) rest
      | Ok None => update_items reversed d rest
      | Raise e => Raise e
      end
  end.

(** [d.update(v)]: the entries of a dictionary [v] replace those of [d];
    the elements of a tuple or a list are inserted in order; a string
    yields its characters, none of which is a sequence of two, so only
    the empty string is accepted; anything else cannot be iterated. *)
Definition dict_update (reversed : pydict -> bool) (d : pydict) (v : pyval)
  : result pydict :=
  match v with
  | PyDict m => Ok (m ∪ d)
  | PyTuple xs | PyList xs => update_items reversed d xs
  | PyStr "" => Ok d
  | PyStr _ => Raise ValueError
  | _ => Raise TypeError
  end.

(** ** Strings and paths *)

(** [name.split('.', 1)]: cut at the first dot, if there is one. *)
Fixpoint split_dot_once (s : string) : list string :=
  match s with
  | EmptyString => [EmptyString]
  | String c rest =>
      if Ascii.eqb c "."%char then [EmptyString; rest]
      else match split_dot_once rest with
           | h :: t => String c h :: t
           | [] => [String c EmptyString]
           end
  end.

Fixpoint ends_with_slash (s : string) : bool :=
  match s with
  | EmptyString => false
  | String c EmptyString => Ascii.eqb c "/"%char
  | String _ rest => ends_with_slash rest
  end.

(** [os.path.join(a, b)] of [posixpath]. *)
Definition path_join (a b : string) : string :=
  match b with
  | String "/"%char _ => b
  | _ => if String.eqb a "" || ends_with_slash a then a ++ b
         else a ++ "/" ++ b
  end.

(** ** Plugins, probes and the world *)

(** A constructed plugin: [po_class_name] is [plugin.__class__.__name__]. *)
Record plugin_obj := PluginObj { po_id : nat; po_class_name : string }.

(** What calling a plugin class with three, two and no arguments does. *)
Record plugin_class := PluginClass {
  ctor3 : result plugin_obj;
  ctor2 : result plugin_obj;
  ctor0 : result plugin_obj
}.

(** An imported module: [getattr(module, name)], if the attribute exists. *)
Record pymodule := PyModule { mod_attr : string -> option plugin_class }.

(** The probes [doChecks] calls through the [get...] methods that only
    delegate to a collaborator's [check]. *)
Inductive probe :=
| Apache | Disk | Load | Memory | MySQL | Network | Nginx | Processes
| RabbitMQ | MongoDB | CouchDB | IOStats | CPU | Ganglia | Cassandra.

(** A Datadog roll-up probe ([self._datadogs]), an event probe
    ([self._event_checks]) and a resource probe ([self._resources_checks]). *)
Record dd_probe := DdProbe { dd_id : nat; dd_key : string }.
Record event_probe := EventProbe { ev_id : nat; ev_key : string }.
Record resource_probe := ResourceProbe { rp_id : nat; RESOURCE_KEY : string }.

(** Every call made in a cycle that the specification speaks about. *)
Inductive event :=
| EvProbe (p : probe)
| EvGetPlugins
| EvDatadog (key : string)
| EvWalk (dir : string)
| EvImport (name path : string)
| EvConstruct (name : string) (arity : nat)
| EvRun (class_name : string)
| EvLogError (where_ : string) (e : exn)
| EvLogDebug (msg : string)
| EvEmit (payload : pydict)
| EvEnter (delay firstRun : pyval).

(** The fields of a [checks] instance that the two methods read or write. *)
Record checks := Checks {
  self_agentConfig : pydict;
  self_plugins : option (list plugin_obj);
  self_os : option string;
  self_datadogs : option (list dd_probe);
  self_event_checks : list event_probe;
  self_resources_checks : list resource_probe
}.

Definition with_plugins (ps : option (list plugin_obj)) (s : checks) : checks :=
  Checks (self_agentConfig s) ps (self_os s) (self_datadogs s)
         (self_event_checks s) (self_resources_checks s).

Definition with_os (o : option string) (s : checks) : checks :=
  Checks (self_agentConfig s) (self_plugins s) o (self_datadogs s)
         (self_event_checks s) (self_resources_checks s).

(** What the outside answers during one cycle.  [iter_reversed] is the one
    thing taken from the interpreter: the order in which iterating a
    dictionary of two keys yields them, as [as_item] reads it. *)
Record world := World {
  sys_platform : string;
  platform_mac_ver : pyval;
  probe_check : probe -> result pyval;
  datadog_check : dd_probe -> result pyval;
  path_exists : string -> bool;
  os_walk : string -> list (string * list string * list string);
  load_source : string -> string -> result pymodule;
  plugin_run : plugin_obj -> result pyval;
  socket_gethostname : result pyval;
  uuid5_hex : string;
  time_time : pyval;
  startup_time : pyval;
  event_check : event_probe -> result pyval;
  resource_check : resource_probe -> result unit;
  pop_snapshot : resource_probe -> result pyval;
  describe_format_if_needed : resource_probe -> result pyval;
  get_format_version : resource_probe -> result pyval;
  emitter : pydict -> result unit;
  iter_reversed : pydict -> bool
}.

(** ** The monad of methods *)

(** What running a method on an instance gives: the value returned or the
    exception that left the method, the instance afterwards, and the calls
    made meanwhile, oldest first. *)
Record outcome (A : Type) := Outcome {
  res : result A;
  self_after : checks;
  calls : list event
}.
Arguments Outcome {A} res self_after calls.
Arguments res {A} o.
Arguments self_after {A} o.
Arguments calls {A} o.

Definition M (A : Type) : Type := checks -> outcome A.

Definition ret {A} (a : A) : M A := fun s => Outcome (Ok a) s [].

Definition raise {A} (e : exn) : M A := fun s => Outcome (Raise e) s [].

Definition bind {A B} (m : M A) (k : A -> M B) : M B :=
  fun s =>
    let o := m s in
    match res o with
    | Ok a =>
        let o' := k a (self_after o) in
        Outcome (res o') (self_after o') (calls o ++ calls o')
    | Raise e => Outcome (Raise e) (self_after o) (calls o)
    end.

Notation "'let!' x ':=' m 'in' k" := (bind m (fun x => k))
  (at level 10, x name, m at level 100, k at level 200).

Definition lift {A} (r : result A) : M A := fun s => Outcome r s [].

Definition gets {A} (f : checks -> A) : M A := fun s => Outcome (Ok (f s)) s [].

Definition modify (f : checks -> checks) : M unit :=
  fun s => Outcome (Ok tt) (f s) [].

Definition emit (e : event) : M unit := fun s => Outcome (Ok tt) s [e].

(** [try: m except <classes accepted by handles>: h]. *)
Definition try_except {A} (m : M A) (handles : exn -> bool) (h : exn -> M A)
  : M A :=
  fun s =>
    let o := m s in
    match res o with
    | Ok a => o
    | Raise e =>
        if handles e then
          let o' := h e (self_after o) in
          Outcome (res o') (self_after o') (calls o ++ calls o')
        else o
    end.

(** The same sequencing for code that neither touches the instance nor
    makes a recorded call. *)
Definition and_then {A B} (r : result A) (k : A -> result B) : result B :=
  match r with
  | Ok a => k a
  | Raise e => Raise e
  end.

Notation "'let?' x ':=' r 'in' k" := (and_then r (fun x => k))
  (at level 10, x name, r at level 100, k at level 200).

Fixpoint fold_result {A B} (xs : list A) (acc : B) (body : B -> A -> result B)
  : result B :=
  match xs with
  | [] => Ok acc
  | x :: rest => let? acc' := body acc x in fold_result rest acc' body
  end.

(** [for x in xs: body]. *)
Fixpoint for_each {A} (xs : list A) (body : A -> M unit) : M unit :=
  match xs with
  | [] => ret tt
  | x :: rest => let! _ := body x in for_each rest body
  end.

(** A loop that carries the value of a local variable. *)
Fixpoint for_fold {A B} (xs : list A) (acc : B) (body : B -> A -> M B) : M B :=
  match xs with
  | [] => ret acc
  | x :: rest => let! acc' := body acc x in for_fold rest acc' body
  end.

(** ** The plugin loader: [getPlugins] *)

Section Cycle.

Variable w : world.

(** The body of the loop over [files]: a name whose part after the first
    dot is [py] is a plugin; [name[1]] raising [IndexError] skips the file. *)
Definition plugin_name_of (file : string) : option string :=
  match split_dot_once file with
  | base :: ext :: _ => if String.eqb ext "py" then Some base else None
  | _ => None
  end.

(** The two nested loops over [os.walk(pluginDirectory)]. *)
Definition discover (dir : string) : list string :=
  flat_map (fun '(_, _, files) => omap plugin_name_of files) (os_walk w dir).

Definition call_ctor (name : string) (arity : nat) (r : result plugin_obj)
  : M plugin_obj :=
  let! _ := emit (EvConstruct name arity) in lift r.

(** The nested [try ... except TypeError] around the three calls of
    [pluginClass]. *)
Definition instantiate (name : string) (c : plugin_class) : M plugin_obj :=
  try_except (call_ctor name 3 (ctor3 c)) is_TypeError (fun _ =>
    try_except (call_ctor name 2 (ctor2 c)) is_TypeError (fun _ =>
      call_ctor name 0 (ctor0 c))).

Definition append_plugin (o : plugin_obj) : M unit :=
  modify (fun s => with_plugins
                     (match self_plugins s with
                      | Some ps => Some (ps ++ [o])
                      | None => None
                      end) s).

(** The body of the loop over the names found: the import is outside the
    [try], the class lookup and the construction are inside. *)
Definition load_one (dir name : string) : M unit :=
  let path := path_join dir (name ++ ".py") in
  let! _ := emit (EvImport name path) in
  let! importedPlugin := lift (load_source w name path) in
  try_except
    (let! pluginClass :=
       match mod_attr importedPlugin name with
       | Some c => ret c
       | None => raise (AttributeError name)
       end in
     let! pluginObj := instantiate name pluginClass in
     append_plugin pluginObj)
    is_Exception
    (fun ex => emit (EvLogError "getPlugins" ex)).

(** The branch taken when [self.plugins == None]. *)
Definition load_plugins (dir : string) : M unit :=
  let! _ := modify (with_plugins (Some [])) in
  let! _ := emit (EvWalk dir) in
  for_each (discover dir) (load_one dir).

(** The loop that executes the stored plugins. *)
Definition run_plugins (ps : list plugin_obj) : M pydict :=
  for_fold ps ∅ (fun output plugin =>
    let! _ := emit (EvRun (po_class_name plugin)) in
    let! r := lift (plugin_run w plugin) in
    ret (<[po_class_name plugin := r]> output)).

(** [os.path.exists] and the string concatenations need a string. *)
Definition as_path (v : pyval) : result string :=
  match v with PyStr s => Ok s | _ => Raise TypeError end.

Definition getPlugins : M pyval :=
  let! _ := emit EvGetPlugins in
  let! config := gets self_agentConfig in
  match config !! "pluginDirectory" with
  | None => ret PyFalse
  | Some d =>
      let! dir := lift (as_path d) in
      if negb (path_exists w dir) then ret PyFalse
      else
        let! loaded := gets self_plugins in
        let! _ := match loaded with
                  | None => load_plugins dir
                  | Some _ => ret tt
                  end in
        let! stored := gets self_plugins in
        match stored with
        | Some ps => let! output := run_plugins ps in ret (PyDict output)
        | None => ret PyFalse
        end
  end.

(** ** The collection cycle: [doChecks] *)

(** The built-in probe methods ([getApacheStatus] and the like): the
    decorator [recordsize] calls the method and returns its result. *)
Definition call_probe (p : probe) : M pyval :=
  let! _ := emit (EvProbe p) in lift (probe_check w p).

Definition getDatadogData : M pyval :=
  let! dds := gets self_datadogs in
  let! result :=
    match dds with
    | Some l =>
        for_fold l ∅ (fun result dd =>
          let! _ := emit (EvDatadog (dd_key dd)) in
          let! r := lift (datadog_check w dd) in
          ret (<[dd_key dd := r]> result))
    | None => ret ∅
    end in
  ret (PyDict result).

(** The local variables assigned under [# Do the checks]. *)
Record probe_results := ProbeResults {
  apacheStatus : pyval;
  diskUsage : pyval;
  loadAvrgs : pyval;
  memory : pyval;
  mysqlStatus : pyval;
  networkTraffic : pyval;
  nginxStatus : pyval;
  processes : pyval;
  rabbitmq : pyval;
  mongodb : pyval;
  couchdb : pyval;
  plugins : pyval;
  ioStats : pyval;
  cpuStats : pyval;
  gangliaData : pyval;
  datadogData : pyval;
  cassandraData : pyval
}.

(** Lines 292-302: the operating system is resolved once. *)
Definition resolve_os : M unit :=
  let macV := if String.eqb (sys_platform w) "darwin" then platform_mac_ver w
              else PyNone in
  let! os := gets self_os in
  let unset := match os with None => true | Some o => String.eqb o "" end in
  if unset then
    modify (with_os
      (Some (if truthy macV then "mac"
             else match String.index 0 "freebsd" (sys_platform w) with
                  | Some _ => "freebsd"
                  | None => "linux"
                  end)))
  else ret tt.

(** Lines 307-323. *)
Definition run_checks : M probe_results :=
  let! apacheStatus := call_probe Apache in
  let! diskUsage := call_probe Disk in
  let! loadAvrgs := call_probe Load in
  let! memory := call_probe Memory in
  let! mysqlStatus := call_probe MySQL in
  let! networkTraffic := call_probe Network in
  let! nginxStatus := call_probe Nginx in
  let! processes := call_probe Processes in
  let! rabbitmq := call_probe RabbitMQ in
  let! mongodb := call_probe MongoDB in
  let! couchdb := call_probe CouchDB in
  let! plugins := getPlugins in
  let! ioStats := call_probe IOStats in
  let! cpuStats := call_probe CPU in
  let! gangliaData := call_probe Ganglia in
  let! datadogData := getDatadogData in
  let! cassandraData := call_probe Cassandra in
  ret (ProbeResults apacheStatus diskUsage loadAvrgs memory mysqlStatus
         networkTraffic nginxStatus processes rabbitmq mongodb couchdb
         plugins ioStats cpuStats gangliaData datadogData cassandraData).

(** [self.agentConfig[k]]. *)
Definition config_get (config : pydict) (k : string) : result pyval :=
  getitem (PyDict config) k.

Definition os_value (os : option string) : pyval :=
  match os with Some o => PyStr o | None => PyNone end.

(** Lines 327-346: the dictionary display, its values in source order. *)
Definition core_payload (config : pydict) (os : option string)
    (r : probe_results) : result pydict :=
  let? agentKey := config_get config "agentKey" in
  let? version := config_get config "version" in
  let? load1 := getitem (loadAvrgs r) "1" in
  let? load5 := getitem (loadAvrgs r) "5" in
  let? load15 := getitem (loadAvrgs r) "15" in
  let? physUsed := getitem (memory r) "physUsed" in
  let? physFree := getitem (memory r) "physFree" in
  let? swapUsed := getitem (memory r) "swapUsed" in
  let? swapFree := getitem (memory r) "swapFree" in
  let? cached := getitem (memory r) "cached" in
  let? apiKey := config_get config "apiKey" in
  Ok (list_to_map
        [("collection_timestamp", time_time w);
         ("os", os_value os);
         ("agentKey", agentKey);
         ("agentVersion", version);
         ("diskUsage", diskUsage r);
         ("loadAvrg1", load1);
         ("loadAvrg5", load5);
         ("loadAvrg15", load15);
         ("memPhysUsed", physUsed);
         ("memPhysFree", physFree);
         ("memSwapUsed", swapUsed);
         ("memSwapFree", swapFree);
         ("memCached", cached);
         ("networkTraffic", networkTraffic r);
         ("processes", processes r);
         ("apiKey", apiKey);
         ("events", PyDict ∅);
         ("resources", PyDict ∅)]).

(** [if v is not False and v is not None: checksData[k] = v]. *)
Definition set_if_present (k : string) (v : pyval) (d : pydict) : pydict :=
  if not_False_nor_None v then <[k := v]> d else d.

(** Lines 348-358. *)
Definition extended_payload (r : probe_results) (d : pydict) : result pydict :=
  let? d := if not_False_nor_None (cpuStats r)
            then dict_update (iter_reversed w) d (cpuStats r)
            else Ok d in
  Ok (set_if_present "cassandra" (cassandraData r)
        (set_if_present "datadog" (datadogData r)
           (set_if_present "ganglia" (gangliaData r) d))).

(** [if v != False: checksData[k] = v]. *)
Definition set_unless_False (k : string) (v : pyval) (d : pydict) : pydict :=
  if ne_False v then <[k := v]> d else d.

(** Lines 362-368. *)
Definition apache_payload (r : probe_results) (d : pydict) : result pydict :=
  if ne_False (apacheStatus r) then
    let? reqPerSec := getitem (apacheStatus r) "reqPerSec" in
    let d := <["apacheReqPerSec" := reqPerSec]> d in
    let? busyWorkers := getitem (apacheStatus r) "busyWorkers" in
    let d := <["apacheBusyWorkers" := busyWorkers]> d in
    let? idleWorkers := getitem (apacheStatus r) "idleWorkers" in
    Ok (<["apacheIdleWorkers" := idleWorkers]> d)
  else Ok d.

(** Lines 370-382. *)
Definition mysql_payload (r : probe_results) (d : pydict) : result pydict :=
  if ne_False (mysqlStatus r) then
    let? connections := getitem (mysqlStatus r) "connections" in
    let d := <["mysqlConnections" := connections]> d in
    let? createdTmpDiskTables := getitem (mysqlStatus r) "createdTmpDiskTables" in
    let d := <["mysqlCreatedTmpDiskTables" := createdTmpDiskTables]> d in
    let? maxUsedConnections := getitem (mysqlStatus r) "maxUsedConnections" in
    let d := <["mysqlMaxUsedConnections" := maxUsedConnections]> d in
    let? openFiles := getitem (mysqlStatus r) "openFiles" in
    let d := <["mysqlOpenFiles" := openFiles]> d in
    let? slowQueries := getitem (mysqlStatus r) "slowQueries" in
    let d := <["mysqlSlowQueries" := slowQueries]> d in
    let? tableLocksWaited := getitem (mysqlStatus r) "tableLocksWaited" in
    let d := <["mysqlTableLocksWaited" := tableLocksWaited]> d in
    let? threadsConnected := getitem (mysqlStatus r) "threadsConnected" in
    let d := <["mysqlThreadsConnected" := threadsConnected]> d in
    let? secondsBehindMaster := getitem (mysqlStatus r) "secondsBehindMaster" in
    Ok (if ne_None secondsBehindMaster
        then <["mysqlSecondsBehindMaster" := secondsBehindMaster]> d
        else d)
  else Ok d.

(** Lines 384-387. *)
Definition nginx_payload (r : probe_results) (d : pydict) : result pydict :=
  if ne_False (nginxStatus r) then
    let? connections := getitem (nginxStatus r) "connections" in
    let d := <["nginxConnections" := connections]> d in
    let? reqPerSec := getitem (nginxStatus r) "reqPerSec" in
    Ok (<["nginxReqPerSec" := reqPerSec]> d)
  else Ok d.

(** Lines 389-406. *)
Definition service_payloads (r : probe_results) (d : pydict) : pydict :=
  set_unless_False "ioStats" (ioStats r)
    (set_unless_False "plugins" (plugins r)
       (set_unless_False "couchDB" (couchdb r)
          (set_unless_False "mongoDB" (mongodb r)
             (set_unless_False "rabbitMQ" (rabbitmq r) d)))).

(** Lines 362-411: the optional payloads and the system facts of a first
    run. *)
Definition optional_payloads (firstRun systemStats : pyval)
    (r : probe_results) (d : pydict) : result pydict :=
  let? d := apache_payload r d in
  let? d := mysql_payload r d in
  let? d := nginx_payload r d in
  let d := service_payloads r d in
  Ok (if eq_True firstRun then <["systemStats" := systemStats]> d else d).

(** Lines 414-420: only [socket.error] is caught. *)
Definition add_hostname (d : pydict) : M pydict :=
  try_except
    (let! name := lift (socket_gethostname w) in
     ret (<["internalHostname" := name]> d))
    is_socket_error
    (fun e => let! _ := emit (EvLogDebug "Unable to get hostname") in ret d).

(** Lines 433-437. *)
Definition process_events (checks_ : list event_probe) (d : pydict)
  : result pydict :=
  fold_result checks_ d (fun d event_check_ =>
    let? event_data := event_check w event_check_ in
    if truthy event_data then setitem2 d "events" (ev_key event_check_) event_data
    else Ok d).

(** Lines 446-452: the body of [if snap:]. *)
Definition resource_value (rc : resource_probe) (snap : pyval)
  : result pyval :=
  let? res_format := describe_format_if_needed w rc in
  let? ts := getindex snap 0 in
  let? data := getindex snap 1 in
  let? version := get_format_version w rc in
  let res_value : pydict :=
    list_to_map [("ts", ts); ("data", data); ("format_version", version)] in
  Ok (PyDict (if ne_None res_format
              then <["format_description" := res_format]> res_value
              else res_value)).

(** Lines 440-452: the loop carries [checksData] and [has_resource]. *)
Definition process_resources (checks_ : list resource_probe) (d : pydict)
  : result (pydict * bool) :=
  fold_result checks_ (d, false) (fun '(d, has_resource) rc =>
    let? _ := resource_check w rc in
    let? snap := pop_snapshot w rc in
    if truthy snap then
      let? res_value := resource_value rc snap in
      let? d := setitem2 d "resources" (RESOURCE_KEY rc) res_value in
      Ok (d, true)
    else Ok (d, has_resource)).

(** Lines 454-458: the right-hand side is evaluated before the target. *)
Definition attach_meta (config : pydict) (has_resource : bool) (d : pydict)
  : result pydict :=
  if has_resource then
    let? api_key := config_get config "apiKey" in
    let? host := getitem (PyDict d) "internalHostname" in
    setitem2 d "resources" "meta"
      (PyDict (list_to_map [("api_key", api_key); ("host", host)]))
  else Ok d.

(** Lines 460-466. *)
Definition startup_event (config : pydict) (firstRun : pyval) (d : pydict)
  : result pydict :=
  if truthy firstRun then
    let? api_key := config_get config "apiKey" in
    let? host := getitem (PyDict d) "internalHostname" in
    setitem2 d "events" "System"
      (PyList [PyDict (list_to_map
                 [("api_key", api_key); ("host", host);
                  ("timestamp", startup_time w);
                  ("event_type", PyStr "agent startup")])])
  else Ok d.

(** Lines 327-411: the payload before the host is identified. *)
Definition payload_before_hostname (config : pydict) (os : option string)
    (firstRun systemStats : pyval) (r : probe_results) : result pydict :=
  let? d := core_payload config os r in
  let? d := extended_payload r d in
  optional_payloads firstRun systemStats r d.

(** Lines 430-466: the identifier, the event and resource probes, the
    start event. *)
Definition payload_after_hostname (config : pydict)
    (event_checks : list event_probe) (resources_checks : list resource_probe)
    (firstRun : pyval) (d : pydict) : result pydict :=
  let d := <["uuid" := PyStr (uuid5_hex w)]> d in
  let? d := process_events event_checks d in
  let? dh := process_resources resources_checks d in
  let? d := attach_meta config (snd dh) (fst dh) in
  startup_event config firstRun d.

(** Lines 292-466: everything [doChecks] does before it hands [checksData]
    to the emitter. *)
Definition build_checksData (firstRun systemStats : pyval) : M pydict :=
  let! _ := resolve_os in
  let! r := run_checks in
  let! config := gets self_agentConfig in
  let! os := gets self_os in
  let! d := lift (payload_before_hostname config os firstRun systemStats r) in
  let! d := add_hostname d in
  let! event_checks := gets self_event_checks in
  let! resources_checks := gets self_resources_checks in
  lift (payload_after_hostname config event_checks resources_checks firstRun d).

(** [sc.enter(delay, ...)] adds the delay to the scheduler's clock. *)
Definition is_number (v : pyval) : bool :=
  match v with
  | PyBool _ | PyInt _ | PyFloat _ => true
  | _ => false
  end.

(** Line 470. *)
Definition sc_enter : M unit :=
  let! config := gets self_agentConfig in
  let! checkFreq := lift (config_get config "checkFreq") in
  if is_number checkFreq then emit (EvEnter checkFreq PyFalse)
  else raise TypeError.

(** Line 468. *)
Definition call_emitter (checksData : pydict) : M unit :=
  let! _ := emit (EvEmit checksData) in
  lift (emitter w checksData).

(** [doChecks(self, sc, firstRun, systemStats=False)].  The scheduler
    [sc] is the [sched.scheduler] of the agent's main loop; its only use,
    [sc.enter], is recorded as [EvEnter] once the entry is queued. *)
Definition doChecks (firstRun systemStats : pyval) : M unit :=
  let! checksData := build_checksData firstRun systemStats in
  let! _ := call_emitter checksData in
  sc_enter.

End Cycle.

(** ** Reading a trace *)

(** The plugin names imported, in order. *)
Definition imported (t : list event) : list string :=
  omap (fun e => match e with EvImport name _ => Some name | _ => None end) t.

(** The constructor arities tried, with the plugin name, in order. *)
Definition constructions (t : list event) : list (string * nat) :=
  omap (fun e => match e with
                 | EvConstruct name arity => Some (name, arity)
                 | _ => None
                 end) t.

(** The class names of the plugins whose [run()] was called, in order. *)
Definition runs (t : list event) : list string :=
  omap (fun e => match e with EvRun c => Some c | _ => None end) t.

(** The exceptions written to the log with [checksLogger.error]. *)
Definition logged_errors (t : list event) : list exn :=
  omap (fun e => match e with EvLogError _ ex => Some ex | _ => None end) t.

(** How many times the plugin directory was scanned. *)
Definition walks (t : list event) : nat :=
  List.length
    (List.filter (fun e => match e with EvWalk _ => true | _ => false end) t).

(** The built-in probes called, in order. *)
Definition probes_called (t : list event) : list probe :=
  omap (fun e => match e with EvProbe p => Some p | _ => None end) t.

(** The payloads handed to the emitter. *)
Definition emitted (t : list event) : list pydict :=
  omap (fun e => match e with EvEmit d => Some d | _ => None end) t.

(** The entries added to the scheduler: delay and [firstRun] argument. *)
Definition scheduled (t : list event) : list (pyval * pyval) :=
  omap (fun e => match e with EvEnter d f => Some (d, f) | _ => None end) t.

(** The order in which [doChecks] calls the built-in probes. *)
Definition probe_order : list probe :=
  [Apache; Disk; Load; Memory; MySQL; Network; Nginx; Processes; RabbitMQ;
   MongoDB; CouchDB; IOStats; CPU; Ganglia; Cassandra].

Definition probe_index (p : probe) : nat :=
  match p with
  | Apache => 0 | Disk => 1 | Load => 2 | Memory => 3 | MySQL => 4
  | Network => 5 | Nginx => 6 | Processes => 7 | RabbitMQ => 8
  | MongoDB => 9 | CouchDB => 10 | IOStats => 11 | CPU => 12
  | Ganglia => 13 | Cassandra => 14
  end.

(** The probes of a list that a sequential run reaches: all up to and
    including the first whose call raises. *)
Fixpoint until_first_failure (f : probe -> result pyval) (ps : list probe)
  : list probe :=
  match ps with
  | [] => []
  | p :: rest => p :: (if is_Ok (f p) then until_first_failure f rest else [])
  end.

(** ** The payload in the words of the specification *)

(** The mandatory core fields written by the dictionary display. *)
Definition core_keys : list string :=
  ["collection_timestamp"; "os"; "agentKey"; "agentVersion"; "diskUsage";
   "loadAvrg1"; "loadAvrg5"; "loadAvrg15"; "memPhysUsed"; "memPhysFree";
   "memSwapUsed"; "memSwapFree"; "memCached"; "networkTraffic"; "processes";
   "apiKey"; "events"; "resources"].

(** Whether the element [x] of a sequence given to [dict.update] may
    write the key [k]; of a mapping of two keys either key may be the one
    written. *)
Definition item_writes (x : pyval) (k : string) : bool :=
  match x with
  | PyDict m => bool_decide (is_Some (m !! k))
  | _ => match as_item (fun _ => false) x with
         | Ok (Some (k', _)) => String.eqb k' k
         | _ => false
         end
  end.

(** Whether [checksData.update(v)] may write the key [k]. *)
Definition redefines (v : pyval) (k : string) : bool :=
  match v with
  | PyDict m => bool_decide (is_Some (m !! k))
  | PyTuple xs | PyList xs => existsb (fun x => item_writes x k) xs
  | _ => false
  end.

(** Whether the CPU probe of this cycle returns statistics that hold the
    key [k]; its keys are chosen by [checks.system.Cpu], outside this file. *)
Definition cpu_redefines (w : world) (k : string) : bool :=
  match probe_check w CPU with
  | Ok v => redefines v k
  | Raise _ => false
  end.

(** Entries added to a dictionary, one per element that has one, later
    elements replacing earlier ones with the same key. *)
Definition added {A} (entry : A -> option pyval) (key : A -> string)
    (xs : list A) (m : pydict) : pydict :=
  foldl (fun m x => match entry x with
                    | Some v => <[key x := v]> m
                    | None => m
                    end) m xs.

(** What an event probe contributes: its data, when it produced any. *)
Definition event_entry (w : world) (ep : event_probe) : option pyval :=
  match event_check w ep with
  | Ok v => if truthy v then Some v else None
  | Raise _ => None
  end.

(** Whether a resource probe contributes: its popped snapshot is not empty. *)
Definition contributes (w : world) (rc : resource_probe) : bool :=
  match pop_snapshot w rc with
  | Ok snap => truthy snap
  | Raise _ => false
  end.

(** What a resource probe contributes. *)
Definition resource_entry (w : world) (rc : resource_probe) : option pyval :=
  match pop_snapshot w rc with
  | Ok snap =>
      if truthy snap then
        match resource_value w rc snap with
        | Ok v => Some v
        | Raise _ => None
        end
      else None
  | Raise _ => None
  end.

(** The resource probe was polled: its snapshot was popped and, when not
    empty, turned into an entry. *)
Definition snapshot_taken (w : world) (rc : resource_probe) : Prop :=
  exists snap, pop_snapshot w rc = Ok snap /\
    (truthy snap = true -> exists v, resource_value w rc snap = Ok v).

(** The value a call returned, if it returned. *)
Definition returned {A} (r : result A) : option A :=
  match r with Ok a => Some a | Raise _ => None end.

(** The keys [doChecks] itself writes at the top level of the payload. *)
Definition own_keys : list string :=
  core_keys ++
  ["ganglia"; "datadog"; "cassandra";
   "apacheReqPerSec"; "apacheBusyWorkers"; "apacheIdleWorkers";
   "mysqlConnections"; "mysqlCreatedTmpDiskTables"; "mysqlMaxUsedConnections";
   "mysqlOpenFiles"; "mysqlSlowQueries"; "mysqlTableLocksWaited";
   "mysqlThreadsConnected"; "mysqlSecondsBehindMaster";
   "nginxConnections"; "nginxReqPerSec";
   "rabbitMQ"; "mongoDB"; "couchDB"; "plugins"; "ioStats";
   "systemStats"; "internalHostname"; "uuid"].

(** The CPU statistics of this cycle use none of those keys. *)
Definition cpu_disjoint (w : world) : bool :=
  forallb (fun k => negb (cpu_redefines w k)) own_keys.

(** The payload fields copied from the Apache, MySQL and Nginx statuses:
    key in the payload, key in the status. *)
Definition apache_fields : list (string * string) :=
  [("apacheReqPerSec", "reqPerSec"); ("apacheBusyWorkers", "busyWorkers");
   ("apacheIdleWorkers", "idleWorkers")].

Definition mysql_fields : list (string * string) :=
  [("mysqlConnections", "connections");
   ("mysqlCreatedTmpDiskTables", "createdTmpDiskTables");
   ("mysqlMaxUsedConnections", "maxUsedConnections");
   ("mysqlOpenFiles", "openFiles");
   ("mysqlSlowQueries", "slowQueries");
   ("mysqlTableLocksWaited", "tableLocksWaited");
   ("mysqlThreadsConnected", "threadsConnected")].

Definition nginx_fields : list (string * string) :=
  [("nginxConnections", "connections"); ("nginxReqPerSec", "reqPerSec")].

(** A status probe contributes a field exactly when its value passes the
    test [!= False]. *)
Definition field_written (payload : pydict) (status : pyval)
    (kf : string * string) : Prop :=
  (ne_False status = true ->
   exists x, getitem status (snd kf) = Ok x /\ payload !! fst kf = Some x) /\
  (ne_False status = false -> payload !! fst kf = None).

(** A probe whose value is stored whole contributes its key exactly when
    the value passes the test [!= False]. *)
Definition value_written (payload : pydict) (v : pyval) (k : string) : Prop :=
  payload !! k = if ne_False v then Some v else None.

(** The entry of a resource probe in the words of the specification: the
    timestamp and the data of the snapshot, the format version, and the
    format description only when one was returned. *)
Definition describes_snapshot (w : world) (rc : resource_probe)
    (snap v : pyval) : Prop :=
  exists ts data version format_ entry,
    getindex snap 0 = Ok ts /\
    getindex snap 1 = Ok data /\
    get_format_version w rc = Ok version /\
    describe_format_if_needed w rc = Ok format_ /\
    v = PyDict entry /\
    entry !! "ts" = Some ts /\
    entry !! "data" = Some data /\
    entry !! "format_version" = Some version /\
    entry !! "format_description"
      = (if ne_None format_ then Some format_ else None) /\
    forall k, is_Some (entry !! k) ->
              k ∈ ["ts"; "data"; "format_version"; "format_description"].

(** The block shared by the resource entries. *)
Definition meta_block (api_key host : pyval) : pyval :=
  PyDict (list_to_map [("api_key", api_key); ("host", host)]).

(** The record of the start event. *)
Definition startup_record (w : world) (api_key host : pyval) : pyval :=
  PyDict (list_to_map
            [("api_key", api_key); ("host", host);
             ("timestamp", startup_time w);
             ("event_type", PyStr "agent startup")]).

(** ** The constructor protocol in the words of the specification *)

(** Try the three-argument constructor; if that raises [TypeError] try the
    two-argument one; if that raises [TypeError] try the one without
    arguments; whichever succeeds first is the instance. *)
Definition first_accepting (c : plugin_class) : result plugin_obj :=
  match ctor3 c with
  | Raise TypeError =>
      match ctor2 c with
      | Raise TypeError => ctor0 c
      | r2 => r2
      end
  | r3 => r3
  end.

(** The arities that protocol tries on a class. *)
Definition arities_tried (c : plugin_class) : list nat :=
  match ctor3 c with
  | Raise TypeError =>
      match ctor2 c with
      | Raise TypeError => [3; 2; 0]
      | _ => [3; 2]
      end
  | _ => [3]
  end.

(** The file a plugin name is imported from. *)
Definition plugin_path (dir name : string) : string :=
  path_join dir (name ++ ".py").

(** Looking the class up in an imported module and constructing it. *)
Definition construction (m : pymodule) (name : string) : result plugin_obj :=
  match mod_attr m name with
  | Some c => first_accepting c
  | None => Raise (AttributeError name)
  end.

(** The plugin object an artifact yields, if its import, class lookup and
    construction all succeed. *)
Definition constructed (w : world) (dir name : string) : option plugin_obj :=
  match load_source w name (plugin_path dir name) with
  | Ok m => match construction m name with Ok o => Some o | Raise _ => None end
  | Raise _ => None
  end.

(** The exception an artifact's class lookup or construction raises. *)
Definition construction_error (w : world) (dir name : string) : option exn :=
  match load_source w name (plugin_path dir name) with
  | Ok m => match construction m name with Ok _ => None | Raise e => Some e end
  | Raise _ => None
  end.

(** One turn of the execution loop when [run()] returns. *)
Definition run_step (w : world) (output : pydict) (p : plugin_obj) : pydict :=
  match plugin_run w p with
  | Ok r => <[po_class_name p := r]> output
  | Raise _ => output
  end.

(** The dictionary the execution loop builds from the stored plugins when
    each [run()] returns. *)
Definition run_results (w : world) (ps : list plugin_obj) : pydict :=
  foldl (run_step w) ∅ ps.

(** ** Sample hosts

    Concrete instances and worlds on which the properties below are
    exercised.  The keys of the event, resource and Datadog probes are
    constants of classes defined outside this file; the values here are
    samples. *)

Definition sample_config : pydict :=
  list_to_map
    [("agentKey", PyStr "agent-key"); ("version", PyStr "2.2.0");
     ("apiKey", PyStr "api-key"); ("checkFreq", PyInt 15)].

Definition sample_plugin_config : pydict :=
  <["pluginDirectory" := PyStr "/etc/dd-agent/plugins"]> sample_config.

(** The instance as [__init__] leaves it: no plugin loaded, the operating
    system not resolved yet. *)
Definition fresh_checks (config : pydict) : checks :=
  Checks config None None None
    [EventProbe 0 "Hudson"; EventProbe 1 "Nagios"]
    [ResourceProbe 0 "processes"].

Definition sample_load : pyval :=
  PyDict (list_to_map [("1", PyInt 1); ("5", PyInt 2); ("15", PyInt 3)]).

Definition sample_memory : pyval :=
  PyDict (list_to_map
    [("physUsed", PyInt 700); ("physFree", PyInt 300); ("swapUsed", PyInt 0);
     ("swapFree", PyInt 1000); ("cached", PyInt 50)]).

(** A host without any optional service: those probes return [False]. *)
Definition sample_probes (p : probe) : result pyval :=
  match p with
  | Load => Ok sample_load
  | Memory => Ok sample_memory
  | Disk | Network | Processes => Ok (PyList [])
  | CPU => Ok (PyDict {[ "cpuUser" := PyInt 3 ]})
  | _ => Ok PyFalse
  end.

(** Three plugin classes: one built with three arguments, one only
    without arguments, one whose constructor fails. *)
Definition class_Three : plugin_class :=
  PluginClass (Ok (PluginObj 1 "Three")) (Raise TypeError) (Raise TypeError).

Definition class_Zero : plugin_class :=
  PluginClass (Raise TypeError) (Raise TypeError) (Ok (PluginObj 2 "Zero")).

Definition class_Broken : plugin_class :=
  PluginClass (Raise (OtherException "boom")) (Ok (PluginObj 3 "Broken"))
              (Ok (PluginObj 3 "Broken")).

Definition module_of (name : string) (c : plugin_class) : pymodule :=
  PyModule (fun attr => if String.eqb attr name then Some c else None).

Definition sample_load_source (name path : string) : result pymodule :=
  if String.eqb name "Three" then Ok (module_of "Three" class_Three)
  else if String.eqb name "Zero" then Ok (module_of "Zero" class_Zero)
  else if String.eqb name "Broken" then Ok (module_of "Broken" class_Broken)
  else Raise IOError.

Definition sample_walk (dir : string)
  : list (string * list string * list string) :=
  [(dir, [], ["Three.py"; "README"; "Broken.py"; "Three.pyc"; "Zero.py"])].

Definition sample_run (p : plugin_obj) : result pyval :=
  Ok (PyDict {[ "id" := PyInt (Z.of_nat (po_id p)) ]}).

(** A host on which everything answers; no plugin directory exists. *)
Definition sample_world : world :=
  {| sys_platform := "linux2";
     platform_mac_ver := PyNone;
     probe_check := sample_probes;
     datadog_check := fun _ => Ok (PyDict ∅);
     path_exists := fun _ => false;
     os_walk := fun _ => [];
     load_source := fun _ _ => Raise IOError;
     plugin_run := sample_run;
     socket_gethostname := Ok (PyStr "host-1");
     uuid5_hex := "0123456789abcdef0123456789abcdef";
     time_time := PyFloat (3 # 2);
     startup_time := PyInt 1300000000;
     event_check := fun _ => Ok PyNone;
     resource_check := fun _ => Ok tt;
     pop_snapshot := fun _ => Ok PyNone;
     describe_format_if_needed := fun _ => Ok PyNone;
     get_format_version := fun _ => Ok (PyInt 1);
     emitter := fun _ => Ok tt;
     iter_reversed := fun _ => false |}.

Definition with_probe_check (f : probe -> result pyval) (w : world) : world :=
  {| sys_platform := sys_platform w;
     platform_mac_ver := platform_mac_ver w;
     probe_check := f;
     datadog_check := datadog_check w;
     path_exists := path_exists w;
     os_walk := os_walk w;
     load_source := load_source w;
     plugin_run := plugin_run w;
     socket_gethostname := socket_gethostname w;
     uuid5_hex := uuid5_hex w;
     time_time := time_time w;
     startup_time := startup_time w;
     event_check := event_check w;
     resource_check := resource_check w;
     pop_snapshot := pop_snapshot w;
     describe_format_if_needed := describe_format_if_needed w;
     get_format_version := get_format_version w;
     emitter := emitter w;
     iter_reversed := iter_reversed w |}.

Definition with_plugin_files (walk : string -> list (string * list string * list string))
    (load : string -> string -> result pymodule) (w : world) : world :=
  {| sys_platform := sys_platform w;
     platform_mac_ver := platform_mac_ver w;
     probe_check := probe_check w;
     datadog_check := datadog_check w;
     path_exists := fun _ => true;
     os_walk := walk;
     load_source := load;
     plugin_run := plugin_run w;
     socket_gethostname := socket_gethostname w;
     uuid5_hex := uuid5_hex w;
     time_time := time_time w;
     startup_time := startup_time w;
     event_check := event_check w;
     resource_check := resource_check w;
     pop_snapshot := pop_snapshot w;
     describe_format_if_needed := describe_format_if_needed w;
     get_format_version := get_format_version w;
     emitter := emitter w;
     iter_reversed := iter_reversed w |}.

Definition with_gethostname (h : result pyval) (w : world) : world :=
  {| sys_platform := sys_platform w;
     platform_mac_ver := platform_mac_ver w;
     probe_check := probe_check w;
     datadog_check := datadog_check w;
     path_exists := path_exists w;
     os_walk := os_walk w;
     load_source := load_source w;
     plugin_run := plugin_run w;
     socket_gethostname := h;
     uuid5_hex := uuid5_hex w;
     time_time := time_time w;
     startup_time := startup_time w;
     event_check := event_check w;
     resource_check := resource_check w;
     pop_snapshot := pop_snapshot w;
     describe_format_if_needed := describe_format_if_needed w;
     get_format_version := get_format_version w;
     emitter := emitter w;
     iter_reversed := iter_reversed w |}.

Definition with_emitter (f : pydict -> result unit) (w : world) : world :=
  {| sys_platform := sys_platform w;
     platform_mac_ver := platform_mac_ver w;
     probe_check := probe_check w;
     datadog_check := datadog_check w;
     path_exists := path_exists w;
     os_walk := os_walk w;
     load_source := load_source w;
     plugin_run := plugin_run w;
     socket_gethostname := socket_gethostname w;
     uuid5_hex := uuid5_hex w;
     time_time := time_time w;
     startup_time := startup_time w;
     event_check := event_check w;
     resource_check := resource_check w;
     pop_snapshot := pop_snapshot w;
     describe_format_if_needed := describe_format_if_needed w;
     get_format_version := get_format_version w;
     emitter := f;
     iter_reversed := iter_reversed w |}.

Definition with_snapshots (pop : resource_probe -> result pyval)
    (describe : resource_probe -> result pyval) (w : world) : world :=
  {| sys_platform := sys_platform w;
     platform_mac_ver := platform_mac_ver w;
     probe_check := probe_check w;
     datadog_check := datadog_check w;
     path_exists := path_exists w;
     os_walk := os_walk w;
     load_source := load_source w;
     plugin_run := plugin_run w;
     socket_gethostname := socket_gethostname w;
     uuid5_hex := uuid5_hex w;
     time_time := time_time w;
     startup_time := startup_time w;
     event_check := event_check w;
     resource_check := resource_check w;
     pop_snapshot := pop;
     describe_format_if_needed := describe;
     get_format_version := get_format_version w;
     emitter := emitter w;
     iter_reversed := iter_reversed w |}.

(** The same host with a plugin directory holding the three plugins. *)
Definition plugin_world : world :=
  with_plugin_files sample_walk sample_load_source sample_world.

(** A plugin directory in which the import of the first artifact fails. *)
Definition bad_import_world : world :=
  with_plugin_files
    (fun dir => [(dir, [], ["Alpha.py"; "Zero.py"])])
    (fun name path =>
       if String.eqb name "Alpha" then Raise (OtherException "SyntaxError")
       else sample_load_source name path)
    sample_world.

(** An existing plugin directory without any plugin in it. *)
Definition empty_dir_world : world :=
  with_plugin_files (fun dir => [(dir, [], [])]) (fun _ _ => Raise IOError)
    sample_world.

(** A host on which the Apache probe raises. *)
Definition apache_down_world : world :=
  with_probe_check
    (fun p => match p with
              | Apache => Raise (OtherException "HTTPException")
              | _ => sample_probes p
              end)
    sample_world.

(** A host from which the payload cannot be sent. *)
Definition emitter_down_world : world :=
  with_emitter (fun _ => Raise IOError) sample_world.

(** A host whose name cannot be resolved. *)
Definition no_hostname_world : world :=
  with_gethostname (Raise SocketError) sample_world.

(** A host whose resource probe has a snapshot and announces its format. *)
Definition snapshot_world : world :=
  with_snapshots
    (fun _ => Ok (PyTuple [PyInt 1300000000; PyList [PyStr "init"]]))
    (fun _ => Ok (PyStr "pid,name"))
    sample_world.


(** ** Notions used in the statements and their proofs *)

(** The instance fields that no method assigns after [__init__]. *)
Definition same_setup (s s' : checks) : Prop :=
  self_agentConfig s' = self_agentConfig s /\
  self_datadogs s' = self_datadogs s /\
  self_event_checks s' = self_event_checks s /\
  self_resources_checks s' = self_resources_checks s.

(** [confined P m]: running [m] leaves the set-up fields alone and makes
    only calls that satisfy [P]. *)
Definition confined {A} (P : event -> Prop) (m : M A) : Prop :=
  forall s, same_setup s (self_after (m s)) /\ Forall P (calls (m s)).

(** The calls the plugin loader makes. *)
Definition plugin_event (e : event) : Prop :=
  match e with
  | EvGetPlugins | EvWalk _ | EvImport _ _ | EvConstruct _ _ | EvRun _
  | EvLogError _ _ => True
  | _ => False
  end.

(** An artifact loads in isolation when its import returns and whatever
    its class lookup or construction raises derives from [Exception]. *)
Definition loads_in_isolation (w : world) (dir name : string) : Prop :=
  exists m, load_source w name (plugin_path dir name) = Ok m /\
    forall e, construction m name = Raise e -> is_Exception e = true.

(** The [run()] of a plugin returns in this cycle. *)
Definition run_ok (w : world) (p : plugin_obj) : Prop :=
  exists r, plugin_run w p = Ok r.

(** The configured plugin directory, if the key is there. *)
Definition plugin_dir (s : checks) : option pyval :=
  self_agentConfig s !! "pluginDirectory".

(** The dictionary built by the execution loop, as the value returned. *)
Definition dict_result (r : result pydict) : result pyval :=
  match r with Ok d => Ok (PyDict d) | Raise e => Raise e end.

(** Kinds of recorded calls. *)
Definition not_a_walk (e : event) : Prop :=
  match e with EvWalk _ => False | _ => True end.

Definition only_a_run (e : event) : Prop :=
  match e with EvRun _ => True | _ => False end.

Definition a_load_event (e : event) : Prop :=
  match e with
  | EvImport _ _ | EvConstruct _ _ | EvLogError _ _ => True
  | _ => False
  end.

Definition not_a_probe (e : event) : Prop :=
  match e with EvProbe _ => False | _ => True end.

Definition not_a_delivery (e : event) : Prop :=
  match e with EvEmit _ | EvEnter _ _ => False | _ => True end.

(** A write to [checksData] guarded by a test. *)
Definition put_if (b : bool) (k : string) (v : pyval) (d : pydict) : pydict :=
  if b then <[k := v]> d else d.

(** ** The mount point of the Linux process file system *)

(** [s] without the literal [lit] at its front, when it starts with it. *)
Fixpoint strip_literal (lit s : string) : option string :=
  match lit with
  | EmptyString => Some s
  | String c lit' =>
      match s with
      | String c' s' => if Ascii.eqb c c' then strip_literal lit' s' else None
      | EmptyString => None
      end
  end.

(** The one character that [.] does not match. *)
Definition newline : ascii := "010"%char.

(** The end of the pattern, [.*?\)], at the front of [s]: the closing
    parenthesis is tried first, then one more character for the dot. *)
Fixpoint match_options (s : string) : bool :=
  match s with
  | EmptyString => false
  | String c s' =>
      if Ascii.eqb c ")"%char then true
      else if Ascii.eqb c newline then false
      else match_options s'
  end.

(** [(.*?) \(.*?\)] at the front of [s], the group holding [group] so
    far: the rest of the pattern is tried first, then one more character
    for the group.  The result is what the group holds. *)
Fixpoint match_location (s group : string) : option string :=
  if match strip_literal " (" s with
     | Some rest => match_options rest
     | None => false
     end
  then Some group
  else match s with
       | EmptyString => None
       | String c s' =>
           if Ascii.eqb c newline then None
           else match_location s' (group ++ String c EmptyString)
       end.

(** [re.search(r'linprocfs on (.*?) \(.*?\)', s)]: the match at the first
    position that has one; [group(1)] of the match. *)
Fixpoint re_search (s : string) : option string :=
  match match strip_literal "linprocfs on " s with
        | Some rest => match_location rest EmptyString
        | None => None
        end with
  | Some group => Some group
  | None => match s with
            | EmptyString => None
            | String _ s' => re_search s'
            end
  end.

(** Lines 472-484, applied to what [mount] printed: [False] when the
    search finds nothing, the group otherwise. *)
Definition getMountedLinuxProcFsLocation (mountedPartitions : string) : pyval :=
  match re_search mountedPartitions with
  | None => PyFalse
  | Some location => PyStr location
  end.

(** A string in which the dot matches every character. *)
Fixpoint on_one_line (s : string) : bool :=
  match s with
  | EmptyString => true
  | String c s' => negb (Ascii.eqb c newline) && on_one_line s'
  end.

(** The output of [mount] names [location] as a mount point of
    [linprocfs]: some line reads [linprocfs on location (options)]. *)
Definition names_mount_point (output location : string) : Prop :=
  exists before options after,
    output = (before ++ "linprocfs on " ++ location ++ " (" ++ options
                     ++ ")" ++ after)%string /\
    on_one_line location = true /\
    on_one_line options = true.

(** What [mount] prints on a FreeBSD host with the Linux compatibility
    layer. *)
Definition freebsd_mount_output : string :=
  String.concat (String newline EmptyString)
    ["/dev/ad0s1a on / (ufs, local)";
     "devfs on /dev (devfs, local)";
     "linprocfs on /compat/linux/proc (linprocfs, local)";
     ""].

(** ** The constructor: [__init__] *)

(** What the constructor finds on the host besides the [world]: the
    output of [mount], and what the constructors of the probe classes
    return for the arguments they are given. *)
Record host := Host {
  mount_stdout : result string;
  probe_ctor : probe -> list pyval -> result unit;
  ddRollupLP : result dd_probe;
  Hudson : result event_probe;
  Nagios : pyval -> result event_probe;
  ResProcesses : pydict -> result resource_probe
}.

(** A [checks] instance with the two attributes only the constructor
    writes. *)
Record instance := Instance {
  inst_checks : checks;
  self_topIndex : Z;
  self_linuxProcFsLocation : pyval
}.

(** Lines 83-97: the built-in probes in the order they are built, each
    with its arguments. *)
Definition ctor_calls (location : pyval) (topIndex : Z)
  : list (probe * list pyval) :=
  [(Apache, []); (Nginx, []); (Disk, []); (IOStats, []);
   (Load, [location]); (Memory, [location; PyInt topIndex]);
   (Network, []); (Processes, []); (CPU, []); (CouchDB, []); (MongoDB, []);
   (MySQL, []); (RabbitMQ, []); (Ganglia, []); (Cassandra, [])].

(** [s.startswith(lit)]. *)
Definition startswith (s lit : string) : bool :=
  match strip_literal lit s with Some _ => true | None => false end.

(** Lines 59-105.  [logging.getLogger] and [socket.setdefaulttimeout]
    are taken to return; [Nagios] is given the host name, which is asked
    for after [Hudson()] has returned. *)
Definition init (w : world) (h : host) (agentConfig : pydict)
  : result instance :=
  let macV := if String.eqb (sys_platform w) "darwin" then platform_mac_ver w
              else PyNone in
  let? topIndex :=
    if truthy macV then
      let? release := getindex macV 0 in
      match release with
      | PyStr r => Ok (if startswith r "10.6." then 6%Z else 5%Z)
      | _ => Raise (AttributeError "startswith")
      end
    else Ok 5%Z in
  let? mountedPartitions := mount_stdout h in
  let location := getMountedLinuxProcFsLocation mountedPartitions in
  let? _ := fold_result (ctor_calls location topIndex) tt
              (fun _ '(p, args) => probe_ctor h p args) in
  let? datadogs :=
    if truthy (default PyFalse (agentConfig !! "has_datadog"))
    then let? dd := ddRollupLP h in Ok (Some [dd])
    else Ok None in
  let? hudson := Hudson h in
  let? hostname := socket_gethostname w in
  let? nagios := Nagios h hostname in
  let? processes := ResProcesses h agentConfig in
  Ok (Instance (Checks agentConfig None None datadogs [hudson; nagios]
                       [processes])
               topIndex location).

(** A host on which every constructor returns. *)
Definition sample_host : host :=
  {| mount_stdout := Ok freebsd_mount_output;
     probe_ctor := fun _ _ => Ok tt;
     ddRollupLP := Ok (DdProbe 0 "rollup");
     Hudson := Ok (EventProbe 0 "Hudson");
     Nagios := fun _ => Ok (EventProbe 1 "Nagios");
     ResProcesses := fun _ => Ok (ResourceProbe 0 "processes") |}.

(** ** Further notions: file names *)

(** Whether a name has a dot in it. *)
Fixpoint has_dot (s : string) : bool :=
  match s with
  | EmptyString => false
  | String c rest => Ascii.eqb c "."%char || has_dot rest
  end.

(** ** Further notions: instance invariants *)

(** [keeps I m]: running [m] on an instance that satisfies [I] leaves an
    instance that satisfies [I], whether [m] returns or raises. *)
Definition keeps {A} (I : checks -> Prop) (m : M A) : Prop :=
  forall s, I s -> I (self_after (m s)).

(** The operating system [doChecks] settles on when [self.os] is unset. *)
Definition resolved_os (w : world) : string :=
  if String.eqb (sys_platform w) "darwin" && truthy (platform_mac_ver w)
  then "mac"
  else match String.index 0 "freebsd" (sys_platform w) with
       | Some _ => "freebsd"
       | None => "linux"
       end.

(** ** Further notions: the fields of the payload *)

(** The payload fields read out of the load and memory results: key in
    the payload, key in the result. *)
Definition load_fields : list (string * string) :=
  [("loadAvrg1", "1"); ("loadAvrg5", "5"); ("loadAvrg15", "15")].

Definition memory_fields : list (string * string) :=
  [("memPhysUsed", "physUsed"); ("memPhysFree", "physFree");
   ("memSwapUsed", "swapUsed"); ("memSwapFree", "swapFree");
   ("memCached", "cached")].

(** A field of the payload is the entry of a probe's result. *)
Definition field_copied (payload : pydict) (result_ : pyval)
    (kf : string * string) : Prop :=
  exists x, getitem result_ (snd kf) = Ok x /\ payload !! fst kf = Some x.

(** The Datadog roll-up probes of an instance. *)
Definition datadog_probes (s : checks) : list dd_probe :=
  match self_datadogs s with Some l => l | None => [] end.

(** The value of [self.os] once lines 292-302 have run. *)
Definition os_in_cycle (w : world) (s : checks) : string :=
  match self_os s with
  | Some o => if String.eqb o "" then resolved_os w else o
  | None => resolved_os w
  end.

(** ** Further notions: the calls of the loader and of the roll-up probes *)

(** The keys of the roll-up probes checked, in the order of the calls. *)
Definition datadogs_called (t : list event) : list string :=
  omap (fun e => match e with EvDatadog k => Some k | _ => None end) t.

(** One turn of the loop of [getDatadogData]. *)
Definition dd_body (w : world) (result_ : pydict) (dd : dd_probe) : M pydict :=
  let! _ := emit (EvDatadog (dd_key dd)) in
  let! r := lift (datadog_check w dd) in
  ret (<[dd_key dd := r]> result_).

(** The imports made, each with the path it was given. *)
Definition import_paths (t : list event) : list (string * string) :=
  omap (fun e => match e with
                 | EvImport name path => Some (name, path)
                 | _ => None
                 end) t.

(** A call of the loader that imports only what [names] holds, from a
    file directly under [dir]. *)
Definition imports_under (dir : string) (names : list string) (e : event)
  : Prop :=
  match e with
  | EvImport name path => path = plugin_path dir name /\ name ∈ names
  | _ => True
  end.

(** A plugin directory whose only plugin file lies in a subdirectory. *)
Definition nested_plugin_world : world :=
  with_plugin_files
    (fun dir => [(dir, ["contrib"], []);
                 (path_join dir "contrib", [], ["Zero.py"])])
    (fun name path =>
       if String.eqb path "/etc/dd-agent/plugins/contrib/Zero.py"
       then sample_load_source name path
       else Raise IOError)
    sample_world.

(** ** The collection calls of a cycle *)

(** The calls [doChecks] makes under [# Do the checks], lines 307-323: the
    built-in probes, [getPlugins] and [getDatadogData]. *)
Inductive collection_call :=
| BuiltIn (p : probe)
| Plugins
| Datadog.

(** Their order in the source. *)
Definition call_order : list collection_call :=
  [BuiltIn Apache; BuiltIn Disk; BuiltIn Load; BuiltIn Memory; BuiltIn MySQL;
   BuiltIn Network; BuiltIn Nginx; BuiltIn Processes; BuiltIn RabbitMQ;
   BuiltIn MongoDB; BuiltIn CouchDB; Plugins; BuiltIn IOStats; BuiltIn CPU;
   BuiltIn Ganglia; Datadog; BuiltIn Cassandra].

(** What each call gives when it is made on the instance [s]. *)
Definition call_result (w : world) (s : checks) (c : collection_call)
  : result pyval :=
  match c with
  | BuiltIn p => probe_check w p
  | Plugins => res (getPlugins w s)
  | Datadog => res (getDatadogData w s)
  end.

(** The built-in probes among some calls. *)
Definition built_ins (cs : list collection_call) : list probe :=
  omap (fun c => match c with BuiltIn p => Some p | _ => None end) cs.

(** The elements of a list that a sequential run reaches: all up to and
    including the first on which the call raises. *)
Fixpoint reached {A} (f : A -> result pyval) (xs : list A) : list A :=
  match xs with
  | [] => []
  | x :: rest => x :: (if is_Ok (f x) then reached f rest else [])
  end.

(** The exception of the first call that raises. *)
Fixpoint first_error {A} (f : A -> result pyval) (xs : list A) : option exn :=
  match xs with
  | [] => None
  | x :: rest =>
      match f x with
      | Raise e => Some e
      | Ok _ => first_error f rest
      end
  end.

(** The keys an optional call contributes to the payload; the core probes
    and the CPU probe have none of their own here. *)
Definition keys_of (c : collection_call) : list string :=
  match c with
  | BuiltIn Apache =>
      ["apacheReqPerSec"; "apacheBusyWorkers"; "apacheIdleWorkers"]
  | BuiltIn MySQL =>
      ["mysqlConnections"; "mysqlCreatedTmpDiskTables";
       "mysqlMaxUsedConnections"; "mysqlOpenFiles"; "mysqlSlowQueries";
       "mysqlTableLocksWaited"; "mysqlThreadsConnected"]
  | BuiltIn Nginx => ["nginxConnections"; "nginxReqPerSec"]
  | BuiltIn RabbitMQ => ["rabbitMQ"]
  | BuiltIn MongoDB => ["mongoDB"]
  | BuiltIn CouchDB => ["couchDB"]
  | Plugins => ["plugins"]
  | BuiltIn IOStats => ["ioStats"]
  | BuiltIn Ganglia => ["ganglia"]
  | Datadog => ["datadog"]
  | BuiltIn Cassandra => ["cassandra"]
  | _ => []
  end.

(** The test the value of an optional call has to pass for its keys to be
    written: [is not False and is not None] for Ganglia, the roll-ups and
    Cassandra, [!= False] for the others. *)
Definition passes (c : collection_call) (v : pyval) : bool :=
  match c with
  | BuiltIn Ganglia | Datadog | BuiltIn Cassandra => not_False_nor_None v
  | _ => ne_False v
  end.

(** An instance with one roll-up probe, on a host where its check
    raises. *)
Definition rollup_checks : checks :=
  Checks sample_config None None (Some [DdProbe 0 "rollup"])
    [EventProbe 0 "Hudson"; EventProbe 1 "Nagios"]
    [ResourceProbe 0 "processes"].

Definition rollup_down_world : world :=
  {| sys_platform := sys_platform sample_world;
     platform_mac_ver := platform_mac_ver sample_world;
     probe_check := probe_check sample_world;
     datadog_check := fun _ => Raise IOError;
     path_exists := path_exists sample_world;
     os_walk := os_walk sample_world;
     load_source := load_source sample_world;
     plugin_run := plugin_run sample_world;
     socket_gethostname := socket_gethostname sample_world;
     uuid5_hex := uuid5_hex sample_world;
     time_time := time_time sample_world;
     startup_time := startup_time sample_world;
     event_check := event_check sample_world;
     resource_check := resource_check sample_world;
     pop_snapshot := pop_snapshot sample_world;
     describe_format_if_needed := describe_format_if_needed sample_world;
     get_format_version := get_format_version sample_world;
     emitter := emitter sample_world;
     iter_reversed := iter_reversed sample_world |}.

(** The sample host with a CPU probe that returns [cpu]. *)
Definition cpu_world (cpu : pyval) : world :=
  with_probe_check
    (fun p => match p with
              | CPU => Ok cpu
              | _ => sample_probes p
              end)
    sample_world.

(** ** The loader's protocol over a directory *)

(** The constructor arities tried for an artifact: those of the protocol
    when the import returns a module that holds the class, none
    otherwise. *)
Definition arities_of (w : world) (dir name : string) : list nat :=
  match load_source w name (plugin_path dir name) with
  | Ok m => match mod_attr m name with
            | Some c => arities_tried c
            | None => []
            end
  | Raise _ => []
  end.


(** * Properties *)

(** ** Reasoning about the monad *)

Lemma bind_Ok {A B} (m : M A) (k : A -> M B) s a :
  res (m s) = Ok a ->
  bind m k s =
    Outcome (res (k a (self_after (m s))))
            (self_after (k a (self_after (m s))))
            (calls (m s) ++ calls (k a (self_after (m s)))).
Proof. intros H. unfold bind. by rewrite H. Qed.

Lemma bind_Raise {A B} (m : M A) (k : A -> M B) s e :
  res (m s) = Raise e ->
  bind m k s = Outcome (Raise e) (self_after (m s)) (calls (m s)).
Proof. intros H. unfold bind. by rewrite H. Qed.

Lemma bind_res_Ok {A B} (m : M A) (k : A -> M B) s b :
  res (bind m k s) = Ok b ->
  exists a, res (m s) = Ok a /\ res (k a (self_after (m s))) = Ok b.
Proof.
  unfold bind. destruct (res (m s)) as [a|e] eqn:E; simpl; [eauto | done].
Qed.

Lemma bind_ret {A B} (a : A) (k : A -> M B) s : bind (ret a) k s = k a s.
Proof. unfold bind, ret; simpl. by destruct (k a s). Qed.

Lemma bind_gets {A B} (f : checks -> A) (k : A -> M B) s :
  bind (gets f) k s = k (f s) s.
Proof. unfold bind, gets; simpl. by destruct (k (f s) s). Qed.

Lemma bind_modify {B} (f : checks -> checks) (k : unit -> M B) s :
  bind (modify f) k s = k tt (f s).
Proof. unfold bind, modify; simpl. by destruct (k tt (f s)). Qed.

Lemma bind_lift_Ok {A B} (a : A) (k : A -> M B) s :
  bind (lift (Ok a)) k s = k a s.
Proof. unfold bind, lift; simpl. by destruct (k a s). Qed.

Lemma bind_lift_Raise {A B} e (k : A -> M B) s :
  bind (lift (Raise e)) k s = Outcome (Raise e) s [].
Proof. done. Qed.

Lemma bind_emit {B} e (k : unit -> M B) s :
  bind (emit e) k s =
    Outcome (res (k tt s)) (self_after (k tt s)) (e :: calls (k tt s)).
Proof. done. Qed.

Lemma bind_assoc {A B C} (m : M A) (k : A -> M B) (h : B -> M C) s :
  bind (bind m k) h s = bind m (fun a => bind (k a) h) s.
Proof.
  unfold bind. destruct (res (m s)) as [a|e]; simpl; [|done].
  destruct (res (k a (self_after (m s)))); simpl; by rewrite ?app_assoc.
Qed.

Lemma and_then_Ok {A B} (r : result A) (k : A -> result B) b :
  and_then r k = Ok b -> exists a, r = Ok a /\ k a = Ok b.
Proof. destruct r; simpl; [eauto | done]. Qed.

Lemma same_setup_refl s : same_setup s s.
Proof. by repeat split. Qed.

Lemma same_setup_trans s1 s2 s3 :
  same_setup s1 s2 -> same_setup s2 s3 -> same_setup s1 s3.
Proof. unfold same_setup. intros (?&?&?&?) (?&?&?&?). repeat split; congruence. Qed.

Section Confined.

Context (P : event -> Prop).

Lemma confined_ret {A} (a : A) : confined P (ret a).
Proof. intros s. split; [apply same_setup_refl | constructor]. Qed.

Lemma confined_raise {A} e : confined P (@raise A e).
Proof. intros s. split; [apply same_setup_refl | constructor]. Qed.

Lemma confined_lift {A} (r : result A) : confined P (lift r).
Proof. intros s. split; [apply same_setup_refl | constructor]. Qed.

Lemma confined_gets {A} (f : checks -> A) : confined P (gets f).
Proof. intros s. split; [apply same_setup_refl | constructor]. Qed.

Lemma confined_emit e : P e -> confined P (emit e).
Proof. intros H s. split; [apply same_setup_refl | by repeat constructor]. Qed.

Lemma confined_with_plugins f :
  confined P (modify (fun s => with_plugins (f s) s)).
Proof. intros s. split; [by repeat split | constructor]. Qed.

Lemma confined_with_os o : confined P (modify (with_os o)).
Proof. intros s. split; [by repeat split | constructor]. Qed.

Lemma confined_bind {A B} (m : M A) (k : A -> M B) :
  confined P m -> (forall a, confined P (k a)) -> confined P (bind m k).
Proof.
  intros Hm Hk s. destruct (Hm s) as [Hs Hc]. unfold bind.
  destruct (res (m s)) as [a|e]; simpl; [|done].
  destruct (Hk a (self_after (m s))) as [Hs' Hc']. split.
  - eapply same_setup_trans; eauto.
  - by apply Forall_app.
Qed.

Lemma confined_try_except {A} (m : M A) handles (h : exn -> M A) :
  confined P m -> (forall e, confined P (h e)) ->
  confined P (try_except m handles h).
Proof.
  intros Hm Hh s. destruct (Hm s) as [Hs Hc]. unfold try_except.
  destruct (res (m s)) as [a|e]; simpl; [done|].
  destruct (handles e); [|done].
  destruct (Hh e (self_after (m s))) as [Hs' Hc']. split; simpl.
  - eapply same_setup_trans; eauto.
  - by apply Forall_app.
Qed.

Lemma confined_for_each {A} (xs : list A) (body : A -> M unit) :
  (forall x, confined P (body x)) -> confined P (for_each xs body).
Proof.
  intros Hb. induction xs as [|x xs IH]; simpl.
  - apply confined_ret.
  - apply confined_bind; [apply Hb | intros _; apply IH].
Qed.

Lemma confined_for_fold {A B} (xs : list A) (acc : B) (body : B -> A -> M B) :
  (forall b x, confined P (body b x)) -> confined P (for_fold xs acc body).
Proof.
  intros Hb. revert acc. induction xs as [|x xs IH]; intros acc; simpl.
  - apply confined_ret.
  - apply confined_bind; [apply Hb | intros b; apply IH].
Qed.

End Confined.

Lemma confined_weaken {A} (P Q : event -> Prop) (m : M A) :
  (forall e, P e -> Q e) -> confined P m -> confined Q m.
Proof.
  intros HPQ Hm s. destruct (Hm s) as [Hs Hc]. split; [done|].
  eapply Forall_impl; eauto.
Qed.

(** Solves [confined P m] for a method written with the combinators, given
    a tactic that settles [P e] for each recorded call and one that settles
    the methods called. *)
Ltac confine_with tac leaf :=
  repeat first
    [ progress intros
    | match goal with
      | |- confined _ (bind _ _) => apply confined_bind
      | |- confined _ (try_except _ _ _) => apply confined_try_except
      | |- confined _ (for_each _ _) => apply confined_for_each
      | |- confined _ (for_fold _ _ _) => apply confined_for_fold
      | |- confined _ (emit _) => apply confined_emit; tac
      | |- confined _ (ret _) => apply confined_ret
      | |- confined _ (raise _) => apply confined_raise
      | |- confined _ (lift _) => apply confined_lift
      | |- confined _ (gets _) => apply confined_gets
      | |- confined _ (modify (with_os _)) => apply confined_with_os
      | |- confined _ (modify _) => apply confined_with_plugins
      | |- confined _ (match ?x with _ => _ end) => destruct x
      | |- confined _ (if ?b then _ else _) => destruct b
      | |- confined _ _ => leaf
      end ].

Ltac confine tac := confine_with tac fail.

Lemma getPlugins_confined w : confined plugin_event (getPlugins w).
Proof.
  unfold getPlugins, load_plugins, load_one, run_plugins, instantiate,
    call_ctor, append_plugin.
  confine ltac:(exact I).
Qed.

(** ** The plugin loader *)

Lemma instantiate_eq name c s :
  instantiate name c s =
    Outcome (first_accepting c) s (EvConstruct name <$> arities_tried c).
Proof.
  unfold instantiate, try_except, call_ctor, bind, emit, lift, first_accepting,
    arities_tried; simpl.
  destruct (ctor3 c) as [o3|[]]; simpl; try done.
  destruct (ctor2 c) as [o2|[]]; simpl; try done.
Qed.

Lemma imported_constructs name l : imported (EvConstruct name <$> l) = [].
Proof. by induction l. Qed.

Lemma logged_constructs name l : logged_errors (EvConstruct name <$> l) = [].
Proof. by induction l. Qed.

Lemma omap_cons_eq {A B} (f : A -> option B) x l :
  omap f (x :: l) = match f x with Some y => y :: omap f l | None => omap f l end.
Proof. done. Qed.


Section Loading.

Variable w : world.
Variable dir : string.

Lemma load_one_built name s m o ps :
  load_source w name (plugin_path dir name) = Ok m ->
  construction m name = Ok o ->
  self_plugins s = Some ps ->
  res (load_one w dir name s) = Ok tt /\
  self_plugins (self_after (load_one w dir name s)) = Some (ps ++ [o]) /\
  imported (calls (load_one w dir name s)) = [name] /\
  logged_errors (calls (load_one w dir name s)) = [].
Proof.
  intros Hm Hc Hps. unfold load_one, construction, plugin_path in *.
  destruct (mod_attr m name) as [c|] eqn:Hattr; [|done].
  unfold bind, try_except, lift, emit, ret, append_plugin, modify; simpl.
  rewrite Hm; simpl. rewrite Hattr; simpl.
  rewrite !instantiate_eq; simpl. rewrite Hc; simpl. rewrite Hps.
  unfold imported, logged_errors. rewrite !omap_app, !app_nil_r.
  fold (imported (EvConstruct name <$> arities_tried c)).
  fold (logged_errors (EvConstruct name <$> arities_tried c)).
  rewrite imported_constructs, logged_constructs.
  by repeat split.
Qed.

Lemma load_one_skipped name s m e :
  load_source w name (plugin_path dir name) = Ok m ->
  construction m name = Raise e ->
  is_Exception e = true ->
  res (load_one w dir name s) = Ok tt /\
  self_after (load_one w dir name s) = s /\
  imported (calls (load_one w dir name s)) = [name] /\
  logged_errors (calls (load_one w dir name s)) = [e].
Proof.
  intros Hm Hc He. unfold load_one, construction, plugin_path in *.
  unfold bind, try_except, lift, emit, ret, raise, append_plugin, modify; simpl.
  rewrite Hm; simpl.
  destruct (mod_attr m name) as [c|] eqn:Hattr; simpl.
  - rewrite !instantiate_eq; simpl. rewrite Hc; simpl. rewrite He; simpl.
    unfold imported, logged_errors. rewrite !omap_app.
    fold (imported (EvConstruct name <$> arities_tried c)).
    fold (logged_errors (EvConstruct name <$> arities_tried c)).
    rewrite imported_constructs, logged_constructs.
    by repeat split.
  - injection Hc as <-. by repeat split.
Qed.


Lemma load_one_import_fails name s e :
  load_source w name (plugin_path dir name) = Raise e ->
  load_one w dir name s =
    Outcome (Raise e) s [EvImport name (plugin_path dir name)].
Proof.
  intros Hm. unfold load_one, plugin_path in *.
  unfold bind, lift, emit; simpl. by rewrite Hm.
Qed.

Lemma load_loop names : forall s ps,
  self_plugins s = Some ps ->
  Forall (loads_in_isolation w dir) names ->
  let o := for_each names (load_one w dir) s in
  res o = Ok tt /\
  self_plugins (self_after o) = Some (ps ++ omap (constructed w dir) names) /\
  imported (calls o) = names /\
  logged_errors (calls o) = omap (construction_error w dir) names.
Proof.
  induction names as [|name names IH]; intros s ps Hps Hall.
  - simpl. by rewrite app_nil_r.
  - apply Forall_cons in Hall as [(m & Hm & Hex) Hall].
    cbn zeta. cbn [for_each]. rewrite !omap_cons_eq.
    unfold constructed at 1, construction_error at 1.
    rewrite Hm. destruct (construction m name) as [o|e] eqn:Hc.
    + destruct (load_one_built name s m o ps Hm Hc Hps) as (Hr & Hp & Hi & Hl).
      rewrite (bind_Ok _ _ _ _ Hr). cbn [res self_after calls].
      destruct (IH _ _ Hp Hall) as (Hr' & Hp' & Hi' & Hl').
      unfold imported, logged_errors in *. rewrite !omap_app.
      rewrite Hr', Hp', Hi, Hl, Hi', Hl'. by rewrite <- app_assoc.
    + destruct (load_one_skipped name s m e Hm Hc (Hex e eq_refl))
        as (Hr & Hs & Hi & Hl).
      rewrite (bind_Ok _ _ _ _ Hr). cbn [res self_after calls]. rewrite Hs.
      destruct (IH _ _ Hps Hall) as (Hr' & Hp' & Hi' & Hl').
      unfold imported, logged_errors in *. rewrite !omap_app.
      by rewrite Hr', Hp', Hi, Hl, Hi', Hl'.
Qed.

End Loading.

(** *** Executing the stored plugins *)

Lemma run_loop w ps : forall acc s,
  let o := for_fold ps acc (fun output plugin =>
             let! _ := emit (EvRun (po_class_name plugin)) in
             let! r := lift (plugin_run w plugin) in
             ret (<[po_class_name plugin := r]> output)) s in
  self_after o = s /\
  (Forall (run_ok w) ps ->
     res o = Ok (foldl (run_step w) acc ps) /\
     calls o = (fun p => EvRun (po_class_name p)) <$> ps) /\
  (forall out, res o = Ok out -> Forall (run_ok w) ps).
Proof.
  induction ps as [|p ps IH]; intros acc s; cbn zeta.
  - simpl. split; [done|]. split; [by intros _ | by constructor].
  - cbn [for_fold]. unfold bind at 1. unfold bind at 1 2 3.
    cbn [emit lift ret res self_after calls].
    destruct (plugin_run w p) as [r|e] eqn:Hrun; cbn [res self_after calls].
    + destruct (IH (<[po_class_name p := r]> acc) s) as (Hs & Hall & Hok).
      split; [done|]. split.
      * intros HF. apply Forall_cons in HF as [_ HF].
        destruct (Hall HF) as [Hr Hc]. cbn [foldl fmap list_fmap].
        unfold run_step at 2. rewrite Hrun. split; [done|].
        simpl. by rewrite Hc.
      * intros out Hout. constructor; [by exists r | by eapply Hok].
    + split; [done|]. split; [|done].
      intros HF. apply Forall_cons in HF as [[r Hr] _]. congruence.
Qed.

Lemma run_plugins_spec w ps s :
  let o := run_plugins w ps s in
  self_after o = s /\
  (Forall (run_ok w) ps ->
     res o = Ok (run_results w ps) /\
     calls o = (fun p => EvRun (po_class_name p)) <$> ps) /\
  (forall out, res o = Ok out -> Forall (run_ok w) ps).
Proof. apply run_loop. Qed.



(** *** [getPlugins] case by case *)

Lemma getPlugins_unconfigured w s :
  plugin_dir s = None ->
  getPlugins w s = Outcome (Ok PyFalse) s [EvGetPlugins].
Proof.
  unfold plugin_dir, getPlugins. intros Hd.
  by rewrite bind_emit, bind_gets, Hd.
Qed.

Lemma getPlugins_no_directory w s dir :
  plugin_dir s = Some (PyStr dir) ->
  path_exists w dir = false ->
  getPlugins w s = Outcome (Ok PyFalse) s [EvGetPlugins].
Proof.
  unfold plugin_dir, getPlugins. intros Hd Hex.
  rewrite bind_emit, bind_gets, Hd. cbn [as_path].
  by rewrite bind_lift_Ok, Hex.
Qed.

Lemma getPlugins_loaded w s dir ps :
  plugin_dir s = Some (PyStr dir) ->
  path_exists w dir = true ->
  self_plugins s = Some ps ->
  getPlugins w s =
    Outcome (dict_result (res (run_plugins w ps s))) s
            (EvGetPlugins :: calls (run_plugins w ps s)).
Proof.
  intros Hd Hex Hps.
  destruct (run_plugins_spec w ps s) as (Hs & _).
  unfold plugin_dir, getPlugins in *.
  rewrite bind_emit, bind_gets, Hd. cbn [as_path].
  rewrite bind_lift_Ok, Hex. cbn [negb].
  rewrite bind_gets, Hps, bind_ret, bind_gets, Hps.
  unfold bind.
  destruct (res (run_plugins w ps s));
    cbn [res self_after calls ret dict_result]; by rewrite ?Hs, ?app_nil_r.
Qed.

Lemma load_plugins_eq w dir s :
  let o := for_each (discover w dir) (load_one w dir)
             (with_plugins (Some []) s) in
  load_plugins w dir s = Outcome (res o) (self_after o) (EvWalk dir :: calls o).
Proof.
  unfold load_plugins, bind, modify, emit; simpl.
  by destruct (res (for_each _ _ _)).
Qed.



Lemma load_loop_confined w dir names :
  confined not_a_walk (for_each names (load_one w dir)).
Proof.
  unfold load_one, instantiate, call_ctor, append_plugin.
  confine ltac:(exact I).
Qed.

Lemma run_plugins_confined w ps : confined only_a_run (run_plugins w ps).
Proof. unfold run_plugins. confine ltac:(exact I). Qed.

Lemma no_walks t : Forall not_a_walk t -> walks t = 0.
Proof.
  unfold walks. induction 1 as [|e t He _ IH]; [done|].
  destruct e; simpl in *; done.
Qed.

Lemma only_runs t :
  Forall only_a_run t ->
  walks t = 0 /\ imported t = [] /\ constructions t = [] /\ logged_errors t = [].
Proof.
  unfold walks. induction 1 as [|e t He _ IH]; [done|].
  destruct e; simpl in *; done.
Qed.

Lemma getPlugins_first w s dir :
  plugin_dir s = Some (PyStr dir) ->
  path_exists w dir = true ->
  self_plugins s = None ->
  let o1 := load_plugins w dir s in
  getPlugins w s =
    match res o1, self_plugins (self_after o1) with
    | Ok _, Some ps =>
        let o2 := run_plugins w ps (self_after o1) in
        Outcome (dict_result (res o2)) (self_after o1)
                (EvGetPlugins :: calls o1 ++ calls o2)
    | Ok _, None =>
        Outcome (Ok PyFalse) (self_after o1) (EvGetPlugins :: calls o1 ++ [])
    | Raise e, _ => Outcome (Raise e) (self_after o1) (EvGetPlugins :: calls o1)
    end.
Proof.
  intros Hd Hex Hps. cbn zeta.
  unfold plugin_dir, getPlugins in *.
  rewrite bind_emit, bind_gets, Hd. cbn [as_path].
  rewrite bind_lift_Ok, Hex. cbn [negb].
  rewrite bind_gets, Hps.
  destruct (res (load_plugins w dir s)) as [[]|e] eqn:Hl;
    [rewrite (bind_Ok _ _ _ _ Hl) | by rewrite (bind_Raise _ _ _ _ Hl)].
  rewrite bind_gets.
  destruct (self_plugins (self_after (load_plugins w dir s))) as [ps|];
    [|reflexivity].
  destruct (run_plugins_spec w ps (self_after (load_plugins w dir s))) as [Hs _].
  unfold bind.
  destruct (res (run_plugins w ps _)); cbn [res self_after calls ret dict_result];
    by rewrite ?Hs, ?app_nil_r.
Qed.

Lemma getPlugins_bad_directory w s d :
  plugin_dir s = Some d ->
  (forall dir, d <> PyStr dir) ->
  getPlugins w s = Outcome (Raise TypeError) s [EvGetPlugins].
Proof.
  unfold plugin_dir, getPlugins. intros Hd Hns.
  rewrite bind_emit, bind_gets, Hd.
  destruct d as [| | | |dir| | |]; cbn [as_path];
    try (by rewrite bind_lift_Raise).
  by destruct (Hns dir).
Qed.

Lemma load_loop_events w dir names :
  confined a_load_event (for_each names (load_one w dir)).
Proof.
  unfold load_one, instantiate, call_ctor, append_plugin.
  confine ltac:(exact I).
Qed.

Lemma load_events t : Forall a_load_event t -> walks t = 0 /\ runs t = [].
Proof.
  unfold walks. induction 1 as [|e t He _ IH]; [done|].
  destruct e; simpl in *; done.
Qed.

Lemma runs_of_run_events (ps : list plugin_obj) :
  runs ((fun p => EvRun (po_class_name p)) <$> ps) = po_class_name <$> ps.
Proof.
  unfold runs. induction ps as [|p ps IH]; [done|].
  rewrite !fmap_cons, omap_cons_eq. by rewrite IH.
Qed.

(** A call of [getPlugins] on an instance whose plugins are loaded scans
    nothing, imports nothing, constructs nothing, and keeps the list. *)
Lemma getPlugins_when_loaded w s ps :
  self_plugins s = Some ps ->
  self_after (getPlugins w s) = s /\
  walks (calls (getPlugins w s)) = 0 /\
  imported (calls (getPlugins w s)) = [] /\
  constructions (calls (getPlugins w s)) = [].
Proof.
  intros Hps. destruct (plugin_dir s) as [d|] eqn:Hd.
  - destruct d as [| | | |dir| | |];
      try (rewrite (getPlugins_bad_directory w s _ Hd); done).
    destruct (path_exists w dir) eqn:Hex.
    + rewrite (getPlugins_loaded w s dir ps Hd Hex Hps). simpl.
      destruct (run_plugins_confined w ps s) as [_ Hc].
      apply only_runs in Hc as (Hw & Hi & Hk & _).
      unfold walks in *. simpl. by rewrite Hi, Hk.
    + by rewrite (getPlugins_no_directory w s dir Hd Hex).
  - by rewrite (getPlugins_unconfigured w s Hd).
Qed.




(** *** The loader's contract *)




Section LoadingBack.

Variable w : world.
Variable dir : string.


Lemma load_one_constructions name s :
  constructions (calls (load_one w dir name s))
    = (fun n => (name, n)) <$> arities_of w dir name.
Proof.
  unfold load_one, arities_of, plugin_path.
  rewrite bind_emit. cbn [calls].
  destruct (load_source w name _) as [m|e];
    [rewrite bind_lift_Ok | by rewrite bind_lift_Raise].
  assert (forall c,
            constructions
              (calls ((let! pluginObj := instantiate name c
                       in append_plugin pluginObj) s))
            = (fun n => (name, n)) <$> arities_tried c) as Hc.
  { intros c. unfold bind. rewrite instantiate_eq. cbn [res self_after calls].
    destruct (first_accepting c); cbn [calls append_plugin modify];
      rewrite ?app_nil_r; unfold constructions;
      by induction (arities_tried c) as [|n l IH];
        [|rewrite fmap_cons, omap_cons_eq, IH]. }
  unfold try_except.
  destruct (mod_attr m name) as [c|].
  - rewrite bind_ret. specialize (Hc c).
    destruct (res _) as [[]|e]; [done|].
    destruct (is_Exception e); [|done].
    cbn [calls emit]. unfold constructions in *.
    rewrite omap_cons_eq, omap_app, Hc. cbn. by rewrite app_nil_r.
  - rewrite bind_Raise with (e := AttributeError name) by done.
    cbn [res calls raise]. unfold constructions.
    rewrite omap_cons_eq. cbn. done.
Qed.

Lemma constructions_app t1 t2 :
  constructions (t1 ++ t2) = constructions t1 ++ constructions t2.
Proof. apply omap_app. Qed.

End LoadingBack.





Section LoadingAny.

Variable w : world.
Variable dir : string.

Lemma without_imports t :
  Forall (fun e => match e with EvImport _ _ => False | _ => True end) t ->
  imported t = [].
Proof. induction 1 as [|e t He _ IH]; [done|]. by destruct e. Qed.

Lemma load_one_imported name s :
  imported (calls (load_one w dir name s)) = [name].
Proof.
  unfold load_one. rewrite bind_emit. cbn [calls].
  unfold imported. rewrite omap_cons_eq. f_equal.
  apply without_imports.
  match goal with |- Forall ?P (calls (?m s)) =>
    assert (confined P m) as Hc
      by (unfold instantiate, call_ctor, append_plugin; confine ltac:(exact I))
  end.
  apply Hc.
Qed.

Lemma load_one_stored name s ps :
  self_plugins s = Some ps ->
  self_plugins (self_after (load_one w dir name s))
    = Some (ps ++ omap (constructed w dir) [name]).
Proof.
  intros Hps. rewrite omap_cons_eq. cbn [omap].
  unfold constructed.
  destruct (load_source w name (plugin_path dir name)) as [m|e] eqn:Hm.
  - destruct (construction m name) as [o|e] eqn:Hc.
    + by destruct (load_one_built w dir name s m o ps Hm Hc Hps) as (_ & ? & _).
    + rewrite app_nil_r. destruct (is_Exception e) eqn:Hex.
      * destruct (load_one_skipped w dir name s m e Hm Hc Hex) as (_ & -> & _).
        done.
      * unfold load_one, construction, plugin_path in *.
        unfold bind, try_except, lift, emit, ret, raise, append_plugin, modify;
          simpl.
        rewrite Hm; simpl.
        destruct (mod_attr m name) as [c|] eqn:Hattr; simpl.
        -- rewrite !instantiate_eq; simpl. rewrite Hc; simpl. by rewrite Hex.
        -- injection Hc as <-. done.
  - rewrite app_nil_r. by rewrite (load_one_import_fails w dir name s e Hm).
Qed.

(** The load loop handles the artifacts in order, up to and including the
    first whose import raises or whose construction raises something that
    does not derive from [Exception]. *)
Lemma load_loop_handled names : forall s ps,
  self_plugins s = Some ps ->
  let o := for_each names (load_one w dir) s in
  exists handled,
    handled `prefix_of` names /\
    imported (calls o) = handled /\
    constructions (calls o)
      = flat_map (fun name => (fun n => (name, n)) <$> arities_of w dir name)
                 handled /\
    self_plugins (self_after o) = Some (ps ++ omap (constructed w dir) handled) /\
    (res o = Ok tt -> handled = names).
Proof.
  induction names as [|name names IH]; intros s ps Hps; cbn zeta.
  - exists []. cbn. by rewrite app_nil_r.
  - cbn [for_each].
    pose proof (load_one_imported name s) as Hi.
    pose proof (load_one_constructions w dir name s) as Hc.
    pose proof (load_one_stored name s ps Hps) as Hs.
    destruct (res (load_one w dir name s)) as [[]|e] eqn:Hone.
    + rewrite (bind_Ok _ _ _ _ Hone). cbn [res self_after calls].
      destruct (IH _ _ Hs) as (handled & Hpre & Hi' & Hc' & Hs' & Hres').
      exists (name :: handled). split; [by apply prefix_cons|].
      unfold imported in *. rewrite omap_app, Hi, Hi'.
      rewrite constructions_app, Hc, Hc'. cbn [flat_map app].
      split; [done|]. split; [done|]. split.
      * rewrite Hs'. rewrite (omap_cons_eq _ name handled).
        rewrite omap_cons_eq. cbn [omap].
        destruct (constructed w dir name); by rewrite <- ?app_assoc, ?app_nil_r.
      * intros Hr. by rewrite (Hres' Hr).
    + rewrite (bind_Raise _ _ _ _ Hone). cbn [res self_after calls].
      exists [name]. split; [apply prefix_cons, prefix_nil|].
      cbn [flat_map]. rewrite app_nil_r. done.
Qed.

End LoadingAny.

(** C5.  On the call that loads the plugins, [getPlugins] handles the
    eligible artifacts in order, all of them when each loads in isolation
    and otherwise up to the first whose import or construction ends the
    call, and applies the constructor protocol to each one it handles:
    for an artifact whose module holds the class the constructors are
    tried in the order three arguments, two arguments, no argument, each
    one only after the one before raised [TypeError]; the instances stored
    are the first ones obtained, in the order of the artifacts; and no
    later call of [getPlugins] constructs anything or changes that
    list. *)
Theorem getPlugins_constructor_protocol w s dir :
  plugin_dir s = Some (PyStr dir) ->
  path_exists w dir = true ->
  self_plugins s = None ->
  let o := getPlugins w s in
  exists handled,
    handled `prefix_of` discover w dir /\
    (Forall (loads_in_isolation w dir) (discover w dir) ->
     handled = discover w dir) /\
    imported (calls o) = handled /\
    constructions (calls o)
      = flat_map (fun name => (fun n => (name, n)) <$> arities_of w dir name)
                 handled /\
    self_plugins (self_after o) = Some (omap (constructed w dir) handled) /\
    (forall name m c,
       load_source w name (plugin_path dir name) = Ok m ->
       mod_attr m name = Some c ->
       arities_of w dir name = arities_tried c /\
       constructed w dir name = returned (first_accepting c)) /\
    (forall w' s',
       self_plugins s' = self_plugins (self_after o) ->
       self_plugins (self_after (getPlugins w' s')) = self_plugins s' /\
       constructions (calls (getPlugins w' s')) = []).
Proof.
  intros Hd Hex Hps. cbn zeta.
  destruct (load_loop_handled w dir (discover w dir)
              (with_plugins (Some []) s) [] eq_refl)
    as (handled & Hpre & Hi & Hc & Hs & Hres).
  cbn zeta in *. cbn [app] in Hs.
  set (loop := for_each (discover w dir) (load_one w dir)
                 (with_plugins (Some []) s)) in *.
  assert (imported (calls (getPlugins w s)) = handled /\
          constructions (calls (getPlugins w s))
            = flat_map (fun name => (fun n => (name, n))
                                      <$> arities_of w dir name) handled /\
          self_plugins (self_after (getPlugins w s))
            = Some (omap (constructed w dir) handled)) as (Hi' & Hc' & Hs').
  { rewrite (getPlugins_first w s dir Hd Hex Hps). cbn zeta.
    rewrite load_plugins_eq. cbn [res self_after calls]. fold loop.
    rewrite Hs.
    destruct (res loop) as [[]|e]; cbn [res self_after calls].
    - set (kept := omap (constructed w dir) handled).
      destruct (run_plugins_confined w kept (self_after loop)) as [_ Hrc].
      apply only_runs in Hrc as (_ & Hri & Hrk & _).
      change (EvGetPlugins :: (EvWalk dir :: ?a) ++ ?b)
        with ([EvGetPlugins; EvWalk dir] ++ a ++ b).
      unfold imported in *. rewrite !omap_app, Hi, Hri.
      rewrite !constructions_app, Hc, Hrk. cbn. by rewrite !app_nil_r.
    - change (EvGetPlugins :: EvWalk dir :: ?a)
        with ([EvGetPlugins; EvWalk dir] ++ a).
      unfold imported in *. rewrite !omap_app, Hi.
      rewrite !constructions_app, Hc. done. }
  exists handled. split; [done|]. split.
  { intros Hall. apply Hres.
    by destruct (load_loop w dir (discover w dir) (with_plugins (Some []) s) []
                   eq_refl Hall) as (? & _). }
  do 3 (split; [done|]). split.
  - intros name m c Hm Hattr. unfold arities_of, constructed, construction.
    rewrite Hm, Hattr. split; [done|]. by destruct (first_accepting c).
  - intros w' s' Heq. rewrite Hs' in Heq.
    destruct (getPlugins_when_loaded w' s' _ Heq) as (-> & _ & _ & Hk).
    done.
Qed.

Lemma getPlugins_constructor_protocol_witness :
  let o := getPlugins plugin_world (fresh_checks sample_plugin_config) in
  constructions (calls o)
    = [("Three", 3); ("Broken", 3); ("Zero", 3); ("Zero", 2); ("Zero", 0)] /\
  self_plugins (self_after o) = Some [PluginObj 1 "Three"; PluginObj 2 "Zero"].
Proof.
  assert (Forall (loads_in_isolation plugin_world "/etc/dd-agent/plugins")
            (discover plugin_world "/etc/dd-agent/plugins")) as Hall.
  { repeat constructor.
    - exists (module_of "Three" class_Three). split; [reflexivity|].
      intros e He. vm_compute in He. discriminate.
    - exists (module_of "Broken" class_Broken). split; [reflexivity|].
      intros e He. vm_compute in He. by injection He as <-.
    - exists (module_of "Zero" class_Zero). split; [reflexivity|].
      intros e He. vm_compute in He. discriminate. }
  destruct (getPlugins_constructor_protocol plugin_world
              (fresh_checks sample_plugin_config) "/etc/dd-agent/plugins"
              eq_refl eq_refl eq_refl)
    as (handled & _ & Hfull & _ & Hc & Hp & _).
  cbn zeta. rewrite Hc, Hp, (Hfull Hall). vm_compute. done.
Defined.

(** ** The collection cycle *)

Lemma without_probes t : Forall not_a_probe t -> probes_called t = [].
Proof.
  induction 1 as [|e t He _ IH]; [done|]. destruct e; simpl in *; done.
Qed.

Lemma without_deliveries t :
  Forall not_a_delivery t -> emitted t = [] /\ scheduled t = [].
Proof.
  induction 1 as [|e t He _ IH]; [done|]. destruct e; simpl in *; done.
Qed.

Lemma getDatadogData_confined w :
  confined (fun e => not_a_probe e /\ not_a_delivery e) (getDatadogData w).
Proof. unfold getDatadogData. confine ltac:(by split). Qed.

Lemma getPlugins_quiet w :
  confined (fun e => not_a_probe e /\ not_a_delivery e) (getPlugins w).
Proof.
  eapply confined_weaken; [|apply getPlugins_confined].
  intros []; simpl; done.
Qed.

Lemma call_probe_eq w p s :
  call_probe w p s = Outcome (probe_check w p) s [EvProbe p].
Proof. done. Qed.

Lemma resolve_os_eq w s :
  res (resolve_os w s) = Ok tt /\ calls (resolve_os w s) = [] /\
  same_setup s (self_after (resolve_os w s)) /\
  self_plugins (self_after (resolve_os w s)) = self_plugins s.
Proof.
  unfold resolve_os. cbn zeta. rewrite bind_gets.
  destruct (match self_os s with Some o => _ | None => _ end);
    by repeat split.
Qed.

Lemma add_hostname_eq w d s :
  add_hostname w d s =
    match socket_gethostname w with
    | Ok name => Outcome (Ok (<["internalHostname" := name]> d)) s []
    | Raise e =>
        if is_socket_error e
        then Outcome (Ok d) s [EvLogDebug "Unable to get hostname"]
        else Outcome (Raise e) s []
    end.
Proof.
  unfold add_hostname, try_except.
  destruct (socket_gethostname w) as [name|e].
  - by rewrite bind_lift_Ok.
  - rewrite bind_lift_Raise. cbn [res self_after calls].
    by destruct (is_socket_error e).
Qed.

Lemma run_checks_confined w : confined not_a_delivery (run_checks w).
Proof.
  unfold run_checks, call_probe.
  confine_with ltac:(exact I)
    ltac:(first
      [ eapply confined_weaken; [|apply getPlugins_quiet]; by intros ? []
      | eapply confined_weaken; [|apply getDatadogData_confined];
        by intros ? [] ]).
Qed.

Lemma build_checksData_confined w firstRun systemStats :
  confined not_a_delivery (build_checksData w firstRun systemStats).
Proof.
  unfold build_checksData, add_hostname, resolve_os. cbn zeta.
  confine_with ltac:(exact I) ltac:(apply run_checks_confined).
Qed.

(** What the two last lines of [doChecks] do with the assembled payload. *)
Lemma doChecks_eq w firstRun systemStats s :
  let o := build_checksData w firstRun systemStats s in
  doChecks w firstRun systemStats s =
    match res o with
    | Raise e => Outcome (Raise e) (self_after o) (calls o)
    | Ok checksData =>
        match emitter w checksData with
        | Raise e =>
            Outcome (Raise e) (self_after o) (calls o ++ [EvEmit checksData])
        | Ok _ =>
            match self_agentConfig (self_after o) !! "checkFreq" with
            | None =>
                Outcome (Raise (KeyError "checkFreq")) (self_after o)
                        (calls o ++ [EvEmit checksData])
            | Some checkFreq =>
                if is_number checkFreq
                then Outcome (Ok tt) (self_after o)
                       (calls o ++ [EvEmit checksData; EvEnter checkFreq PyFalse])
                else Outcome (Raise TypeError) (self_after o)
                       (calls o ++ [EvEmit checksData])
            end
        end
    end.
Proof.
  cbn zeta. unfold doChecks.
  destruct (res (build_checksData w firstRun systemStats s)) as [d|e] eqn:Hb;
    [rewrite (bind_Ok _ _ _ _ Hb) | by rewrite (bind_Raise _ _ _ _ Hb)].
  cbn beta. unfold call_emitter, sc_enter.
  set (s' := self_after _).
  rewrite bind_assoc, bind_emit. cbn [res self_after calls].
  destruct (emitter w d) as [[]|e] eqn:He.
  - rewrite bind_lift_Ok, bind_gets. unfold config_get, getitem.
    destruct (self_agentConfig s' !! "checkFreq") as [f|].
    + rewrite bind_lift_Ok. destruct (is_number f); done.
    + by rewrite bind_lift_Raise.
  - by rewrite bind_lift_Raise.
Qed.

(** The payloads a cycle hands to the emitter: the assembled one, if the
    assembly returned. *)
Lemma doChecks_emitted w firstRun systemStats s :
  emitted (calls (doChecks w firstRun systemStats s)) =
    match res (build_checksData w firstRun systemStats s) with
    | Ok checksData => [checksData]
    | Raise _ => []
    end.
Proof.
  rewrite doChecks_eq. cbn zeta.
  destruct (build_checksData_confined w firstRun systemStats s) as [_ Hc].
  apply without_deliveries in Hc as [Hc _].
  destruct (res _) as [d|e]; [|done].
  unfold emitted in *.
  destruct (emitter w d) as [[]|];
    [destruct (_ !! "checkFreq") as [f|]; [destruct (is_number f)|]|];
    cbn [calls]; by rewrite omap_app, Hc.
Qed.

(** *** The probes *)

Lemma bind_call_probe {B} w p (k : pyval -> M B) s :
  bind (call_probe w p) k s =
    match probe_check w p with
    | Ok v => Outcome (res (k v s)) (self_after (k v s))
                      (EvProbe p :: calls (k v s))
    | Raise e => Outcome (Raise e) s [EvProbe p]
    end.
Proof.
  unfold bind. rewrite call_probe_eq. cbn [res self_after calls].
  by destruct (probe_check w p).
Qed.

Lemma probes_called_probe p t :
  probes_called (EvProbe p :: t) = p :: probes_called t.
Proof. done. Qed.

Lemma probes_called_app t1 t2 :
  probes_called (t1 ++ t2) = probes_called t1 ++ probes_called t2.
Proof. apply omap_app. Qed.

Lemma until_first_failure_lookup f l : forall j q,
  until_first_failure f l !! j = Some q ->
  l !! j = Some q /\
  forall i p, i < j -> l !! i = Some p -> is_Ok (f p) = true.
Proof.
  induction l as [|a l IH]; intros j q Hj; [done|].
  destruct j as [|j]; simpl in Hj.
  - split; [done | intros; lia].
  - destruct (is_Ok (f a)) eqn:Ha; [|done].
    destruct (IH j q Hj) as [Hq Hbefore]. split; [done|].
    intros [|i] p Hlt Hp; simpl in Hp.
    + by injection Hp as <-.
    + apply (Hbefore i); [lia | done].
Qed.

Lemma probe_order_lookup p : probe_order !! probe_index p = Some p.
Proof. by destruct p. Qed.

Lemma probe_order_index j q : probe_order !! j = Some q -> j = probe_index q.
Proof.
  do 15 (destruct j as [|j]; [by intros [= <-]|]). done.
Qed.

(** The probes a run of the checks calls are an initial part of the
    source order that stops at the first failure. *)
Lemma run_checks_probes w s :
  probes_called (calls (run_checks w s))
    `prefix_of` until_first_failure (probe_check w) probe_order.
Proof.
  unfold run_checks, probe_order.
  repeat lazymatch goal with
  | |- probes_called (calls (bind (call_probe w ?p) _ ?s0)) `prefix_of` _ =>
      rewrite bind_call_probe; cbn [until_first_failure];
      destruct (probe_check w p) as [?|?]; cbn [is_Ok calls];
      [rewrite probes_called_probe; apply (prefix_cons p) | done]
  | |- probes_called (calls (bind (getPlugins w) _ ?s0)) `prefix_of` _ =>
      let H := fresh "H" in
      let Hc := fresh "Hc" in
      destruct (getPlugins_quiet w s0) as [_ Hc];
      eapply Forall_impl in Hc; [|by intros ? [? _]];
      apply without_probes in Hc;
      destruct (res (getPlugins w s0)) eqn:H;
      [rewrite (bind_Ok _ _ _ _ H) | rewrite (bind_Raise _ _ _ _ H)];
      cbn [calls]; rewrite ?probes_called_app, Hc;
      [cbn [app] | apply prefix_nil]
  | |- probes_called (calls (bind (getDatadogData w) _ ?s0)) `prefix_of` _ =>
      let H := fresh "H" in
      let Hc := fresh "Hc" in
      destruct (getDatadogData_confined w s0) as [_ Hc];
      eapply Forall_impl in Hc; [|by intros ? [? _]];
      apply without_probes in Hc;
      destruct (res (getDatadogData w s0)) eqn:H;
      [rewrite (bind_Ok _ _ _ _ H) | rewrite (bind_Raise _ _ _ _ H)];
      cbn [calls]; rewrite ?probes_called_app, Hc;
      [cbn [app] | apply prefix_nil]
  end.
  apply prefix_nil.
Qed.

(** A called probe was reached: every probe before it returned. *)
Lemma run_checks_reached w s p q :
  probe_index p < probe_index q ->
  q ∈ probes_called (calls (run_checks w s)) ->
  is_Ok (probe_check w p) = true.
Proof.
  intros Hlt Hq. apply list_elem_of_lookup in Hq as [j Hj].
  eapply prefix_lookup_Some in Hj; [|apply run_checks_probes].
  apply until_first_failure_lookup in Hj as [Hq Hbefore].
  apply probe_order_index in Hq as ->.
  apply (Hbefore (probe_index p)); [done | apply probe_order_lookup].
Qed.

(** A run of the checks that returns has called every probe, and each
    local variable holds what its probe returned. *)
Lemma run_checks_Ok w s r :
  res (run_checks w s) = Ok r ->
  (probe_check w Apache = Ok (apacheStatus r) /\
   probe_check w Disk = Ok (diskUsage r) /\
   probe_check w Load = Ok (loadAvrgs r) /\
   probe_check w Memory = Ok (memory r) /\
   probe_check w MySQL = Ok (mysqlStatus r) /\
   probe_check w Network = Ok (networkTraffic r) /\
   probe_check w Nginx = Ok (nginxStatus r) /\
   probe_check w Processes = Ok (processes r)) /\
  (probe_check w RabbitMQ = Ok (rabbitmq r) /\
   probe_check w MongoDB = Ok (mongodb r) /\
   probe_check w CouchDB = Ok (couchdb r) /\
   probe_check w IOStats = Ok (ioStats r) /\
   probe_check w CPU = Ok (cpuStats r) /\
   probe_check w Ganglia = Ok (gangliaData r) /\
   probe_check w Cassandra = Ok (cassandraData r)) /\
  res (getPlugins w s) = Ok (plugins r) /\
  (exists d, datadogData r = PyDict d) /\
  probes_called (calls (run_checks w s)) = probe_order.
Proof.
  unfold run_checks. intros H.
  repeat lazymatch type of H with
  | res (bind (call_probe w ?p) _ ?s0) = Ok _ =>
      let Hp := fresh "Hp" in
      rewrite bind_call_probe in H |- *;
      destruct (probe_check w p) eqn:Hp; [|discriminate H];
      cbn [res calls] in H |- *; rewrite probes_called_probe
  | res (bind (getPlugins w) _ ?s0) = Ok _ =>
      let Hg := fresh "Hg" in
      let Hc := fresh "Hc" in
      destruct (getPlugins_quiet w s0) as [_ Hc];
      eapply Forall_impl in Hc; [|by intros ? [? _]];
      apply without_probes in Hc;
      destruct (res (getPlugins w s0)) eqn:Hg;
      [rewrite (bind_Ok _ _ _ _ Hg) in H |- *
      |rewrite (bind_Raise _ _ _ _ Hg) in H; discriminate H];
      cbn [res calls] in H |- *; rewrite probes_called_app, Hc; cbn [app]
  | res (bind (getDatadogData w) _ ?s0) = Ok _ =>
      let Hd := fresh "Hd" in
      let Hc := fresh "Hc" in
      destruct (getDatadogData_confined w s0) as [_ Hc];
      eapply Forall_impl in Hc; [|by intros ? [? _]];
      apply without_probes in Hc;
      destruct (res (getDatadogData w s0)) eqn:Hd;
      [rewrite (bind_Ok _ _ _ _ Hd) in H |- *
      |rewrite (bind_Raise _ _ _ _ Hd) in H; discriminate H];
      cbn [res calls] in H |- *; rewrite probes_called_app, Hc; cbn [app]
  end.
  cbn [ret res calls] in H |- *. injection H as <-. cbn.
  repeat split; try done.
  unfold getDatadogData in Hd. rewrite bind_gets in Hd.
  apply bind_res_Ok in Hd as (d & _ & Hd). cbn in Hd. injection Hd as <-.
  by exists d.
Qed.

Lemma doChecks_probes w firstRun systemStats s :
  probes_called (calls (doChecks w firstRun systemStats s)) =
  probes_called (calls (run_checks w (self_after (resolve_os w s)))).
Proof.
  assert (probes_called (calls (build_checksData w firstRun systemStats s))
          = probes_called (calls (run_checks w (self_after (resolve_os w s)))))
    as Hb.
  { unfold build_checksData.
    destruct (resolve_os_eq w s) as (Hr & Hc & _).
    rewrite (bind_Ok _ _ _ _ Hr). cbn [calls]. rewrite Hc. cbn [app].
    set (s1 := self_after (resolve_os w s)).
    destruct (res (run_checks w s1)) as [r|e] eqn:Hrun;
      [rewrite (bind_Ok _ _ _ _ Hrun) | by rewrite (bind_Raise _ _ _ _ Hrun)].
    cbn [calls]. rewrite probes_called_app.
    assert (confined not_a_probe
              (let! config := gets self_agentConfig in
               let! os := gets self_os in
               let! d := lift (payload_before_hostname w config os firstRun
                                 systemStats r) in
               let! d := add_hostname w d in
               let! event_checks := gets self_event_checks in
               let! resources_checks := gets self_resources_checks in
               lift (payload_after_hostname w config event_checks
                       resources_checks firstRun d))) as Hrest.
    { unfold add_hostname. confine ltac:(exact I). }
    destruct (Hrest (self_after (run_checks w s1))) as [_ Hc'].
    apply without_probes in Hc'. rewrite Hc'. by rewrite app_nil_r. }
  rewrite doChecks_eq. cbn zeta.
  destruct (res (build_checksData w firstRun systemStats s)) as [d|e]; [|done].
  destruct (emitter w d) as [[]|];
    [destruct (_ !! "checkFreq") as [f|]; [destruct (is_number f)|]|];
    cbn [calls]; rewrite probes_called_app, Hb; cbn; by rewrite app_nil_r.
Qed.

(** What an assembly that returns went through. *)
Lemma build_checksData_Ok w firstRun systemStats s checksData :
  res (build_checksData w firstRun systemStats s) = Ok checksData ->
  exists r os d d',
    res (run_checks w (self_after (resolve_os w s))) = Ok r /\
    payload_before_hostname w (self_agentConfig s) os firstRun systemStats r
      = Ok d /\
    ((exists name, socket_gethostname w = Ok name /\
                   d' = <["internalHostname" := name]> d) \/
     (exists e, socket_gethostname w = Raise e /\ is_socket_error e = true /\
                d' = d)) /\
    payload_after_hostname w (self_agentConfig s) (self_event_checks s)
      (self_resources_checks s) firstRun d' = Ok checksData.
Proof.
  unfold build_checksData. intros H.
  destruct (resolve_os_eq w s) as (Hr & _ & Hsetup1 & _).
  rewrite (bind_Ok _ _ _ _ Hr) in H. cbn [res] in H.
  set (s1 := self_after (resolve_os w s)) in *.
  apply bind_res_Ok in H as (r & Hrun & H).
  destruct (run_checks_confined w s1) as [Hsetup2 _].
  pose proof (same_setup_trans _ _ _ Hsetup1 Hsetup2) as (Hcfg & _ & Hev & Hrc).
  set (s2 := self_after (run_checks w s1)) in *.
  rewrite !bind_gets in H.
  apply bind_res_Ok in H as (d & Hd & H). cbn [lift res self_after] in Hd, H.
  apply bind_res_Ok in H as (d' & Hh & H).
  rewrite add_hostname_eq in Hh, H. rewrite !bind_gets in H.
  exists r, (self_os s2), d, d'. rewrite <- Hcfg, <- Hev, <- Hrc.
  split; [done|]. split; [done|].
  destruct (socket_gethostname w) as [name|e] eqn:Hhost.
  - cbn in Hh, H. injection Hh as <-. split; [left; eauto | done].
  - destruct (is_socket_error e) eqn:He; [|done].
    cbn in Hh, H. injection Hh as <-. split; [right; eauto | done].
Qed.

(** *** The payload *)

Lemma added_lookup_other {A} (entry : A -> option pyval) key xs : forall m k,
  k ∉ key <$> xs -> added entry key xs m !! k = m !! k.
Proof.
  unfold added. induction xs as [|x xs IH]; intros m k Hk; [done|].
  rewrite fmap_cons, not_elem_of_cons in Hk. destruct Hk as [Hne Hk].
  cbn [foldl]. rewrite IH by done.
  destruct (entry x); [by rewrite lookup_insert_ne | done].
Qed.

Lemma added_lookup {A} (entry : A -> option pyval) key xs : forall m x,
  NoDup (key <$> xs) -> x ∈ xs ->
  added entry key xs m !! key x =
    match entry x with Some v => Some v | None => m !! key x end.
Proof.
  induction xs as [|y xs IH]; intros m x Hnd Hx; [by apply elem_of_nil in Hx|].
  rewrite fmap_cons in Hnd. apply NoDup_cons in Hnd as [Hy Hnd].
  apply elem_of_cons in Hx as [->|Hx].
  - change (added entry key (y :: xs) m)
      with (added entry key xs
              (match entry y with Some v => <[key y := v]> m | None => m end)).
    rewrite added_lookup_other by done.
    destruct (entry y); [by rewrite lookup_insert_eq | done].
  - change (added entry key (y :: xs) m)
      with (added entry key xs
              (match entry y with Some v => <[key y := v]> m | None => m end)).
    rewrite IH by done.
    assert (key y <> key x) as Hne.
    { intros Heq. apply Hy. rewrite Heq. by apply list_elem_of_fmap_2. }
    destruct (entry x); [done|].
    destruct (entry y); [by rewrite lookup_insert_ne | done].
Qed.

Lemma setitem2_Ok d k1 k2 x d' :
  setitem2 d k1 k2 x = Ok d' ->
  exists inner, d !! k1 = Some (PyDict inner) /\
                d' = <[k1 := PyDict (<[k2 := x]> inner)]> d.
Proof.
  unfold setitem2. destruct (d !! k1) as [[]|]; try done.
  intros [= <-]. eauto.
Qed.

Section Payload.

Variable w : world.

Lemma process_events_spec evs : forall d d' E,
  process_events w evs d = Ok d' ->
  d !! "events" = Some (PyDict E) ->
  d' !! "events" = Some (PyDict (added (event_entry w) ev_key evs E)) /\
  forall k, k <> "events" -> d' !! k = d !! k.
Proof.
  unfold process_events.
  induction evs as [|ep evs IH]; intros d d' E H HE.
  - injection H as <-. by split.
  - cbn [fold_result] in H. apply and_then_Ok in H as (d1 & Hstep & H).
    apply and_then_Ok in Hstep as (data & Hdata & Hstep).
    unfold added. cbn [foldl]. unfold event_entry at 2. rewrite Hdata.
    destruct (truthy data).
    + apply setitem2_Ok in Hstep as (inner & Hin & ->).
      rewrite HE in Hin. injection Hin as <-.
      destruct (IH _ _ (<[ev_key ep := data]> E) H) as [He Hk];
        [by rewrite lookup_insert_eq|].
      split; [done|]. intros k Hne. rewrite Hk by done.
      by rewrite lookup_insert_ne.
    + injection Hstep as <-. by apply IH.
Qed.

Lemma process_resources_loop rcs : forall d h d' h' R,
  fold_result rcs (d, h) (fun '(d, has_resource) rc =>
    let? _ := resource_check w rc in
    let? snap := pop_snapshot w rc in
    if truthy snap then
      let? res_value := resource_value w rc snap in
      let? d := setitem2 d "resources" (RESOURCE_KEY rc) res_value in
      Ok (d, true)
    else Ok (d, has_resource)) = Ok (d', h') ->
  d !! "resources" = Some (PyDict R) ->
  d' !! "resources"
    = Some (PyDict (added (resource_entry w) RESOURCE_KEY rcs R)) /\
  (forall k, k <> "resources" -> d' !! k = d !! k) /\
  h' = h || existsb (contributes w) rcs /\
  Forall (snapshot_taken w) rcs.
Proof.
  induction rcs as [|rc rcs IH]; intros d h d' h' R H HR.
  - injection H as <- <-. by rewrite orb_false_r.
  - cbn [fold_result] in H. apply and_then_Ok in H as ([d1 h1] & Hstep & H).
    apply and_then_Ok in Hstep as (? & _ & Hstep).
    apply and_then_Ok in Hstep as (snap & Hsnap & Hstep).
    unfold added. cbn [foldl existsb].
    unfold resource_entry at 2, contributes at 1. rewrite Hsnap.
    destruct (truthy snap) eqn:Htr.
    + apply and_then_Ok in Hstep as (v & Hv & Hstep).
      apply and_then_Ok in Hstep as (d2 & Hset & Hstep).
      injection Hstep as <- <-. rewrite Hv.
      apply setitem2_Ok in Hset as (inner & Hin & ->).
      rewrite HR in Hin. injection Hin as <-.
      destruct (IH _ _ _ _ (<[RESOURCE_KEY rc := v]> R) H)
        as (Hres & Hk & -> & Hall); [by rewrite lookup_insert_eq|].
      split; [done|]. split; [|split].
      * intros k Hne. rewrite Hk by done. by rewrite lookup_insert_ne.
      * by rewrite orb_true_r.
      * constructor; [|done]. exists snap. split; [done|]. by exists v.
    + injection Hstep as <- <-.
      destruct (IH _ _ _ _ R H HR) as (Hres & Hk & -> & Hall).
      repeat split; try done. constructor; [|done].
      exists snap. split; [done|]. by rewrite Htr.
Qed.

Lemma process_resources_spec rcs d d' h R :
  process_resources w rcs d = Ok (d', h) ->
  d !! "resources" = Some (PyDict R) ->
  d' !! "resources"
    = Some (PyDict (added (resource_entry w) RESOURCE_KEY rcs R)) /\
  (forall k, k <> "resources" -> d' !! k = d !! k) /\
  h = existsb (contributes w) rcs /\
  Forall (snapshot_taken w) rcs.
Proof. apply process_resources_loop. Qed.

End Payload.

(** *** Conditional writes

    Every assignment to [checksData] between the dictionary display and
    the host name is a write guarded by a test; a lookup in the result is
    computed by comparing the key with each key written. *)

Lemma lookup_put_if b k v d k' :
  put_if b k v d !! k' = if String.eqb k k' && b then Some v else d !! k'.
Proof.
  unfold put_if. destruct (String.eqb_spec k k') as [->|Hne]; destruct b; simpl;
    try done.
  - apply lookup_insert_eq.
  - by apply lookup_insert_ne.
Qed.

Lemma put_if_grows b k v d k' :
  is_Some (d !! k') -> is_Some (put_if b k v d !! k').
Proof.
  rewrite lookup_put_if. by destruct (String.eqb k k' && b).
Qed.

Ltac lookup_writes :=
  rewrite ?lookup_put_if;
  cbn [String.eqb Ascii.eqb Bool.eqb andb].

Lemma getitem_Ok v k x :
  getitem v k = Ok x -> exists d, v = PyDict d /\ d !! k = Some x.
Proof.
  destruct v; try done. simpl. destruct (d !! k) eqn:E; [|done].
  intros [= <-]. eauto.
Qed.

Lemma apache_payload_Ok r d d' :
  apache_payload r d = Ok d' ->
  exists reqPerSec busyWorkers idleWorkers,
    let b := ne_False (apacheStatus r) in
    d' = put_if b "apacheIdleWorkers" idleWorkers
           (put_if b "apacheBusyWorkers" busyWorkers
              (put_if b "apacheReqPerSec" reqPerSec d)) /\
    (b = true ->
     getitem (apacheStatus r) "reqPerSec" = Ok reqPerSec /\
     getitem (apacheStatus r) "busyWorkers" = Ok busyWorkers /\
     getitem (apacheStatus r) "idleWorkers" = Ok idleWorkers).
Proof.
  unfold apache_payload. destruct (ne_False (apacheStatus r)).
  - intros H.
    apply and_then_Ok in H as (v1 & H1 & H).
    apply and_then_Ok in H as (v2 & H2 & H).
    apply and_then_Ok in H as (v3 & H3 & H).
    injection H as <-. by exists v1, v2, v3.
  - intros [= <-]. by exists PyNone, PyNone, PyNone.
Qed.

Lemma nginx_payload_Ok r d d' :
  nginx_payload r d = Ok d' ->
  exists connections reqPerSec,
    let b := ne_False (nginxStatus r) in
    d' = put_if b "nginxReqPerSec" reqPerSec
           (put_if b "nginxConnections" connections d) /\
    (b = true ->
     getitem (nginxStatus r) "connections" = Ok connections /\
     getitem (nginxStatus r) "reqPerSec" = Ok reqPerSec).
Proof.
  unfold nginx_payload. destruct (ne_False (nginxStatus r)).
  - intros H.
    apply and_then_Ok in H as (v1 & H1 & H).
    apply and_then_Ok in H as (v2 & H2 & H).
    injection H as <-. by exists v1, v2.
  - intros [= <-]. by exists PyNone, PyNone.
Qed.

Lemma mysql_payload_Ok r d d' :
  mysql_payload r d = Ok d' ->
  exists v1 v2 v3 v4 v5 v6 v7 v8,
    let b := ne_False (mysqlStatus r) in
    d' = put_if (b && ne_None v8) "mysqlSecondsBehindMaster" v8
          (put_if b "mysqlThreadsConnected" v7
           (put_if b "mysqlTableLocksWaited" v6
            (put_if b "mysqlSlowQueries" v5
             (put_if b "mysqlOpenFiles" v4
              (put_if b "mysqlMaxUsedConnections" v3
               (put_if b "mysqlCreatedTmpDiskTables" v2
                (put_if b "mysqlConnections" v1 d))))))) /\
    (b = true ->
     getitem (mysqlStatus r) "connections" = Ok v1 /\
     getitem (mysqlStatus r) "createdTmpDiskTables" = Ok v2 /\
     getitem (mysqlStatus r) "maxUsedConnections" = Ok v3 /\
     getitem (mysqlStatus r) "openFiles" = Ok v4 /\
     getitem (mysqlStatus r) "slowQueries" = Ok v5 /\
     getitem (mysqlStatus r) "tableLocksWaited" = Ok v6 /\
     getitem (mysqlStatus r) "threadsConnected" = Ok v7 /\
     getitem (mysqlStatus r) "secondsBehindMaster" = Ok v8).
Proof.
  unfold mysql_payload. destruct (ne_False (mysqlStatus r)).
  - intros H.
    apply and_then_Ok in H as (v1 & H1 & H).
    apply and_then_Ok in H as (v2 & H2 & H).
    apply and_then_Ok in H as (v3 & H3 & H).
    apply and_then_Ok in H as (v4 & H4 & H).
    apply and_then_Ok in H as (v5 & H5 & H).
    apply and_then_Ok in H as (v6 & H6 & H).
    apply and_then_Ok in H as (v7 & H7 & H).
    apply and_then_Ok in H as (v8 & H8 & H).
    injection H as <-. exists v1, v2, v3, v4, v5, v6, v7, v8.
    split; [|done]. cbn [andb]. unfold put_if at 1. by destruct (ne_None v8).
  - intros [= <-].
    by exists PyNone, PyNone, PyNone, PyNone, PyNone, PyNone, PyNone, PyNone.
Qed.

Lemma service_payloads_eq r d :
  service_payloads r d =
    put_if (ne_False (ioStats r)) "ioStats" (ioStats r)
      (put_if (ne_False (plugins r)) "plugins" (plugins r)
         (put_if (ne_False (couchdb r)) "couchDB" (couchdb r)
            (put_if (ne_False (mongodb r)) "mongoDB" (mongodb r)
               (put_if (ne_False (rabbitmq r)) "rabbitMQ" (rabbitmq r) d)))).
Proof. done. Qed.

(** The key an element writes is one [item_writes] names. *)
Lemma as_item_writes reversed x k v :
  as_item reversed x = Ok (Some (k, v)) -> item_writes x k = true.
Proof.
  destruct x as [| | | |str|xs|xs|m]; try done.
  - destruct str as [|a [|b [|]]]; try done.
    intros [= <- _]. cbn. by rewrite Ascii.eqb_refl.
  - destruct xs as [|key [|x [|]]]; try done.
    unfold item_writes. cbn [as_item].
    destruct key; try done; try (by destruct (hashable _)).
    intros [= <- _]. apply String.eqb_refl.
  - destruct xs as [|key [|x [|]]]; try done.
    unfold item_writes. cbn [as_item].
    destruct key; try done; try (by destruct (hashable _)).
    intros [= <- _]. apply String.eqb_refl.
  - unfold item_writes. cbn [as_item].
    destruct (map_to_list m) as [|[ka xa] [|[kb xb] [|]]] eqn:Hl; try done.
    assert (m !! ka = Some xa /\ m !! kb = Some xb) as [Ha Hb].
    { split; apply elem_of_map_to_list; rewrite Hl.
      - apply list_elem_of_here.
      - apply list_elem_of_further, list_elem_of_here. }
    destruct (reversed m); intros [= <- _]; by apply bool_decide_eq_true.
Qed.

Lemma update_items_frame reversed items : forall d d' k,
  update_items reversed d items = Ok d' ->
  existsb (fun x => item_writes x k) items = false ->
  d' !! k = d !! k.
Proof.
  induction items as [|x items IH]; intros d d' k H Hk.
  - by injection H as <-.
  - cbn [update_items existsb] in *. apply orb_false_iff in Hk as [Hx Hk].
    destruct (as_item reversed x) as [[[k' v]|]|] eqn:Hitem; [| |done].
    + rewrite (IH _ _ _ H Hk). apply lookup_insert_ne.
      intros ->. apply as_item_writes in Hitem. congruence.
    + apply (IH _ _ _ H Hk).
Qed.

Lemma update_items_grows reversed items : forall d d' k,
  update_items reversed d items = Ok d' ->
  is_Some (d !! k) -> is_Some (d' !! k).
Proof.
  induction items as [|x items IH]; intros d d' k H Hk.
  - by injection H as <-.
  - cbn [update_items] in H.
    destruct (as_item reversed x) as [[[k' v]|]|]; [| |done].
    + apply (IH _ _ _ H). rewrite lookup_insert. by case_decide.
    + by apply (IH _ _ _ H).
Qed.

Lemma dict_update_frame reversed d v d' k :
  dict_update reversed d v = Ok d' -> redefines v k = false ->
  d' !! k = d !! k.
Proof.
  destruct v; try done; simpl.
  - destruct s; [|done]. by intros [= <-].
  - apply update_items_frame.
  - apply update_items_frame.
  - intros [= <-] Hk. apply bool_decide_eq_false in Hk.
    apply lookup_union_r. by apply eq_None_not_Some.
Qed.

Lemma dict_update_grows reversed d v d' k :
  dict_update reversed d v = Ok d' -> is_Some (d !! k) -> is_Some (d' !! k).
Proof.
  destruct v; try done; simpl.
  - destruct s; [|done]. by intros [= <-].
  - apply update_items_grows.
  - apply update_items_grows.
  - intros [= <-] [x Hx]. destruct (d0 !! k) as [y|] eqn:Hy.
    + exists y. by apply lookup_union_Some_l.
    + exists x. rewrite lookup_union_r; done.
Qed.

Section Assembly.

Variable w : world.

Lemma core_payload_Ok config os r d :
  core_payload w config os r = Ok d ->
  d !! "events" = Some (PyDict ∅) /\
  d !! "resources" = Some (PyDict ∅) /\
  d !! "diskUsage" = Some (diskUsage r) /\
  d !! "networkTraffic" = Some (networkTraffic r) /\
  d !! "processes" = Some (processes r) /\
  (forall k, is_Some (d !! k) <-> k ∈ core_keys).
Proof.
  unfold core_payload. intros H.
  repeat (apply and_then_Ok in H as (? & ? & H)).
  match type of H with
  | Ok (list_to_map ?l) = Ok _ =>
      assert (d = list_to_map l) as -> by congruence;
      assert (NoDup l.*1) as Hnd
        by (apply (bool_decide_unpack _); vm_compute; reflexivity);
      assert (l.*1 = core_keys) as Hkeys by reflexivity;
      set (items := l) in *
  end.
  assert (forall k v, (k, v) ∈ items -> list_to_map items !! k = Some v) as Hin
    by (intros; by apply elem_of_list_to_map_1).
  do 5 (split; [apply Hin; unfold items;
                repeat first [apply list_elem_of_here
                             |apply list_elem_of_further]|]).
  intros k. split.
  - intros [v Hv]. rewrite <- Hkeys.
    apply elem_of_list_to_map_2 in Hv. by apply (list_elem_of_fmap_2 fst) in Hv.
  - intros Hk. rewrite <- Hkeys in Hk.
    destruct (list_to_map items !! k) eqn:Hl; [by eexists|].
    by apply not_elem_of_list_to_map_2 in Hl.
Qed.

(** The payload before the host name is the dictionary display, updated
    with the CPU statistics, under a sequence of guarded writes. *)
Lemma payload_before_hostname_Ok config os firstRun systemStats r d :
  payload_before_hostname w config os firstRun systemStats r = Ok d ->
  exists d0 d1 a1 a2 a3 m1 m2 m3 m4 m5 m6 m7 m8 n1 n2,
    core_payload w config os r = Ok d0 /\
    (if not_False_nor_None (cpuStats r)
     then dict_update (iter_reversed w) d0 (cpuStats r)
     else Ok d0) = Ok d1 /\
    let ba := ne_False (apacheStatus r) in
    let bm := ne_False (mysqlStatus r) in
    let bn := ne_False (nginxStatus r) in
    d = put_if (eq_True firstRun) "systemStats" systemStats
         (put_if (ne_False (ioStats r)) "ioStats" (ioStats r)
         (put_if (ne_False (plugins r)) "plugins" (plugins r)
         (put_if (ne_False (couchdb r)) "couchDB" (couchdb r)
         (put_if (ne_False (mongodb r)) "mongoDB" (mongodb r)
         (put_if (ne_False (rabbitmq r)) "rabbitMQ" (rabbitmq r)
         (put_if bn "nginxReqPerSec" n2
         (put_if bn "nginxConnections" n1
         (put_if (bm && ne_None m8) "mysqlSecondsBehindMaster" m8
         (put_if bm "mysqlThreadsConnected" m7
         (put_if bm "mysqlTableLocksWaited" m6
         (put_if bm "mysqlSlowQueries" m5
         (put_if bm "mysqlOpenFiles" m4
         (put_if bm "mysqlMaxUsedConnections" m3
         (put_if bm "mysqlCreatedTmpDiskTables" m2
         (put_if bm "mysqlConnections" m1
         (put_if ba "apacheIdleWorkers" a3
         (put_if ba "apacheBusyWorkers" a2
         (put_if ba "apacheReqPerSec" a1
         (put_if (not_False_nor_None (cassandraData r)) "cassandra"
                 (cassandraData r)
         (put_if (not_False_nor_None (datadogData r)) "datadog" (datadogData r)
         (put_if (not_False_nor_None (gangliaData r)) "ganglia" (gangliaData r)
            d1))))))))))))))))))))) /\
    (ba = true ->
     getitem (apacheStatus r) "reqPerSec" = Ok a1 /\
     getitem (apacheStatus r) "busyWorkers" = Ok a2 /\
     getitem (apacheStatus r) "idleWorkers" = Ok a3) /\
    (bm = true ->
     getitem (mysqlStatus r) "connections" = Ok m1 /\
     getitem (mysqlStatus r) "createdTmpDiskTables" = Ok m2 /\
     getitem (mysqlStatus r) "maxUsedConnections" = Ok m3 /\
     getitem (mysqlStatus r) "openFiles" = Ok m4 /\
     getitem (mysqlStatus r) "slowQueries" = Ok m5 /\
     getitem (mysqlStatus r) "tableLocksWaited" = Ok m6 /\
     getitem (mysqlStatus r) "threadsConnected" = Ok m7 /\
     getitem (mysqlStatus r) "secondsBehindMaster" = Ok m8) /\
    (bn = true ->
     getitem (nginxStatus r) "connections" = Ok n1 /\
     getitem (nginxStatus r) "reqPerSec" = Ok n2).
Proof.
  unfold payload_before_hostname, extended_payload, optional_payloads.
  intros H.
  apply and_then_Ok in H as (d0 & Hcore & H).
  apply and_then_Ok in H as (dx & Hext & H).
  apply and_then_Ok in Hext as (d1 & Hcpu & Hext). injection Hext as <-.
  apply and_then_Ok in H as (da & Ha & H).
  apply and_then_Ok in H as (dm & Hm & H).
  apply and_then_Ok in H as (dn & Hn & H).
  injection H as <-.
  apply apache_payload_Ok in Ha as (a1 & a2 & a3 & -> & Ha).
  apply mysql_payload_Ok in Hm
    as (m1 & m2 & m3 & m4 & m5 & m6 & m7 & m8 & -> & Hm).
  apply nginx_payload_Ok in Hn as (n1 & n2 & -> & Hn).
  exists d0, d1, a1, a2, a3, m1, m2, m3, m4, m5, m6, m7, m8, n1, n2.
  split; [done|]. split; [done|]. cbn zeta in *. split; [reflexivity|done].
Qed.

(** The second half of the assembly touches three keys. *)
Lemma payload_after_hostname_Ok config evs rcs firstRun d checksData E R :
  payload_after_hostname w config evs rcs firstRun d = Ok checksData ->
  d !! "events" = Some (PyDict E) ->
  d !! "resources" = Some (PyDict R) ->
  let Ea := added (event_entry w) ev_key evs E in
  let Ra := added (resource_entry w) RESOURCE_KEY rcs R in
  (forall k, k <> "events" -> k <> "resources" -> k <> "uuid" ->
             checksData !! k = d !! k) /\
  checksData !! "uuid" = Some (PyStr (uuid5_hex w)) /\
  (if existsb (contributes w) rcs
   then exists api_key host,
          config !! "apiKey" = Some api_key /\
          d !! "internalHostname" = Some host /\
          checksData !! "resources"
            = Some (PyDict (<["meta" := meta_block api_key host]> Ra))
   else checksData !! "resources" = Some (PyDict Ra)) /\
  (if truthy firstRun
   then exists api_key host,
          config !! "apiKey" = Some api_key /\
          d !! "internalHostname" = Some host /\
          checksData !! "events"
            = Some (PyDict (<["System" := PyList [startup_record w api_key host]]> Ea))
   else checksData !! "events" = Some (PyDict Ea)) /\
  Forall (snapshot_taken w) rcs.
Proof.
  unfold payload_after_hostname. cbn zeta. intros H HE HR.
  apply and_then_Ok in H as (d1 & Hev & H).
  apply and_then_Ok in H as ([d2 h] & Hrc & H).
  apply and_then_Ok in H as (d3 & Hmeta & H). cbn [fst snd] in *.
  apply process_events_spec with (E := E) in Hev as [He1 Hk1];
    [|by rewrite lookup_insert_ne].
  apply process_resources_spec with (R := R) in Hrc as (Hr2 & Hk2 & -> & Hall);
    [|by rewrite Hk1, lookup_insert_ne].
  assert (forall k, k <> "events" -> k <> "resources" -> k <> "uuid" ->
                    d2 !! k = d !! k) as Hk.
  { intros k ? ? ?. rewrite Hk2, Hk1 by done. by rewrite lookup_insert_ne. }
  assert (d2 !! "events" = Some (PyDict (added (event_entry w) ev_key evs E)))
    as He2 by (by rewrite Hk2).
  assert (d2 !! "uuid" = Some (PyStr (uuid5_hex w))) as Hu2.
  { rewrite Hk2, Hk1 by done. by rewrite lookup_insert_eq. }
  unfold attach_meta, startup_event, config_get, getitem in *.
  assert (d3 !! "events" = d2 !! "events" /\ d3 !! "uuid" = d2 !! "uuid" /\
          (forall k, k <> "events" -> k <> "resources" -> k <> "uuid" ->
                     d3 !! k = d !! k) /\
          if existsb (contributes w) rcs
          then exists api_key host,
                 config !! "apiKey" = Some api_key /\
                 d !! "internalHostname" = Some host /\
                 d3 !! "resources"
                   = Some (PyDict (<["meta" := meta_block api_key host]>
                                     (added (resource_entry w) RESOURCE_KEY rcs R)))
          else d3 !! "resources"
                 = Some (PyDict (added (resource_entry w) RESOURCE_KEY rcs R)))
    as (He3 & Hu3 & Hk3 & Hr3).
  { destruct (existsb (contributes w) rcs).
    - apply and_then_Ok in Hmeta as (api & Hapi & Hmeta).
      apply and_then_Ok in Hmeta as (host & Hhost & Hmeta).
      destruct (config !! "apiKey") as [api'|] eqn:Hc; [|done].
      injection Hapi as ->.
      destruct (d2 !! "internalHostname") as [host'|] eqn:Hh; [|done].
      injection Hhost as ->. rewrite Hk in Hh by done.
      apply setitem2_Ok in Hmeta as (inner & Hin & ->).
      rewrite Hr2 in Hin. injection Hin as <-.
      rewrite !lookup_insert_ne by done. repeat split; try done.
      + intros k ? ? ?. rewrite lookup_insert_ne by done. by apply Hk.
      + exists api, host. by rewrite lookup_insert_eq.
    - injection Hmeta as <-. by repeat split. }
  destruct (truthy firstRun).
  - apply and_then_Ok in H as (api & Hapi & H).
    apply and_then_Ok in H as (host & Hhost & H).
    destruct (config !! "apiKey") as [api'|] eqn:Hc; [|done].
    injection Hapi as ->.
    destruct (d3 !! "internalHostname") as [host'|] eqn:Hh; [|done].
    injection Hhost as ->. rewrite Hk3 in Hh by done.
    apply setitem2_Ok in H as (inner & Hin & ->).
    rewrite He3, He2 in Hin. injection Hin as <-.
    repeat split; try done.
    + intros k ? ? ?. rewrite lookup_insert_ne by done. by apply Hk3.
    + rewrite lookup_insert_ne by done. by rewrite Hu3.
    + rewrite lookup_insert_ne by done. done.
    + exists api, host. by rewrite lookup_insert_eq.
  - injection H as <-. repeat split; try done; by rewrite ?He3, ?Hu3.
Qed.

End Assembly.

Section Growth.

Variable w : world.

Lemma process_events_grows evs k : forall d d',
  process_events w evs d = Ok d' -> is_Some (d !! k) -> is_Some (d' !! k).
Proof.
  unfold process_events. induction evs as [|ep evs IH]; intros d d' H Hk.
  - by injection H as <-.
  - cbn [fold_result] in H. apply and_then_Ok in H as (dm & Hstep & H).
    apply (IH _ _ H).
    apply and_then_Ok in Hstep as (data & _ & Hstep).
    destruct (truthy data); [|by injection Hstep as <-].
    apply setitem2_Ok in Hstep as (inner & Hin & ->).
    rewrite lookup_insert. by case_decide.
Qed.

Lemma process_resources_loop_grows rcs k : forall d h d' h',
  fold_result rcs (d, h) (fun '(d, has_resource) rc =>
    let? _ := resource_check w rc in
    let? snap := pop_snapshot w rc in
    if truthy snap then
      let? res_value := resource_value w rc snap in
      let? d := setitem2 d "resources" (RESOURCE_KEY rc) res_value in
      Ok (d, true)
    else Ok (d, has_resource)) = Ok (d', h') ->
  is_Some (d !! k) -> is_Some (d' !! k).
Proof.
  induction rcs as [|rc rcs IH]; intros d h d' h' H Hk.
  - by injection H as <- <-.
  - cbn [fold_result] in H. apply and_then_Ok in H as ([dm hm] & Hstep & H).
    apply (IH _ _ _ _ H).
    apply and_then_Ok in Hstep as (? & _ & Hstep).
    apply and_then_Ok in Hstep as (snap & _ & Hstep).
    destruct (truthy snap); [|by injection Hstep as <- <-].
    apply and_then_Ok in Hstep as (v & _ & Hstep).
    apply and_then_Ok in Hstep as (dn & Hset & Hstep).
    injection Hstep as <- <-.
    apply setitem2_Ok in Hset as (inner & Hin & ->).
    rewrite lookup_insert. by case_decide.
Qed.

Lemma process_resources_grows rcs k d d' h :
  process_resources w rcs d = Ok (d', h) ->
  is_Some (d !! k) -> is_Some (d' !! k).
Proof. apply process_resources_loop_grows. Qed.

Lemma payload_after_hostname_grows config evs rcs firstRun d checksData k :
  payload_after_hostname w config evs rcs firstRun d = Ok checksData ->
  is_Some (d !! k) -> is_Some (checksData !! k).
Proof.
  unfold payload_after_hostname. intros H Hk.
  apply and_then_Ok in H as (d1 & Hev & H).
  apply and_then_Ok in H as ([d2 h] & Hrc & H).
  apply and_then_Ok in H as (d3 & Hmeta & H). cbn [fst snd] in *.
  assert (is_Some (d2 !! k)) as H2.
  { apply (process_resources_grows _ _ _ _ _ Hrc).
    apply (process_events_grows _ _ _ _ Hev).
    rewrite lookup_insert. by case_decide. }
  assert (is_Some (d3 !! k)) as H3.
  { unfold attach_meta in Hmeta. destruct h; [|by injection Hmeta as <-].
    apply and_then_Ok in Hmeta as (? & _ & Hmeta).
    apply and_then_Ok in Hmeta as (? & _ & Hmeta).
    apply setitem2_Ok in Hmeta as (inner & Hin & ->).
    rewrite lookup_insert. by case_decide. }
  unfold startup_event in H.
  destruct (truthy firstRun); [|by injection H as <-].
  apply and_then_Ok in H as (? & _ & H).
  apply and_then_Ok in H as (? & _ & H).
  apply setitem2_Ok in H as (inner & Hin & ->).
  rewrite lookup_insert. by case_decide.
Qed.

Lemma payload_before_hostname_core config os firstRun systemStats r d k :
  payload_before_hostname w config os firstRun systemStats r = Ok d ->
  k ∈ core_keys -> is_Some (d !! k).
Proof.
  intros H Hk.
  apply payload_before_hostname_Ok in H
    as (d0 & dc & a1 & a2 & a3 & m1 & m2 & m3 & m4 & m5 & m6 & m7 & m8 & n1
        & n2 & Hcore & Hcpu & -> & _).
  apply core_payload_Ok in Hcore as (_ & _ & _ & _ & _ & Hkeys).
  assert (is_Some (dc !! k)) as Hdc.
  { destruct (not_False_nor_None (cpuStats r)).
    - eapply dict_update_grows; [done|]. by apply Hkeys.
    - injection Hcpu as <-. by apply Hkeys. }
  by repeat apply put_if_grows.
Qed.

End Growth.

(** ** The cycle's contract *)

Lemma emitted_payload w firstRun systemStats s checksData :
  checksData ∈ emitted (calls (doChecks w firstRun systemStats s)) ->
  res (build_checksData w firstRun systemStats s) = Ok checksData.
Proof.
  rewrite doChecks_emitted.
  destruct (res _) as [d|e]; [|by intros ?%elem_of_nil].
  by intros ->%list_elem_of_singleton.
Qed.

Lemma doChecks_scheduled w firstRun systemStats s :
  scheduled (calls (doChecks w firstRun systemStats s)) =
    match res (doChecks w firstRun systemStats s),
          self_agentConfig s !! "checkFreq" with
    | Ok _, Some checkFreq => [(checkFreq, PyFalse)]
    | _, _ => []
    end.
Proof.
  rewrite doChecks_eq. cbn zeta.
  destruct (build_checksData_confined w firstRun systemStats s) as [Hs Hc].
  destruct Hs as [-> _].
  apply without_deliveries in Hc as [_ Hc].
  destruct (res _) as [d|e]; [|done].
  unfold scheduled in *.
  destruct (emitter w d) as [[]|];
    [destruct (_ !! "checkFreq") as [f|]; [destruct (is_number f)|]|];
    cbn [res calls]; by rewrite omap_app, Hc.
Qed.

(** C1, as stated, fails: [doChecks] has no handler around the probe
    calls.  On a host whose Apache probe raises, the cycle ends with that
    exception after the first call: no other probe runs, no payload is
    handed to the emitter and the next cycle is not scheduled. *)
Lemma doChecks_probe_failure_aborts :
  let o := doChecks apache_down_world PyFalse PyFalse
             (fresh_checks sample_config) in
  res o = Raise (OtherException "HTTPException") /\
  probes_called (calls o) = [Apache] /\
  emitted (calls o) = [] /\
  scheduled (calls o) = [].
Proof. vm_compute. done. Qed.

(** C2, as stated, fails: nothing catches an exception of the emitter.  On
    a host from which the payload cannot be sent the payload is handed to
    the emitter, the emitter's exception leaves [doChecks], and the next
    cycle is not scheduled. *)
Lemma doChecks_emitter_failure_not_rescheduled :
  let o := doChecks emitter_down_world PyFalse PyFalse
             (fresh_checks sample_config) in
  res o = Raise IOError /\
  List.length (emitted (calls o)) = 1 /\
  scheduled (calls o) = [].
Proof. vm_compute. done. Qed.

(** C2, amended.  The next cycle is scheduled, with delay [checkFreq] and
    [firstRun] false, when the payload was assembled and the emitter
    returned; an exception raised by the emitter leaves [doChecks] and the
    next cycle is not scheduled. *)
Theorem doChecks_reschedules_after_delivery w firstRun systemStats s checksData :
  res (build_checksData w firstRun systemStats s) = Ok checksData ->
  let o := doChecks w firstRun systemStats s in
  (forall e, emitter w checksData = Raise e ->
     res o = Raise e /\ emitted (calls o) = [checksData] /\
     scheduled (calls o) = []) /\
  (forall checkFreq,
     emitter w checksData = Ok tt ->
     self_agentConfig s !! "checkFreq" = Some checkFreq ->
     is_number checkFreq = true ->
     res o = Ok tt /\ emitted (calls o) = [checksData] /\
     scheduled (calls o) = [(checkFreq, PyFalse)]).
Proof.
  intros Hb. cbn zeta.
  destruct (build_checksData_confined w firstRun systemStats s)
    as [[Hcfg _] _].
  split.
  - intros e He.
    assert (res (doChecks w firstRun systemStats s) = Raise e) as Hres
      by (rewrite doChecks_eq; cbn zeta; by rewrite Hb, He).
    by rewrite doChecks_emitted, doChecks_scheduled, Hres, Hb.
  - intros f He Hf Hnum.
    assert (res (doChecks w firstRun systemStats s) = Ok tt) as Hres
      by (rewrite doChecks_eq; cbn zeta; by rewrite Hb, He, Hcfg, Hf, Hnum).
    by rewrite doChecks_emitted, doChecks_scheduled, Hres, Hb, Hf.
Qed.

Lemma doChecks_reschedules_after_delivery_witness :
  res (doChecks sample_world PyFalse PyFalse (fresh_checks sample_config))
    = Ok tt /\
  scheduled (calls (doChecks sample_world PyFalse PyFalse
                      (fresh_checks sample_config)))
    = [(PyInt 15, PyFalse)].
Proof.
  assert (is_Ok (res (build_checksData sample_world PyFalse PyFalse
                        (fresh_checks sample_config))) = true) as Hok
    by (vm_compute; reflexivity).
  destruct (res (build_checksData sample_world PyFalse PyFalse
                   (fresh_checks sample_config))) as [d|e] eqn:Hb;
    [|discriminate Hok].
  destruct (doChecks_reschedules_after_delivery sample_world PyFalse PyFalse
              (fresh_checks sample_config) d Hb) as [_ Hsent].
  destruct (Hsent (PyInt 15) eq_refl eq_refl eq_refl) as (Hres & _ & Hsched).
  by split.
Defined.

(** C7: the code does not keep the promise.  With [firstRun] true and a
    host name that cannot be resolved, the handler around
    [socket.gethostname] logs the failure and leaves the field out, and the
    start event then reads [checksData['internalHostname']]: the cycle ends
    with [KeyError], nothing is handed to the emitter and the next cycle is
    not scheduled. *)
Theorem doChecks_hostname_failure_first_run :
  let o := doChecks no_hostname_world PyTrue (PyStr "facts")
             (fresh_checks sample_config) in
  res o = Raise (KeyError "internalHostname") /\
  EvLogDebug "Unable to get hostname" ∈ calls o /\
  emitted (calls o) = [] /\
  scheduled (calls o) = [].
Proof.
  vm_compute. repeat split; try done.
  repeat first [apply list_elem_of_here | apply list_elem_of_further].
Qed.

(** The same happens on a later cycle when a resource probe has a
    snapshot: the [meta] block reads the missing field. *)
Lemma doChecks_hostname_failure_with_resource :
  let o := doChecks (with_gethostname (Raise SocketError) snapshot_world)
             PyFalse PyFalse (fresh_checks sample_config) in
  res o = Raise (KeyError "internalHostname") /\
  emitted (calls o) = [] /\
  scheduled (calls o) = [].
Proof. vm_compute. done. Qed.

(** On a later cycle without a resource snapshot the failure is survived:
    the payload has no [internalHostname], it is delivered and the next
    cycle is scheduled. *)
Lemma doChecks_hostname_failure_survived :
  let o := doChecks no_hostname_world PyFalse PyFalse
             (fresh_checks sample_config) in
  res o = Ok tt /\
  (fun d : pydict => d !! "internalHostname") <$> emitted (calls o) = [None] /\
  scheduled (calls o) = [(PyInt 15, PyFalse)].
Proof. vm_compute. done. Qed.

(** *** The fields of a delivered payload *)

Lemma cpu_disjoint_key w k v :
  cpu_disjoint w = true ->
  probe_check w CPU = Ok v ->
  k ∈ own_keys ->
  redefines v k = false.
Proof.
  unfold cpu_disjoint, cpu_redefines. intros Hd Hv Hk.
  rewrite forallb_forall in Hd. apply list_elem_of_In in Hk.
  specialize (Hd k Hk). rewrite Hv in Hd. by apply negb_true_iff.
Qed.

Ltac solve_key :=
  apply (bool_decide_unpack _); vm_compute; reflexivity.

Lemma payload_before_hostname_fields w config os firstRun systemStats r d :
  payload_before_hostname w config os firstRun systemStats r = Ok d ->
  (forall k, k ∈ own_keys -> redefines (cpuStats r) k = false) ->
  (d !! "events" = Some (PyDict ∅) /\
   d !! "resources" = Some (PyDict ∅) /\
   d !! "internalHostname" = None /\
   d !! "systemStats" = (if eq_True firstRun then Some systemStats else None)) /\
  (value_written d (rabbitmq r) "rabbitMQ" /\
   value_written d (mongodb r) "mongoDB" /\
   value_written d (couchdb r) "couchDB" /\
   value_written d (plugins r) "plugins" /\
   value_written d (ioStats r) "ioStats") /\
  Forall (field_written d (apacheStatus r)) apache_fields /\
  Forall (field_written d (mysqlStatus r)) mysql_fields /\
  Forall (field_written d (nginxStatus r)) nginx_fields /\
  (ne_False (mysqlStatus r) = true ->
   exists x, getitem (mysqlStatus r) "secondsBehindMaster" = Ok x /\
             d !! "mysqlSecondsBehindMaster"
               = if ne_None x then Some x else None) /\
  (ne_False (mysqlStatus r) = false -> d !! "mysqlSecondsBehindMaster" = None).
Proof.
  intros H Hcpu.
  apply payload_before_hostname_Ok in H
    as (d0 & dc & a1 & a2 & a3 & m1 & m2 & m3 & m4 & m5 & m6 & m7 & m8 & n1
        & n2 & Hcore & Hupd & Hd & Ha & Hm & Hn).
  cbn zeta in *.
  apply core_payload_Ok in Hcore as (Hev & Hrs & _ & _ & _ & Hkeys).
  assert (forall k, k ∈ own_keys -> dc !! k = d0 !! k) as Hdc.
  { intros k Hk. destruct (not_False_nor_None (cpuStats r)).
    - eapply dict_update_frame; [done | by apply Hcpu].
    - by injection Hupd as <-. }
  assert (forall k, k ∈ own_keys -> k ∉ core_keys -> dc !! k = None) as Hnone.
  { intros k Hk Hnk. rewrite Hdc by done. apply eq_None_not_Some.
    by rewrite Hkeys. }
  clear Hupd Hcpu Hkeys. subst d.
  split; [|split; [|split; [|split; [|split; [|split]]]]].
  - split; [|split; [|split]]; lookup_writes.
    + rewrite Hdc by solve_key. exact Hev.
    + rewrite Hdc by solve_key. exact Hrs.
    + apply Hnone; solve_key.
    + destruct (eq_True firstRun); [done | apply Hnone; solve_key].
  - unfold value_written.
    repeat split; lookup_writes;
      (match goal with |- (if ?b then _ else _) = _ => destruct b end;
       [done | apply Hnone; solve_key]).
  - unfold apache_fields, field_written.
    repeat constructor; cbn [fst snd]; intros Hb; lookup_writes;
      rewrite Hb; try (apply Hnone; solve_key);
      destruct (Ha Hb) as (?&?&?); eexists; (split; [eassumption|done]).
  - unfold mysql_fields, field_written.
    repeat constructor; cbn [fst snd]; intros Hb; lookup_writes;
      rewrite Hb; try (apply Hnone; solve_key);
      destruct (Hm Hb) as (?&?&?&?&?&?&?&?); eexists;
      (split; [eassumption|done]).
  - unfold nginx_fields, field_written.
    repeat constructor; cbn [fst snd]; intros Hb; lookup_writes;
      rewrite Hb; try (apply Hnone; solve_key);
      destruct (Hn Hb) as (?&?); eexists; (split; [eassumption|done]).
  - intros Hb. destruct (Hm Hb) as (_&_&_&_&_&_&_&H8). exists m8.
    split; [done|]. lookup_writes. rewrite Hb. cbn [andb].
    destruct (ne_None m8); [done | apply Hnone; solve_key].
  - intros Hb. lookup_writes. rewrite Hb. cbn [andb]. apply Hnone; solve_key.
Qed.

Lemma added_nothing {A} (entry : A -> option pyval) key xs m :
  Forall (fun x => entry x = None) xs -> added entry key xs m = m.
Proof.
  unfold added. intros H. revert m.
  induction H as [|x xs Hx _ IH]; intros m; [done|].
  cbn [foldl]. by rewrite Hx, IH.
Qed.

Lemma nobody_contributes w rcs :
  Forall (fun rc => contributes w rc = false) rcs ->
  existsb (contributes w) rcs = false /\
  Forall (fun rc => resource_entry w rc = None) rcs.
Proof.
  induction 1 as [|rc rcs Hrc _ [IH1 IH2]]; [done|].
  cbn [existsb]. rewrite Hrc, IH1. split; [done|]. constructor; [|done].
  unfold contributes, resource_entry in *.
  destruct (pop_snapshot w rc) as [snap|]; [|done]. by rewrite Hrc.
Qed.

(** What a cycle that delivered a payload went through. *)
Lemma delivered_payload w firstRun systemStats s checksData :
  checksData ∈ emitted (calls (doChecks w firstRun systemStats s)) ->
  cpu_disjoint w = true ->
  exists r os d d',
    res (run_checks w (self_after (resolve_os w s))) = Ok r /\
    payload_before_hostname w (self_agentConfig s) os firstRun systemStats r
      = Ok d /\
    (forall k, k ∈ own_keys -> redefines (cpuStats r) k = false) /\
    d' !! "events" = Some (PyDict ∅) /\
    d' !! "resources" = Some (PyDict ∅) /\
    d' !! "internalHostname" = returned (socket_gethostname w) /\
    (forall k, k <> "internalHostname" -> d' !! k = d !! k) /\
    payload_after_hostname w (self_agentConfig s) (self_event_checks s)
      (self_resources_checks s) firstRun d' = Ok checksData.
Proof.
  intros Hd Hcpu. apply emitted_payload in Hd.
  apply build_checksData_Ok in Hd
    as (r & os & d & d' & Hrun & Hbefore & Hhost & Hafter).
  exists r, os, d, d'. split; [done|]. split; [done|].
  assert (forall k, k ∈ own_keys -> redefines (cpuStats r) k = false) as Hkeys.
  { intros k Hk. apply run_checks_Ok in Hrun as (_ & (_&_&_&_&Hc&_) & _).
    by apply (cpu_disjoint_key w). }
  split; [done|].
  destruct (payload_before_hostname_fields _ _ _ _ _ _ _ Hbefore Hkeys)
    as ((Hev & Hrs & Hh & _) & _).
  destruct Hhost as [(name & Hname & ->)|(e & He & _ & ->)].
  - rewrite Hname. cbn [returned].
    rewrite !lookup_insert_ne by done. rewrite lookup_insert_eq.
    repeat split; try done. intros k Hk. by rewrite lookup_insert_ne.
  - rewrite He. by repeat split.
Qed.

(** C10, as stated, fails: with CPU statistics that hold the key
    [events], the payload is delivered with [events] mapped to what the
    statistics hold, here a number. *)
Lemma doChecks_cpu_replaces_events :
  let w := cpu_world (PyDict {[ "events" := PyInt 5 ]}) in
  (fun d : pydict => d !! "events")
    <$> emitted (calls (doChecks w PyFalse PyFalse
                          (fresh_checks sample_config)))
    = [Some (PyInt 5)].
Proof. vm_compute. done. Qed.

(** C10, amended.  A payload handed to the emitter holds the keys
    [events] and [resources].  When the CPU statistics write none of
    [doChecks]' own keys each of the two is mapped to a mapping, which is
    empty when no probe of that kind contributed (and, for [events], no
    start event was added). *)
Theorem doChecks_events_and_resources w firstRun systemStats s checksData :
  checksData ∈ emitted (calls (doChecks w firstRun systemStats s)) ->
  is_Some (checksData !! "events") /\
  is_Some (checksData !! "resources") /\
  (cpu_disjoint w = true ->
   exists events resources,
     checksData !! "events" = Some (PyDict events) /\
     checksData !! "resources" = Some (PyDict resources) /\
     (truthy firstRun = false ->
      Forall (fun ep => event_entry w ep = None) (self_event_checks s) ->
      events = ∅) /\
     (Forall (fun rc => contributes w rc = false) (self_resources_checks s) ->
      resources = ∅)).
Proof.
  intros Hd.
  assert (forall k, k ∈ core_keys -> is_Some (checksData !! k)) as Hcore.
  { intros k Hk. pose proof (emitted_payload _ _ _ _ _ Hd) as Hb.
    apply build_checksData_Ok in Hb
      as (r & os & d1 & d2 & _ & Hbefore & Hhost & Hafter).
    apply (payload_after_hostname_grows _ _ _ _ _ _ _ _ Hafter).
    pose proof (payload_before_hostname_core _ _ _ _ _ _ _ k Hbefore Hk)
      as Hd1.
    destruct Hhost as [(name & _ & ->)|(e & _ & _ & ->)]; [|done].
    rewrite lookup_insert. by case_decide. }
  split; [apply Hcore; solve_key|]. split; [apply Hcore; solve_key|].
  intros Hcpu.
  destruct (delivered_payload _ _ _ _ _ Hd Hcpu)
    as (r & os & d & d' & _ & _ & _ & Hev & Hrs & _ & _ & Hafter).
  destruct (payload_after_hostname_Ok _ _ _ _ _ _ _ _ _ Hafter Hev Hrs)
    as (_ & _ & Hres & Hevents & _). cbn zeta in *.
  assert (exists events,
            checksData !! "events" = Some (PyDict events) /\
            (truthy firstRun = false ->
             Forall (fun ep => event_entry w ep = None) (self_event_checks s) ->
             events = ∅)) as (events & He & Hempty).
  { destruct (truthy firstRun).
    - destruct Hevents as (? & ? & _ & _ & ->). eexists. by split.
    - eexists. split; [done|]. intros _ Hnone. by apply added_nothing. }
  assert (exists resources,
            checksData !! "resources" = Some (PyDict resources) /\
            (Forall (fun rc => contributes w rc = false)
                    (self_resources_checks s) -> resources = ∅))
    as (resources & Hr & Hrempty).
  { destruct (existsb (contributes w) (self_resources_checks s)) eqn:Hex.
    - destruct Hres as (? & ? & _ & _ & ->). eexists. split; [done|].
      intros Hnone. apply nobody_contributes in Hnone as [Hno _]. congruence.
    - eexists. split; [done|]. intros Hnone.
      apply nobody_contributes in Hnone as [_ Hno]. by apply added_nothing. }
  by exists events, resources.
Qed.

Lemma doChecks_events_and_resources_witness :
  exists checksData,
    emitted (calls (doChecks sample_world PyFalse PyFalse
                      (fresh_checks sample_config))) = [checksData] /\
    checksData !! "events" = Some (PyDict ∅) /\
    checksData !! "resources" = Some (PyDict ∅).
Proof.
  assert (is_Ok (res (build_checksData sample_world PyFalse PyFalse
                        (fresh_checks sample_config))) = true) as Hok
    by (vm_compute; reflexivity).
  destruct (res (build_checksData sample_world PyFalse PyFalse
                   (fresh_checks sample_config))) as [d|e] eqn:Hb;
    [|discriminate Hok].
  assert (emitted (calls (doChecks sample_world PyFalse PyFalse
                            (fresh_checks sample_config))) = [d]) as Hd
    by (by rewrite doChecks_emitted, Hb).
  exists d. split; [exact Hd|].
  destruct (doChecks_events_and_resources sample_world PyFalse PyFalse
              (fresh_checks sample_config) d) as (_ & _ & Hmap).
  - rewrite Hd. apply list_elem_of_here.
  - destruct Hmap as (ev & rs & He & Hr & Hev & Hrs);
      [vm_compute; reflexivity|].
    rewrite He, Hr, Hev, Hrs; [done | | done |].
    + repeat constructor.
    + repeat constructor.
Defined.

(** C9, as stated, fails: with [firstRun] false and CPU statistics that
    hold the key [systemStats], the payload has a [systemStats] field. *)
Lemma doChecks_cpu_supplies_systemStats :
  let w := cpu_world (PyDict {[ "systemStats" := PyStr "cpu" ]}) in
  (fun d : pydict => d !! "systemStats")
    <$> emitted (calls (doChecks w PyFalse PyFalse
                          (fresh_checks sample_config)))
    = [Some (PyStr "cpu")].
Proof. vm_compute. done. Qed.

(** C9, amended.  When the CPU statistics write none of [doChecks]' own
    keys: with [firstRun] true a delivered payload holds [systemStats],
    equal to the argument, and one start event under [events]['System'];
    with [firstRun] false it holds no [systemStats] and, no event probe
    being keyed [System], no entry [events]['System']. *)
Theorem doChecks_first_run_fields w systemStats s checksData :
  cpu_disjoint w = true ->
  (checksData ∈ emitted (calls (doChecks w PyTrue systemStats s)) ->
   checksData !! "systemStats" = Some systemStats /\
   exists events api_key host,
     self_agentConfig s !! "apiKey" = Some api_key /\
     socket_gethostname w = Ok host /\
     checksData !! "events" = Some (PyDict events) /\
     events !! "System" = Some (PyList [startup_record w api_key host])) /\
  (checksData ∈ emitted (calls (doChecks w PyFalse systemStats s)) ->
   "System" ∉ ev_key <$> self_event_checks s ->
   checksData !! "systemStats" = None /\
   exists events,
     checksData !! "events" = Some (PyDict events) /\
     events !! "System" = None).
Proof.
  intros Hcpu. split.
  - intros Hd.
    destruct (delivered_payload _ _ _ _ _ Hd Hcpu)
      as (r & os & d & d' & _ & Hbefore & Hkeys & Hev & Hrs & Hhost & Hd'
          & Hafter).
    destruct (payload_before_hostname_fields _ _ _ _ _ _ _ Hbefore Hkeys)
      as ((_ & _ & _ & Hss) & _).
    destruct (payload_after_hostname_Ok _ _ _ _ _ _ _ _ _ Hafter Hev Hrs)
      as (Hk & _ & _ & Hevents & _). cbn [truthy eq_True] in *.
    destruct Hevents as (api & host & Hapi & Hh & Hevents).
    split; [rewrite Hk, Hd' by done; exact Hss|].
    exists (<["System" := PyList [startup_record w api host]]>
              (added (event_entry w) ev_key (self_event_checks s) ∅)),
      api, host.
    split; [done|]. split; [|split; [done | by rewrite lookup_insert_eq]].
    rewrite Hhost in Hh. by destruct (socket_gethostname w) as [?|?];
      [injection Hh as -> |].
  - intros Hd Hnot.
    destruct (delivered_payload _ _ _ _ _ Hd Hcpu)
      as (r & os & d & d' & _ & Hbefore & Hkeys & Hev & Hrs & Hhost & Hd'
          & Hafter).
    destruct (payload_before_hostname_fields _ _ _ _ _ _ _ Hbefore Hkeys)
      as ((_ & _ & _ & Hss) & _).
    destruct (payload_after_hostname_Ok _ _ _ _ _ _ _ _ _ Hafter Hev Hrs)
      as (Hk & _ & _ & Hevents & _). cbn [truthy eq_True] in *.
    split; [rewrite Hk, Hd' by done; exact Hss|].
    eexists. split; [exact Hevents|].
    by rewrite added_lookup_other.
Qed.

Lemma doChecks_first_run_fields_witness :
  exists checksData,
    emitted (calls (doChecks sample_world PyTrue (PyStr "facts")
                      (fresh_checks sample_config))) = [checksData] /\
    checksData !! "systemStats" = Some (PyStr "facts").
Proof.
  assert (is_Ok (res (build_checksData sample_world PyTrue (PyStr "facts")
                        (fresh_checks sample_config))) = true) as Hok
    by (vm_compute; reflexivity).
  destruct (res (build_checksData sample_world PyTrue (PyStr "facts")
                   (fresh_checks sample_config))) as [d|e] eqn:Hb;
    [|discriminate Hok].
  assert (emitted (calls (doChecks sample_world PyTrue (PyStr "facts")
                            (fresh_checks sample_config))) = [d]) as Hd
    by (by rewrite doChecks_emitted, Hb).
  exists d. split; [exact Hd|].
  destruct (doChecks_first_run_fields sample_world (PyStr "facts")
              (fresh_checks sample_config) d) as [Hfirst _].
  - vm_compute. reflexivity.
  - apply Hfirst. rewrite Hd. apply list_elem_of_here.
Defined.

Lemma resource_value_Ok w rc snap v :
  resource_value w rc snap = Ok v -> describes_snapshot w rc snap v.
Proof.
  unfold resource_value. intros H.
  apply and_then_Ok in H as (fmt & Hfmt & H).
  apply and_then_Ok in H as (ts & Hts & H).
  apply and_then_Ok in H as (data & Hdata & H).
  apply and_then_Ok in H as (version & Hver & H).
  injection H as <-.
  exists ts, data, version, fmt. eexists.
  do 4 (split; [done|]). split; [reflexivity|].
  change (if ne_None fmt
          then <["format_description" := fmt]> ?m
          else ?m)
    with (put_if (ne_None fmt) "format_description" fmt m).
  split; [by lookup_writes|]. split; [by lookup_writes|].
  split; [by lookup_writes|]. split.
  - lookup_writes. by destruct (ne_None fmt).
  - intros k [x Hx]. rewrite lookup_put_if in Hx.
    rewrite !elem_of_cons.
    destruct (String.eqb_spec "format_description" k) as [<-|?]; [tauto|].
    cbn [andb] in Hx. rewrite !lookup_insert in Hx.
    repeat case_decide; subst; try tauto. by rewrite lookup_empty in Hx.
Qed.

(** C8, as stated, fails: the CPU statistics are merged into the payload
    after [resources] was initialised and can replace it.  With CPU
    statistics that hold the key [resources], the payload has an entry
    for the resource probe and a [meta] block although the probe's
    snapshot was empty. *)
Lemma doChecks_cpu_replaces_resources :
  let cpu := PyDict {[ "resources" :=
                         PyDict (<["meta" := PyInt 0]>
                                   {[ "processes" := PyInt 1 ]}) ]} in
  let w := cpu_world cpu in
  let s := fresh_checks sample_config in
  Forall (fun rc => contributes w rc = false) (self_resources_checks s) /\
  (fun d : pydict => d !! "resources")
    <$> emitted (calls (doChecks w PyFalse PyFalse s))
    = [Some (PyDict (<["meta" := PyInt 0]> {[ "processes" := PyInt 1 ]}))].
Proof. vm_compute. split; [by repeat constructor | done]. Qed.

(** C8, amended.  When the CPU statistics write none of [doChecks]' own
    keys and the resource probes have distinct keys other than [meta]: in
    a delivered payload a resource probe has an entry under [resources],
    holding the timestamp, the data, the format version and, when one was
    returned, the format description, exactly when its popped snapshot is
    not empty; the [meta] block with the API key and the resolved host
    name is there exactly when some probe contributed; and [resources]
    holds nothing else. *)
Theorem doChecks_resources w firstRun systemStats s checksData :
  checksData ∈ emitted (calls (doChecks w firstRun systemStats s)) ->
  cpu_disjoint w = true ->
  NoDup (RESOURCE_KEY <$> self_resources_checks s) ->
  "meta" ∉ RESOURCE_KEY <$> self_resources_checks s ->
  exists resources,
    checksData !! "resources" = Some (PyDict resources) /\
    (forall rc, rc ∈ self_resources_checks s ->
       exists snap,
         pop_snapshot w rc = Ok snap /\
         if truthy snap
         then exists v, resources !! RESOURCE_KEY rc = Some v /\
                        describes_snapshot w rc snap v
         else resources !! RESOURCE_KEY rc = None) /\
    (if existsb (contributes w) (self_resources_checks s)
     then exists api_key host,
            self_agentConfig s !! "apiKey" = Some api_key /\
            socket_gethostname w = Ok host /\
            resources !! "meta" = Some (meta_block api_key host)
     else resources !! "meta" = None) /\
    (forall k, k <> "meta" -> k ∉ RESOURCE_KEY <$> self_resources_checks s ->
               resources !! k = None).
Proof.
  intros Hd Hcpu Hnd Hmeta.
  destruct (delivered_payload _ _ _ _ _ Hd Hcpu)
    as (r & os & d & d' & _ & _ & _ & Hev & Hrs & Hhost & _ & Hafter).
  destruct (payload_after_hostname_Ok _ _ _ _ _ _ _ _ _ Hafter Hev Hrs)
    as (_ & _ & Hres & _ & Htaken). cbn zeta in *.
  set (rcs := self_resources_checks s) in *.
  set (Ra := added (resource_entry w) RESOURCE_KEY rcs ∅) in *.
  assert (forall rc, rc ∈ rcs ->
            exists snap,
              pop_snapshot w rc = Ok snap /\
              if truthy snap
              then exists v, Ra !! RESOURCE_KEY rc = Some v /\
                             describes_snapshot w rc snap v
              else Ra !! RESOURCE_KEY rc = None) as Hentries.
  { intros rc Hrc. rewrite Forall_forall in Htaken.
    destruct (Htaken rc Hrc) as (snap & Hsnap & Hval).
    exists snap. split; [done|]. unfold Ra.
    rewrite added_lookup by done. unfold resource_entry. rewrite Hsnap.
    destruct (truthy snap); [|done].
    destruct (Hval eq_refl) as [v Hv]. rewrite Hv. exists v.
    split; [done | by apply resource_value_Ok]. }
  assert (Ra !! "meta" = None) as Hnometa
    by (unfold Ra; by rewrite added_lookup_other).
  assert (forall k, k ∉ RESOURCE_KEY <$> rcs -> Ra !! k = None) as Hother
    by (intros k Hk; unfold Ra; by rewrite added_lookup_other).
  destruct (existsb (contributes w) rcs).
  - destruct Hres as (api & host & Hapi & Hh & Hres).
    exists (<["meta" := meta_block api host]> Ra). split; [done|].
    split; [|split].
    + intros rc Hrc. destruct (Hentries rc Hrc) as (snap & Hsnap & He).
      exists snap. split; [done|]. rewrite lookup_insert_ne; [done|].
      intros Heq. apply Hmeta. rewrite Heq. by apply list_elem_of_fmap_2.
    + exists api, host. split; [done|]. split; [|by rewrite lookup_insert_eq].
      rewrite Hhost in Hh.
      by destruct (socket_gethostname w); [injection Hh as ->|].
    + intros k Hk Hnk. rewrite lookup_insert_ne by done. by apply Hother.
  - exists Ra. split; [done|]. split; [done|]. split; [done|].
    intros k _ Hk. by apply Hother.
Qed.

Lemma doChecks_resources_witness :
  exists checksData resources,
    emitted (calls (doChecks snapshot_world PyFalse PyFalse
                      (fresh_checks sample_config))) = [checksData] /\
    checksData !! "resources" = Some (PyDict resources) /\
    is_Some (resources !! "processes") /\
    resources !! "meta"
      = Some (meta_block (PyStr "api-key") (PyStr "host-1")).
Proof.
  assert (is_Ok (res (build_checksData snapshot_world PyFalse PyFalse
                        (fresh_checks sample_config))) = true) as Hok
    by (vm_compute; reflexivity).
  destruct (res (build_checksData snapshot_world PyFalse PyFalse
                   (fresh_checks sample_config))) as [d|e] eqn:Hb;
    [|discriminate Hok].
  assert (emitted (calls (doChecks snapshot_world PyFalse PyFalse
                            (fresh_checks sample_config))) = [d]) as Hd
    by (by rewrite doChecks_emitted, Hb).
  destruct (doChecks_resources snapshot_world PyFalse PyFalse
              (fresh_checks sample_config) d)
    as (resources & Hr & Hentries & Hmeta & _).
  - rewrite Hd. apply list_elem_of_here.
  - vm_compute. reflexivity.
  - apply (bool_decide_unpack _). vm_compute. reflexivity.
  - apply (bool_decide_unpack _). vm_compute. reflexivity.
  - exists d, resources. split; [exact Hd|]. split; [exact Hr|]. split.
    + destruct (Hentries (ResourceProbe 0 "processes"))
        as (snap & Hsnap & Hentry); [apply list_elem_of_here|].
      injection Hsnap as <-. cbn in Hentry.
      destruct Hentry as (v & Hv & _). by eexists.
    + cbn in Hmeta. destruct Hmeta as (api & host & Hapi & Hhost & Hm).
      injection Hhost as <-. vm_compute in Hapi. injection Hapi as <-.
      exact Hm.
Defined.

(** C6, as stated, fails for the empty mapping: [{} != False] holds.  With
    an existing plugin directory that holds no plugin, [getPlugins] returns
    the empty mapping and the payload holds the key [plugins]. *)
Lemma doChecks_keeps_empty_plugins :
  let s := fresh_checks sample_plugin_config in
  res (getPlugins empty_dir_world s) = Ok (PyDict ∅) /\
  (fun d : pydict => d !! "plugins")
    <$> emitted (calls (doChecks empty_dir_world PyFalse PyFalse s))
    = [Some (PyDict ∅)].
Proof. vm_compute. done. Qed.

(** C6, amended.  When the CPU statistics write none of [doChecks]' own
    keys: in a delivered payload the key [plugins] is present exactly when
    the value [getPlugins] returned is [!= False] (so an empty mapping is
    stored), and likewise [rabbitMQ], [mongoDB], [couchDB] and [ioStats]
    for their probes; the fields copied from the Apache, MySQL and Nginx
    statuses are present exactly when the status is [!= False]. *)
Theorem doChecks_optional_fields w firstRun systemStats s checksData :
  checksData ∈ emitted (calls (doChecks w firstRun systemStats s)) ->
  cpu_disjoint w = true ->
  exists apache mysql nginx rabbit mongo couch io from_plugins,
    (probe_check w Apache = Ok apache /\
     probe_check w MySQL = Ok mysql /\
     probe_check w Nginx = Ok nginx /\
     probe_check w RabbitMQ = Ok rabbit /\
     probe_check w MongoDB = Ok mongo /\
     probe_check w CouchDB = Ok couch /\
     probe_check w IOStats = Ok io /\
     res (getPlugins w (self_after (resolve_os w s))) = Ok from_plugins) /\
    (value_written checksData from_plugins "plugins" /\
     value_written checksData rabbit "rabbitMQ" /\
     value_written checksData mongo "mongoDB" /\
     value_written checksData couch "couchDB" /\
     value_written checksData io "ioStats") /\
    Forall (field_written checksData apache) apache_fields /\
    Forall (field_written checksData mysql) mysql_fields /\
    Forall (field_written checksData nginx) nginx_fields /\
    (ne_False mysql = true ->
     exists x, getitem mysql "secondsBehindMaster" = Ok x /\
               checksData !! "mysqlSecondsBehindMaster"
                 = if ne_None x then Some x else None) /\
    (ne_False mysql = false -> checksData !! "mysqlSecondsBehindMaster" = None).
Proof.
  intros Hd Hcpu.
  destruct (delivered_payload _ _ _ _ _ Hd Hcpu)
    as (r & os & d & d' & Hrun & Hbefore & Hkeys & Hev & Hrs & _ & Hd'
        & Hafter).
  destruct (payload_before_hostname_fields _ _ _ _ _ _ _ Hbefore Hkeys)
    as (_ & (Hrab & Hmon & Hcou & Hplu & Hio) & Hap & Hmy & Hng & Hsb1 & Hsb0).
  destruct (payload_after_hostname_Ok _ _ _ _ _ _ _ _ _ Hafter Hev Hrs)
    as (Hk & _).
  apply run_checks_Ok in Hrun
    as ((Ha&_&_&_&Hm&_&Hn&_) & (Hr&Hmo&Hc&Hi&_) & Hp & _).
  assert (forall k, k <> "events" -> k <> "resources" -> k <> "uuid" ->
            k <> "internalHostname" -> checksData !! k = d !! k) as Hsame.
  { intros k ? ? ? ?. rewrite Hk by done. by apply Hd'. }
  exists (apacheStatus r), (mysqlStatus r), (nginxStatus r), (rabbitmq r),
    (mongodb r), (couchdb r), (ioStats r), (plugins r).
  split; [done|]. unfold value_written, field_written, apache_fields,
    mysql_fields, nginx_fields in *.
  repeat match goal with
         | H : Forall _ (_ :: _) |- _ => apply Forall_cons in H as [? H]
         end.
  cbn [fst snd] in *.
  repeat match goal with
         | |- _ /\ _ => split
         | |- Forall _ (_ :: _) => constructor
         | |- Forall _ [] => constructor
         end;
    cbn [fst snd]; try (intros Hb); rewrite Hsame by done;
    try done; try (by apply Hsb1); try (by apply Hsb0);
    match goal with H : _ /\ _ |- _ => by apply H end.
Qed.

Lemma doChecks_optional_fields_witness :
  exists checksData,
    emitted (calls (doChecks empty_dir_world PyFalse PyFalse
                      (fresh_checks sample_plugin_config))) = [checksData] /\
    checksData !! "plugins" = Some (PyDict ∅) /\
    checksData !! "rabbitMQ" = None.
Proof.
  assert (is_Ok (res (build_checksData empty_dir_world PyFalse PyFalse
                        (fresh_checks sample_plugin_config))) = true) as Hok
    by (vm_compute; reflexivity).
  destruct (res (build_checksData empty_dir_world PyFalse PyFalse
                   (fresh_checks sample_plugin_config))) as [d|e] eqn:Hb;
    [|discriminate Hok].
  assert (emitted (calls (doChecks empty_dir_world PyFalse PyFalse
                            (fresh_checks sample_plugin_config))) = [d]) as Hd
    by (by rewrite doChecks_emitted, Hb).
  destruct (doChecks_optional_fields empty_dir_world PyFalse PyFalse
              (fresh_checks sample_plugin_config) d)
    as (apache & mysql & nginx & rabbit & mongo & couch & io & plug
        & (_ & _ & _ & Hrab & _ & _ & _ & Hplug) & (Hp & Hr & _) & _).
  - rewrite Hd. apply list_elem_of_here.
  - vm_compute. reflexivity.
  - exists d. split; [exact Hd|].
    vm_compute in Hplug. injection Hplug as <-.
    injection Hrab as <-. by split.
Defined.

(** * Further properties of the code *)

(** ** Which files are plugins *)

Lemma split_dot_once_without_dot s :
  has_dot s = false -> split_dot_once s = [s].
Proof.
  induction s as [|c s IH]; [done|]. cbn [has_dot split_dot_once].
  destruct (Ascii.eqb c ".") eqn:Hc; [done|]. cbn [orb].
  intros Hs. by rewrite IH.
Qed.

Lemma split_dot_once_at_dot a b :
  has_dot a = false -> split_dot_once (a ++ "." ++ b) = [a; b].
Proof.
  induction a as [|c a IH]; [done|]. cbn [has_dot].
  destruct (Ascii.eqb c ".") eqn:Hc; [done|]. cbn [orb]. intros Ha.
  change ((String c a ++ "." ++ b)%string)
    with (String c (a ++ "." ++ b)%string).
  cbn [split_dot_once]. by rewrite Hc, IH.
Qed.

Lemma split_dot_once_cases s :
  (has_dot s = false /\ split_dot_once s = [s]) \/
  (exists a b, s = (a ++ "." ++ b)%string /\ has_dot a = false /\
               split_dot_once s = [a; b]).
Proof.
  induction s as [|c s IH]; [by left|]. cbn [has_dot split_dot_once].
  destruct (Ascii.eqb_spec c ".") as [->|Hc].
  - right. by exists "", s.
  - cbn [orb]. destruct IH as [[Hs ->]|(a & b & -> & Ha & ->)].
    + by left.
    + right. exists (String c a), b. cbn [has_dot].
      destruct (Ascii.eqb_spec c "."); [done|]. by repeat split.
Qed.

(** X1.  A file of the plugin directory is taken for a plugin exactly when
    its name is a base name without any dot followed by [.py]; the plugin
    is then named after the base.  So [Foo.py] is the plugin [Foo], while
    [Foo.pyc], [README] and [my.plugin.py] are passed over. *)
Theorem plugin_name_of_iff file base :
  plugin_name_of file = Some base <->
  file = (base ++ ".py")%string /\ has_dot base = false.
Proof.
  unfold plugin_name_of. split.
  - destruct (split_dot_once_cases file) as [[_ ->]|(a & b & -> & Ha & ->)];
      [done|].
    destruct (String.eqb_spec b "py") as [->|]; [|done].
    by intros [= ->].
  - intros [-> Hb].
    change ((base ++ ".py")%string) with ((base ++ "." ++ "py")%string).
    by rewrite split_dot_once_at_dot.
Qed.

Lemma plugin_name_of_iff_witness :
  plugin_name_of "Foo.py" = Some "Foo".
Proof. apply (proj2 (plugin_name_of_iff "Foo.py" "Foo")). by split. Defined.

(** ** The plugin loader when something goes wrong *)

Lemma load_loop_fails w dir pre : forall s ps bad post e,
  self_plugins s = Some ps ->
  Forall (loads_in_isolation w dir) pre ->
  load_source w bad (plugin_path dir bad) = Raise e ->
  let o := for_each (pre ++ bad :: post) (load_one w dir) s in
  res o = Raise e /\
  self_plugins (self_after o) = Some (ps ++ omap (constructed w dir) pre) /\
  imported (calls o) = pre ++ [bad] /\
  constructions (calls o)
    = constructions (calls (for_each pre (load_one w dir) s)).
Proof.
  induction pre as [|name pre IH]; intros s ps bad post e Hps Hall Hbad.
  - cbn zeta. cbn [app for_each omap].
    pose proof (load_one_import_fails w dir bad s e Hbad) as Hone.
    assert (res (load_one w dir bad s) = Raise e) as Hr by (by rewrite Hone).
    rewrite (bind_Raise _ _ _ _ Hr). rewrite Hone. cbn [res self_after calls].
    by rewrite app_nil_r.
  - apply Forall_cons in Hall as [(m & Hm & Hex) Hall].
    cbn zeta. cbn [app for_each]. rewrite omap_cons_eq.
    unfold constructed at 1. rewrite Hm.
    destruct (construction m name) as [obj|e'] eqn:Hc.
    + destruct (load_one_built w dir name s m obj ps Hm Hc Hps)
        as (Hr & Hp & Hi & _).
      rewrite !(bind_Ok _ _ _ _ Hr). cbn [res self_after calls].
      destruct (IH _ _ bad post e Hp Hall Hbad) as (Hr' & Hp' & Hi' & Hc').
      unfold imported, constructions in *. rewrite !omap_app.
      rewrite Hr', Hp', Hi, Hi', Hc'. by rewrite <- app_assoc.
    + destruct (load_one_skipped w dir name s m e' Hm Hc (Hex e' eq_refl))
        as (Hr & Hs & Hi & _).
      rewrite !(bind_Ok _ _ _ _ Hr). cbn [res self_after calls]. rewrite Hs.
      destruct (IH _ _ bad post e Hps Hall Hbad) as (Hr' & Hp' & Hi' & Hc').
      unfold imported, constructions in *. rewrite !omap_app.
      by rewrite Hr', Hp', Hi, Hi', Hc'.
Qed.

(** X2.  When the import of an artifact raises on the loading call,
    [getPlugins] raises; the instances built from the artifacts before it
    stay in [self.plugins], so no later call loads anything: the failing
    artifact and those after it are never loaded, and a later call runs
    the plugins built before the failure. *)
Theorem getPlugins_failed_load_is_final w s dir pre bad post e :
  plugin_dir s = Some (PyStr dir) ->
  path_exists w dir = true ->
  self_plugins s = None ->
  discover w dir = pre ++ bad :: post ->
  Forall (loads_in_isolation w dir) pre ->
  load_source w bad (plugin_path dir bad) = Raise e ->
  let o := getPlugins w s in
  let kept := omap (constructed w dir) pre in
  res o = Raise e /\
  imported (calls o) = pre ++ [bad] /\
  runs (calls o) = [] /\
  self_plugins (self_after o) = Some kept /\
  forall w',
    path_exists w' dir = true ->
    Forall (run_ok w') kept ->
    let o' := getPlugins w' (self_after o) in
    res o' = Ok (PyDict (run_results w' kept)) /\
    walks (calls o') = 0 /\
    imported (calls o') = [] /\
    constructions (calls o') = [].
Proof.
  intros Hd Hex Hps Hnames Hall Hbad. cbn zeta.
  pose proof (getPlugins_first w s dir Hd Hex Hps) as Hfirst. cbn zeta in Hfirst.
  pose proof (load_plugins_eq w dir s) as Hload. cbn zeta in Hload.
  rewrite Hnames in Hload.
  destruct (load_loop_fails w dir pre (with_plugins (Some []) s) [] bad post e
              eq_refl Hall Hbad) as (Hr & Hp & Hi & _).
  rewrite Hload in Hfirst. cbn [res self_after calls] in Hfirst.
  rewrite Hr in Hfirst. rewrite Hfirst. cbn [res self_after calls].
  cbn [app] in Hp.
  destruct (load_loop_events w dir (pre ++ bad :: post)
              (with_plugins (Some []) s)) as [Hsetup Hev].
  apply load_events in Hev as [_ Hruns].
  split; [done|]. split; [|split; [|split; [done|]]].
  - unfold imported in *. by rewrite !omap_cons_eq.
  - unfold runs in *. by rewrite !omap_cons_eq.
  - intros w' Hex' Hruns'. cbn zeta.
    set (s' := self_after (for_each _ _ _)) in *.
    assert (plugin_dir s' = Some (PyStr dir)) as Hd'.
    { unfold plugin_dir in *. destruct Hsetup as [-> _]. exact Hd. }
    rewrite (getPlugins_loaded w' s' dir _ Hd' Hex' Hp).
    cbn [res self_after calls].
    destruct (run_plugins_spec w' (omap (constructed w dir) pre) s')
      as (_ & Hok & _).
    destruct (Hok Hruns') as [-> Hc]. cbn [dict_result]. split; [done|].
    destruct (run_plugins_confined w' (omap (constructed w dir) pre) s')
      as [_ Honly].
    apply only_runs in Honly as (Hw & Him & Hco & _).
    unfold walks, imported, constructions in *. cbn [List.filter].
    by rewrite !omap_cons_eq, Hw, Him, Hco.
Qed.

Lemma getPlugins_failed_load_is_final_witness :
  let o := getPlugins bad_import_world (fresh_checks sample_plugin_config) in
  res o = Raise (OtherException "SyntaxError") /\
  self_plugins (self_after o) = Some [] /\
  res (getPlugins plugin_world (self_after o)) = Ok (PyDict ∅).
Proof.
  destruct (getPlugins_failed_load_is_final bad_import_world
              (fresh_checks sample_plugin_config) "/etc/dd-agent/plugins"
              [] "Alpha" ["Zero"] (OtherException "SyntaxError")
              eq_refl eq_refl eq_refl eq_refl (Forall_nil_2 _) eq_refl)
    as (Hr & _ & _ & Hp & Hlater).
  cbn zeta. split; [exact Hr|]. split; [exact Hp|].
  destruct (Hlater plugin_world eq_refl (Forall_nil_2 _)) as [Hr' _].
  exact Hr'.
Defined.

Lemma run_loop_fails w pre : forall (acc : pydict) s p post e,
  Forall (run_ok w) pre ->
  plugin_run w p = Raise e ->
  let o := for_fold (pre ++ p :: post) acc (fun output plugin =>
             let! _ := emit (EvRun (po_class_name plugin)) in
             let! r := lift (plugin_run w plugin) in
             ret (<[po_class_name plugin := r]> output)) s in
  res o = Raise e /\
  calls o = (fun q => EvRun (po_class_name q)) <$> (pre ++ [p]).
Proof.
  induction pre as [|q pre IH]; intros acc s p post e Hall Hp; cbn zeta.
  - cbn [app for_fold]. unfold bind at 1. rewrite bind_emit, Hp.
    by rewrite bind_lift_Raise.
  - apply Forall_cons in Hall as [[r Hr] Hall].
    cbn [app for_fold].
    match goal with |- res (bind ?m _ _) = _ /\ _ =>
      assert (m s = Outcome (Ok (<[po_class_name q := r]> acc)) s
                      [EvRun (po_class_name q)]) as Hb
        by (by rewrite bind_emit, Hr, bind_lift_Ok)
    end.
    assert (res ((let! _ := emit (EvRun (po_class_name q)) in
                  let! r0 := lift (plugin_run w q) in
                  ret (<[po_class_name q := r0]> acc)) s)
            = Ok (<[po_class_name q := r]> acc)) as Hres0 by (by rewrite Hb).
    rewrite !(bind_Ok _ _ _ _ Hres0). rewrite Hb. cbn [res self_after calls].
    destruct (IH (<[po_class_name q := r]> acc) s p post e Hall Hp)
      as [Hres Hcalls].
    rewrite Hres, Hcalls. done.
Qed.

(** X3.  The execution loop has no handler: when the [run()] of a stored
    plugin raises, [getPlugins] raises that exception; the plugins stored
    before it have been run, those after it are not, and [self.plugins] is
    unchanged. *)
Theorem getPlugins_run_failure_propagates w s dir pre p post e :
  plugin_dir s = Some (PyStr dir) ->
  path_exists w dir = true ->
  self_plugins s = Some (pre ++ p :: post) ->
  Forall (run_ok w) pre ->
  plugin_run w p = Raise e ->
  let o := getPlugins w s in
  res o = Raise e /\
  runs (calls o) = po_class_name <$> (pre ++ [p]) /\
  self_after o = s.
Proof.
  intros Hd Hex Hps Hall Hp. cbn zeta.
  rewrite (getPlugins_loaded w s dir _ Hd Hex Hps). cbn [res self_after calls].
  destruct (run_loop_fails w pre ∅ s p post e Hall Hp) as [Hr Hc].
  unfold run_plugins. rewrite Hr, Hc. split; [done|]. split; [|done].
  unfold runs. rewrite omap_cons_eq. apply runs_of_run_events.
Qed.

Lemma getPlugins_run_failure_propagates_witness :
  let w := World "linux2" PyNone sample_probes (fun _ => Ok (PyDict ∅))
             (fun _ => true) (fun _ => []) (fun _ _ => Raise IOError)
             (fun p => if Nat.eqb (po_id p) 2 then Raise ValueError
                       else sample_run p)
             (Ok (PyStr "host-1")) "00" (PyInt 0) (PyInt 0)
             (fun _ => Ok PyNone) (fun _ => Ok tt) (fun _ => Ok PyNone)
             (fun _ => Ok PyNone) (fun _ => Ok PyNone) (fun _ => Ok tt)
             (fun _ => false) in
  let s := with_plugins
             (Some [PluginObj 1 "Three"; PluginObj 2 "Zero"; PluginObj 4 "Last"])
             (fresh_checks sample_plugin_config) in
  res (getPlugins w s) = Raise ValueError /\
  runs (calls (getPlugins w s)) = ["Three"; "Zero"].
Proof.
  cbn zeta.
  match goal with |- res (getPlugins ?w ?s) = _ /\ _ =>
    destruct (getPlugins_run_failure_propagates w s "/etc/dd-agent/plugins"
                [PluginObj 1 "Three"] (PluginObj 2 "Zero") [PluginObj 4 "Last"]
                ValueError eq_refl eq_refl eq_refl) as (Hr & Hc & _)
  end.
  - repeat constructor. by eexists.
  - reflexivity.
  - by split.
Defined.

(** X4.  When the plugin directory is missing on some cycle after the
    plugins were loaded, [getPlugins] returns [False] and runs no plugin,
    but keeps the instances: once the directory is back they are run
    again without being loaded again. *)
Theorem getPlugins_directory_gone_and_back w1 w2 s dir ps :
  plugin_dir s = Some (PyStr dir) ->
  self_plugins s = Some ps ->
  path_exists w1 dir = false ->
  path_exists w2 dir = true ->
  Forall (run_ok w2) ps ->
  let o1 := getPlugins w1 s in
  let o2 := getPlugins w2 (self_after o1) in
  res o1 = Ok PyFalse /\ runs (calls o1) = [] /\
  res o2 = Ok (PyDict (run_results w2 ps)) /\
  runs (calls o2) = po_class_name <$> ps /\
  walks (calls o2) = 0 /\ imported (calls o2) = [] /\
  self_plugins (self_after o2) = Some ps.
Proof.
  intros Hd Hps Hgone Hback Hruns. cbn zeta.
  rewrite (getPlugins_no_directory w1 s dir Hd Hgone). cbn [res self_after calls].
  split; [done|]. split; [done|].
  rewrite (getPlugins_loaded w2 s dir ps Hd Hback Hps).
  cbn [res self_after calls].
  destruct (run_plugins_spec w2 ps s) as (_ & Hok & _).
  destruct (Hok Hruns) as [-> Hc]. rewrite Hc. cbn [dict_result].
  split; [done|]. split; [|split; [|split; [|done]]].
  - unfold runs. rewrite omap_cons_eq. apply runs_of_run_events.
  - unfold walks. cbn [List.filter]. clear. induction ps; [done|]. done.
  - unfold imported. rewrite omap_cons_eq. clear. by induction ps.
Qed.

Lemma getPlugins_directory_gone_and_back_witness :
  let s := with_plugins (Some [PluginObj 1 "Three"])
             (fresh_checks sample_plugin_config) in
  res (getPlugins sample_world s) = Ok PyFalse /\
  runs (calls (getPlugins plugin_world
                 (self_after (getPlugins sample_world s)))) = ["Three"].
Proof.
  cbn zeta.
  destruct (getPlugins_directory_gone_and_back sample_world plugin_world
              (with_plugins (Some [PluginObj 1 "Three"])
                 (fresh_checks sample_plugin_config))
              "/etc/dd-agent/plugins" [PluginObj 1 "Three"]
              eq_refl eq_refl eq_refl eq_refl)
    as (H1 & _ & _ & H2 & _).
  - repeat constructor. by eexists.
  - by split.
Defined.

(** ** Invariants of the instance *)

Section Keeps.

Context (I : checks -> Prop).

Lemma keeps_ret {A} (a : A) : keeps I (ret a).
Proof. by intros s. Qed.

Lemma keeps_raise {A} e : keeps I (@raise A e).
Proof. by intros s. Qed.

Lemma keeps_lift {A} (r : result A) : keeps I (lift r).
Proof. by intros s. Qed.

Lemma keeps_gets {A} (f : checks -> A) : keeps I (gets f).
Proof. by intros s. Qed.

Lemma keeps_emit e : keeps I (emit e).
Proof. by intros s. Qed.

Lemma keeps_modify f : (forall s, I s -> I (f s)) -> keeps I (modify f).
Proof. intros Hf s. apply Hf. Qed.

Lemma keeps_bind {A B} (m : M A) (k : A -> M B) :
  keeps I m -> (forall a, keeps I (k a)) -> keeps I (bind m k).
Proof.
  intros Hm Hk s Hs. specialize (Hm s Hs). unfold bind.
  destruct (res (m s)) as [a|e]; cbn [self_after]; [by apply Hk | done].
Qed.

Lemma keeps_try_except {A} (m : M A) handles (h : exn -> M A) :
  keeps I m -> (forall e, keeps I (h e)) -> keeps I (try_except m handles h).
Proof.
  intros Hm Hh s Hs. specialize (Hm s Hs). unfold try_except.
  destruct (res (m s)) as [a|e]; [done|].
  destruct (handles e); cbn [self_after]; [by apply Hh | done].
Qed.

Lemma keeps_for_each {A} (xs : list A) (body : A -> M unit) :
  (forall x, keeps I (body x)) -> keeps I (for_each xs body).
Proof.
  intros Hb. induction xs as [|x xs IH]; cbn [for_each].
  - apply keeps_ret.
  - apply keeps_bind; [apply Hb | intros _; apply IH].
Qed.

Lemma keeps_for_fold {A B} (xs : list A) (acc : B) (body : B -> A -> M B) :
  (forall b x, keeps I (body b x)) -> keeps I (for_fold xs acc body).
Proof.
  intros Hb. revert acc. induction xs as [|x xs IH]; intros acc; cbn [for_fold].
  - apply keeps_ret.
  - apply keeps_bind; [apply Hb | intros b; apply IH].
Qed.

End Keeps.

(** Settles [keeps I m] for a method written with the combinators, given a
    tactic for the assignments and one for the methods called. *)
Ltac keep_with tac leaf :=
  repeat first
    [ progress intros
    | match goal with
      | |- keeps _ (bind _ _) => apply keeps_bind
      | |- keeps _ (try_except _ _ _) => apply keeps_try_except
      | |- keeps _ (for_each _ _) => apply keeps_for_each
      | |- keeps _ (for_fold _ _ _) => apply keeps_for_fold
      | |- keeps _ (emit _) => apply keeps_emit
      | |- keeps _ (ret _) => apply keeps_ret
      | |- keeps _ (raise _) => apply keeps_raise
      | |- keeps _ (lift _) => apply keeps_lift
      | |- keeps _ (gets _) => apply keeps_gets
      | |- keeps _ (modify _) => apply keeps_modify; tac
      | |- keeps _ (match ?x with _ => _ end) => destruct x
      | |- keeps _ (if ?b then _ else _) => destruct b
      | |- keeps _ _ => leaf
      end ].

Lemma getPlugins_keeps_os w o :
  keeps (fun s => self_os s = Some o) (getPlugins w).
Proof.
  unfold getPlugins, load_plugins, load_one, run_plugins, instantiate,
    call_ctor, append_plugin.
  keep_with ltac:(by intros) fail.
Qed.

Lemma getDatadogData_unchanged w s : self_after (getDatadogData w s) = s.
Proof.
  assert (keeps (fun s' => s' = s) (getDatadogData w)) as H
    by (unfold getDatadogData; keep_with ltac:(by intros) fail).
  by apply H.
Qed.

Lemma run_checks_keeps_os w o :
  keeps (fun s => self_os s = Some o) (run_checks w).
Proof.
  unfold run_checks, call_probe, getDatadogData.
  keep_with ltac:(by intros) ltac:(apply getPlugins_keeps_os).
Qed.

Lemma getPlugins_keeps_loaded w ps :
  keeps (fun s => self_plugins s = Some ps) (getPlugins w).
Proof.
  intros s Hs. by destruct (getPlugins_when_loaded w s ps Hs) as [-> _].
Qed.

Lemma run_checks_keeps_loaded w ps :
  keeps (fun s => self_plugins s = Some ps) (run_checks w).
Proof.
  unfold run_checks, call_probe, getDatadogData.
  keep_with ltac:(by intros) ltac:(apply getPlugins_keeps_loaded).
Qed.

Lemma resolve_os_after w s :
  self_os (self_after (resolve_os w s)) =
    Some (match self_os s with
          | Some o => if String.eqb o "" then resolved_os w else o
          | None => resolved_os w
          end) /\
  self_plugins (self_after (resolve_os w s)) = self_plugins s.
Proof.
  unfold resolve_os, resolved_os. cbn zeta. rewrite bind_gets.
  destruct (self_os s) as [o|] eqn:Ho.
  - destruct (String.eqb o ""); cbn [modify ret self_after with_os self_os];
      [|by rewrite Ho].
    split; [|done]. by destruct (String.eqb (sys_platform w) "darwin").
  - cbn [modify ret self_after with_os self_os]. split; [|done].
    by destruct (String.eqb (sys_platform w) "darwin").
Qed.

(** The instance a cycle leaves is the one its probes left. *)
Lemma doChecks_after w firstRun systemStats s :
  self_after (doChecks w firstRun systemStats s) =
  self_after (run_checks w (self_after (resolve_os w s))).
Proof.
  rewrite doChecks_eq. cbn zeta.
  assert (self_after (build_checksData w firstRun systemStats s)
          = self_after (run_checks w (self_after (resolve_os w s)))) as Hb.
  { unfold build_checksData.
    destruct (resolve_os_eq w s) as (Hr & _).
    rewrite (bind_Ok _ _ _ _ Hr). cbn [self_after].
    set (s1 := self_after (resolve_os w s)).
    destruct (res (run_checks w s1)) as [r|e] eqn:Hrun;
      [rewrite (bind_Ok _ _ _ _ Hrun) | by rewrite (bind_Raise _ _ _ _ Hrun)].
    cbn [self_after]. set (s2 := self_after (run_checks w s1)).
    assert (keeps (fun s' => s' = s2)
              (let! config := gets self_agentConfig in
               let! os := gets self_os in
               let! d := lift (payload_before_hostname w config os firstRun
                                 systemStats r) in
               let! d := add_hostname w d in
               let! event_checks := gets self_event_checks in
               let! resources_checks := gets self_resources_checks in
               lift (payload_after_hostname w config event_checks
                       resources_checks firstRun d))) as Hrest
      by (unfold add_hostname; keep_with ltac:(by intros) fail).
    by apply Hrest. }
  destruct (res (build_checksData w firstRun systemStats s)) as [d|e]; [|done].
  destruct (emitter w d) as [[]|];
    [destruct (_ !! "checkFreq") as [f|]; [destruct (is_number f)|]|]; done.
Qed.

(** X5.  A cycle assigns none of the fields set up by [__init__] (the
    configuration and the lists of Datadog, event and resource probes); it
    leaves [self.os] resolved: the value it found if there was one, else
    [mac] on Darwin, [freebsd] when the platform name contains it, [linux]
    otherwise; and a plugin list that was loaded is left as it was. *)
Theorem doChecks_instance_invariants w firstRun systemStats s :
  let s' := self_after (doChecks w firstRun systemStats s) in
  same_setup s s' /\
  (self_os s = None -> self_os s' = Some (resolved_os w)) /\
  (forall o, self_os s = Some o -> o <> "" -> self_os s' = Some o) /\
  (forall ps, self_plugins s = Some ps -> self_plugins s' = Some ps).
Proof.
  cbn zeta. rewrite doChecks_after.
  destruct (resolve_os_eq w s) as (_ & _ & Hsetup & _).
  destruct (resolve_os_after w s) as [Hos Hpl].
  split; [|split; [|split]].
  - eapply same_setup_trans; [exact Hsetup|]. apply run_checks_confined.
  - intros Hnone. rewrite Hnone in Hos. by apply run_checks_keeps_os.
  - intros o Ho Hne. rewrite Ho in Hos.
    apply String.eqb_neq in Hne. rewrite Hne in Hos.
    by apply run_checks_keeps_os.
  - intros ps Hps. apply run_checks_keeps_loaded. by rewrite Hpl.
Qed.

Lemma doChecks_instance_invariants_witness :
  let s := with_os (Some "freebsd")
             (with_plugins (Some [PluginObj 1 "Three"])
                (fresh_checks sample_plugin_config)) in
  let s' := self_after (doChecks plugin_world PyFalse PyFalse s) in
  self_os s' = Some "freebsd" /\ self_plugins s' = Some [PluginObj 1 "Three"].
Proof.
  cbn zeta.
  destruct (doChecks_instance_invariants plugin_world PyFalse PyFalse
              (with_os (Some "freebsd")
                 (with_plugins (Some [PluginObj 1 "Three"])
                    (fresh_checks sample_plugin_config))))
    as (_ & _ & Hos & Hpl).
  split; [apply Hos; [reflexivity | discriminate] | by apply Hpl].
Defined.

(** ** What the payload holds *)

Section Frames.

Variable w : world.

Lemma process_events_frame evs k : forall d d',
  process_events w evs d = Ok d' -> k <> "events" -> d' !! k = d !! k.
Proof.
  unfold process_events. induction evs as [|ep evs IH]; intros d d' H Hk.
  - by injection H as <-.
  - cbn [fold_result] in H. apply and_then_Ok in H as (dm & Hstep & H).
    rewrite (IH _ _ H Hk).
    apply and_then_Ok in Hstep as (data & _ & Hstep).
    destruct (truthy data); [|by injection Hstep as <-].
    apply setitem2_Ok in Hstep as (inner & Hin & ->).
    by rewrite lookup_insert_ne.
Qed.

Lemma process_events_returned evs : forall d d',
  process_events w evs d = Ok d' ->
  Forall (fun ep => exists data, event_check w ep = Ok data) evs.
Proof.
  unfold process_events. induction evs as [|ep evs IH]; intros d d' H.
  - constructor.
  - cbn [fold_result] in H. apply and_then_Ok in H as (dm & Hstep & H).
    apply and_then_Ok in Hstep as (data & Hdata & _).
    constructor; [by exists data | by eapply IH].
Qed.

Lemma process_resources_loop_frame rcs k : forall d h d' h',
  fold_result rcs (d, h) (fun '(d, has_resource) rc =>
    let? _ := resource_check w rc in
    let? snap := pop_snapshot w rc in
    if truthy snap then
      let? res_value := resource_value w rc snap in
      let? d := setitem2 d "resources" (RESOURCE_KEY rc) res_value in
      Ok (d, true)
    else Ok (d, has_resource)) = Ok (d', h') ->
  k <> "resources" -> d' !! k = d !! k.
Proof.
  induction rcs as [|rc rcs IH]; intros d h d' h' H Hk.
  - by injection H as <- <-.
  - cbn [fold_result] in H. apply and_then_Ok in H as ([dm hm] & Hstep & H).
    rewrite (IH _ _ _ _ H Hk).
    apply and_then_Ok in Hstep as (? & _ & Hstep).
    apply and_then_Ok in Hstep as (snap & _ & Hstep).
    destruct (truthy snap); [|by injection Hstep as <- <-].
    apply and_then_Ok in Hstep as (v & _ & Hstep).
    apply and_then_Ok in Hstep as (dn & Hset & Hstep).
    injection Hstep as <- <-.
    apply setitem2_Ok in Hset as (inner & Hin & ->).
    by rewrite lookup_insert_ne.
Qed.

Lemma process_resources_loop_polled rcs : forall d h d' h',
  fold_result rcs (d, h) (fun '(d, has_resource) rc =>
    let? _ := resource_check w rc in
    let? snap := pop_snapshot w rc in
    if truthy snap then
      let? res_value := resource_value w rc snap in
      let? d := setitem2 d "resources" (RESOURCE_KEY rc) res_value in
      Ok (d, true)
    else Ok (d, has_resource)) = Ok (d', h') ->
  Forall (fun rc => resource_check w rc = Ok tt /\
                    exists snap, pop_snapshot w rc = Ok snap) rcs.
Proof.
  induction rcs as [|rc rcs IH]; intros d h d' h' H.
  - constructor.
  - cbn [fold_result] in H. apply and_then_Ok in H as ([dm hm] & Hstep & H).
    apply and_then_Ok in Hstep as ([] & Hcheck & Hstep).
    apply and_then_Ok in Hstep as (snap & Hsnap & _).
    constructor; [by eauto | by eapply IH].
Qed.

(** The second half of the assembly leaves every key but [events],
    [resources] and [uuid] as it finds it, and polls every event and
    resource probe. *)
Lemma payload_after_hostname_frame config evs rcs firstRun d checksData :
  payload_after_hostname w config evs rcs firstRun d = Ok checksData ->
  (forall k, k <> "events" -> k <> "resources" -> k <> "uuid" ->
             checksData !! k = d !! k) /\
  Forall (fun ep => exists data, event_check w ep = Ok data) evs /\
  Forall (fun rc => resource_check w rc = Ok tt /\
                    exists snap, pop_snapshot w rc = Ok snap) rcs.
Proof.
  unfold payload_after_hostname. intros H.
  apply and_then_Ok in H as (d1 & Hev & H).
  apply and_then_Ok in H as ([d2 h] & Hrc & H).
  apply and_then_Ok in H as (d3 & Hmeta & H). cbn [fst snd] in *.
  split; [|split; [by eapply process_events_returned
                  |by eapply process_resources_loop_polled]].
  intros k Hk1 Hk2 Hk3.
  assert (d2 !! k = d !! k) as H2.
  { rewrite (process_resources_loop_frame _ _ _ _ _ _ Hrc Hk2).
    rewrite (process_events_frame _ _ _ _ Hev Hk1).
    by rewrite lookup_insert_ne. }
  assert (d3 !! k = d !! k) as H3.
  { rewrite <- H2. unfold attach_meta in Hmeta.
    destruct h; [|by injection Hmeta as <-].
    apply and_then_Ok in Hmeta as (? & _ & Hmeta).
    apply and_then_Ok in Hmeta as (? & _ & Hmeta).
    apply setitem2_Ok in Hmeta as (inner & Hin & ->).
    by rewrite lookup_insert_ne. }
  rewrite <- H3. unfold startup_event in H.
  destruct (truthy firstRun); [|by injection H as <-].
  apply and_then_Ok in H as (? & _ & H).
  apply and_then_Ok in H as (? & _ & H).
  apply setitem2_Ok in H as (inner & Hin & ->).
  by rewrite lookup_insert_ne.
Qed.

Lemma core_payload_values config os r d :
  core_payload w config os r = Ok d ->
  d !! "collection_timestamp" = Some (time_time w) /\
  d !! "os" = Some (os_value os) /\
  d !! "agentKey" = config !! "agentKey" /\
  d !! "agentVersion" = config !! "version" /\
  d !! "apiKey" = config !! "apiKey" /\
  Forall (fun kf => exists x, getitem (loadAvrgs r) (snd kf) = Ok x /\
                              d !! fst kf = Some x)
         [("loadAvrg1", "1"); ("loadAvrg5", "5"); ("loadAvrg15", "15")] /\
  Forall (fun kf => exists x, getitem (memory r) (snd kf) = Ok x /\
                              d !! fst kf = Some x)
         [("memPhysUsed", "physUsed"); ("memPhysFree", "physFree");
          ("memSwapUsed", "swapUsed"); ("memSwapFree", "swapFree");
          ("memCached", "cached")].
Proof.
  unfold core_payload, config_get, getitem at 1 2 11. intros H.
  destruct (config !! "agentKey") as [k1|]; [|done].
  destruct (config !! "version") as [k2|]; [|done]. cbn [and_then] in H.
  do 8 (apply and_then_Ok in H as (? & ? & H)).
  destruct (config !! "apiKey") as [k3|]; [|done]. cbn [and_then] in H.
  match type of H with
  | Ok (list_to_map ?l) = Ok _ =>
      assert (d = list_to_map l) as -> by congruence;
      assert (NoDup l.*1) as Hnd
        by (apply (bool_decide_unpack _); vm_compute; reflexivity);
      set (items := l) in *
  end.
  assert (forall k v, (k, v) ∈ items -> list_to_map items !! k = Some v) as Hin
    by (intros; by apply elem_of_list_to_map_1).
  assert (forall k v, (k, v) ∈ items -> list_to_map items !! k = Some v) as Hin'
    by exact Hin.
  repeat match goal with
         | |- _ /\ _ => split
         | |- Forall _ (_ :: _) => constructor
         | |- Forall _ [] => constructor
         | |- exists x, _ /\ _ => eexists; split; [eassumption|]
         end; cbn [fst snd];
    apply Hin; unfold items;
    repeat first [apply list_elem_of_here | apply list_elem_of_further].
Qed.

End Frames.

Lemma getDatadogData_result w s v :
  res (getDatadogData w s) = Ok v ->
  let dds := match self_datadogs s with Some l => l | None => [] end in
  v = PyDict (added (fun dd => returned (datadog_check w dd)) dd_key dds ∅) /\
  Forall (fun dd => exists x, datadog_check w dd = Ok x) dds.
Proof.
  unfold getDatadogData. rewrite bind_gets. intros H.
  apply bind_res_Ok in H as (d & Hd & H). cbn in H. injection H as <-.
  cbn zeta. destruct (self_datadogs s) as [l|];
    [|cbn in Hd; injection Hd as <-; by split].
  revert Hd. generalize (∅ : pydict) as acc. generalize s.
  induction l as [|dd l IH]; intros s' acc Hd.
  - cbn in Hd. injection Hd as <-. by split.
  - cbn [for_fold] in Hd. apply bind_res_Ok in Hd as (acc' & Hstep & Hd).
    rewrite bind_emit in Hstep. cbn [res] in Hstep.
    destruct (datadog_check w dd) as [x|e] eqn:Hx;
      [|by rewrite bind_lift_Raise in Hstep].
    rewrite bind_lift_Ok in Hstep. cbn in Hstep. injection Hstep as <-.
    destruct (IH _ _ Hd) as [Hv Hall].
    split; [|constructor; [by exists x | done]].
    unfold added in *. cbn [foldl]. by rewrite Hx.
Qed.

Lemma run_checks_datadog w s r :
  res (run_checks w s) = Ok r ->
  exists s', same_setup s s' /\
             res (getDatadogData w s') = Ok (datadogData r).
Proof.
  unfold run_checks. intros H.
  repeat lazymatch type of H with
  | res (bind (call_probe w ?p) _ ?s0) = Ok _ =>
      rewrite bind_call_probe in H;
      destruct (probe_check w p); [|discriminate H];
      cbn [res] in H
  | res (bind (getPlugins w) _ ?s0) = Ok _ =>
      let Hg := fresh "Hg" in
      destruct (res (getPlugins w s0)) eqn:Hg;
      [rewrite (bind_Ok _ _ _ _ Hg) in H
      |rewrite (bind_Raise _ _ _ _ Hg) in H; discriminate H];
      cbn [res] in H
  | res (bind (getDatadogData w) _ ?s0) = Ok _ =>
      let Hd := fresh "Hd" in
      destruct (res (getDatadogData w s0)) eqn:Hd;
      [rewrite (bind_Ok _ _ _ _ Hd) in H
      |rewrite (bind_Raise _ _ _ _ Hd) in H; discriminate H];
      cbn [res] in H
  end.
  cbn [ret res] in H. injection H as <-. cbn [datadogData].
  exists (self_after (getPlugins w s)). split; [|done].
  apply getPlugins_confined.
Qed.

(** What a delivered payload was assembled from, with the operating
    system named. *)
Lemma delivered_parts w firstRun systemStats s checksData :
  checksData ∈ emitted (calls (doChecks w firstRun systemStats s)) ->
  exists r d d',
    res (run_checks w (self_after (resolve_os w s))) = Ok r /\
    payload_before_hostname w (self_agentConfig s)
      (self_os (self_after (doChecks w firstRun systemStats s)))
      firstRun systemStats r = Ok d /\
    d' !! "internalHostname"
      = match socket_gethostname w with
        | Ok name => Some name
        | Raise _ => d !! "internalHostname"
        end /\
    (forall e, socket_gethostname w = Raise e -> is_socket_error e = true) /\
    (forall k, k <> "internalHostname" -> d' !! k = d !! k) /\
    payload_after_hostname w (self_agentConfig s) (self_event_checks s)
      (self_resources_checks s) firstRun d' = Ok checksData.
Proof.
  intros Hd. apply emitted_payload in Hd. rewrite doChecks_after.
  unfold build_checksData in Hd.
  destruct (resolve_os_eq w s) as (Hr & _ & Hsetup1 & _).
  rewrite (bind_Ok _ _ _ _ Hr) in Hd. cbn [res] in Hd.
  set (s1 := self_after (resolve_os w s)) in *.
  apply bind_res_Ok in Hd as (r & Hrun & H).
  destruct (run_checks_confined w s1) as [Hsetup2 _].
  pose proof (same_setup_trans _ _ _ Hsetup1 Hsetup2) as (Hcfg & _ & Hev & Hrc).
  set (s2 := self_after (run_checks w s1)) in *.
  rewrite !bind_gets in H.
  apply bind_res_Ok in H as (d & Hbefore & H).
  cbn [lift res self_after] in Hbefore, H.
  apply bind_res_Ok in H as (d' & Hh & H).
  rewrite add_hostname_eq in Hh, H. rewrite !bind_gets in H.
  exists r, d, d'. rewrite <- Hcfg, <- Hev, <- Hrc.
  split; [done|]. split; [done|].
  destruct (socket_gethostname w) as [name|e] eqn:Hhost.
  - cbn in Hh, H. injection Hh as <-.
    rewrite lookup_insert_eq. repeat split; try done.
    intros k Hk. by rewrite lookup_insert_ne.
  - destruct (is_socket_error e) eqn:He; [|done].
    cbn in Hh, H. injection Hh as <-. repeat split; try done.
    by intros e' [= <-].
Qed.

Lemma own_key_cpu w firstRun systemStats s checksData r :
  checksData ∈ emitted (calls (doChecks w firstRun systemStats s)) ->
  res (run_checks w (self_after (resolve_os w s))) = Ok r ->
  cpu_disjoint w = true ->
  forall k, k ∈ own_keys -> redefines (cpuStats r) k = false.
Proof.
  intros _ Hrun Hcpu k Hk.
  apply run_checks_Ok in Hrun as (_ & (_&_&_&_&Hc&_) & _).
  by apply (cpu_disjoint_key w).
Qed.

Lemma payload_before_hostname_core_values w config os firstRun systemStats r d :
  payload_before_hostname w config os firstRun systemStats r = Ok d ->
  (forall k, k ∈ own_keys -> redefines (cpuStats r) k = false) ->
  exists d0, core_payload w config os r = Ok d0 /\
             forall k, k ∈ core_keys -> d !! k = d0 !! k.
Proof.
  intros H Hcpu.
  apply payload_before_hostname_Ok in H
    as (d0 & dc & a1 & a2 & a3 & m1 & m2 & m3 & m4 & m5 & m6 & m7 & m8 & n1
        & n2 & Hcore & Hupd & Hd & _).
  cbn zeta in *. exists d0. split; [done|].
  assert (forall k, k ∈ own_keys -> dc !! k = d0 !! k) as Hdc.
  { intros k Hk. destruct (not_False_nor_None (cpuStats r)).
    - eapply dict_update_frame; [done | by apply Hcpu].
    - by injection Hupd as <-. }
  clear Hupd Hcpu Hcore. subst d. intros k Hk. unfold core_keys in Hk.
  repeat (apply elem_of_cons in Hk as [->|Hk]);
    [lookup_writes; apply Hdc; solve_key ..|by apply elem_of_nil in Hk].
Qed.

(** X6.  Every delivered payload has the key [datadog]: its value is the
    mapping built by [getDatadogData], one entry per roll-up probe, which
    is empty when the instance has no roll-up probe; whatever the CPU
    statistics hold. *)
Theorem doChecks_datadog_always_present w firstRun systemStats s checksData :
  checksData ∈ emitted (calls (doChecks w firstRun systemStats s)) ->
  checksData !! "datadog"
    = Some (PyDict (added (fun dd => returned (datadog_check w dd)) dd_key
                          (datadog_probes s) ∅)) /\
  Forall (fun dd => exists x, datadog_check w dd = Ok x) (datadog_probes s).
Proof.
  intros Hd.
  destruct (delivered_parts _ _ _ _ _ Hd)
    as (r & d & d' & Hrun & Hbefore & _ & _ & Hd' & Hafter).
  destruct (run_checks_datadog _ _ _ Hrun) as (s' & Hsetup & Hdd).
  destruct (resolve_os_eq w s) as (_ & _ & Hsetup0 & _).
  pose proof (same_setup_trans _ _ _ Hsetup0 Hsetup) as (_ & Hsame & _).
  apply getDatadogData_result in Hdd as [Hv Hall]. cbn zeta in *.
  rewrite Hsame in Hv, Hall. split; [|exact Hall].
  apply payload_after_hostname_frame in Hafter as (Hk & _).
  rewrite Hk, Hd' by done.
  apply payload_before_hostname_Ok in Hbefore
    as (d0 & dc & a1 & a2 & a3 & m1 & m2 & m3 & m4 & m5 & m6 & m7 & m8 & n1
        & n2 & _ & _ & -> & _).
  cbn zeta. lookup_writes. unfold datadog_probes. by rewrite Hv.
Qed.

Lemma doChecks_datadog_always_present_witness :
  (fun d : pydict => d !! "datadog")
    <$> emitted (calls (doChecks sample_world PyFalse PyFalse
                          (fresh_checks sample_config)))
    = [Some (PyDict ∅)].
Proof.
  assert (is_Ok (res (build_checksData sample_world PyFalse PyFalse
                        (fresh_checks sample_config))) = true) as Hok
    by (vm_compute; reflexivity).
  destruct (res (build_checksData sample_world PyFalse PyFalse
                   (fresh_checks sample_config))) as [d|e] eqn:Hb;
    [|discriminate Hok].
  assert (emitted (calls (doChecks sample_world PyFalse PyFalse
                            (fresh_checks sample_config))) = [d]) as Hd
    by (by rewrite doChecks_emitted, Hb).
  destruct (doChecks_datadog_always_present sample_world PyFalse PyFalse
              (fresh_checks sample_config) d) as [Hdd _].
  - rewrite Hd. apply list_elem_of_here.
  - rewrite Hd. cbn [fmap list_fmap]. by rewrite Hdd.
Defined.

(** X7.  [ganglia] and [cassandra] are tested for identity with [False]
    and [None], not for equality: in a delivered payload each key is
    present exactly when the probe's value is neither of the two objects,
    so a value such as [0] or an empty mapping is stored. *)
Theorem doChecks_identity_tested_fields w firstRun systemStats s checksData :
  checksData ∈ emitted (calls (doChecks w firstRun systemStats s)) ->
  cpu_disjoint w = true ->
  exists ganglia cassandra,
    probe_check w Ganglia = Ok ganglia /\
    probe_check w Cassandra = Ok cassandra /\
    checksData !! "ganglia"
      = (if not_False_nor_None ganglia then Some ganglia else None) /\
    checksData !! "cassandra"
      = (if not_False_nor_None cassandra then Some cassandra else None).
Proof.
  intros Hd Hcpu.
  destruct (delivered_parts _ _ _ _ _ Hd)
    as (r & d & d' & Hrun & Hbefore & _ & _ & Hd' & Hafter).
  pose proof (own_key_cpu _ _ _ _ _ _ Hd Hrun Hcpu) as Hkeys.
  apply run_checks_Ok in Hrun as (_ & (_&_&_&_&_&Hg&Hc) & _).
  exists (gangliaData r), (cassandraData r). split; [done|]. split; [done|].
  apply payload_after_hostname_frame in Hafter as (Hk & _).
  rewrite !Hk, !Hd' by done.
  apply payload_before_hostname_Ok in Hbefore
    as (d0 & dc & a1 & a2 & a3 & m1 & m2 & m3 & m4 & m5 & m6 & m7 & m8 & n1
        & n2 & Hcore & Hupd & -> & _).
  cbn zeta.
  apply core_payload_Ok in Hcore as (_ & _ & _ & _ & _ & Hcorekeys).
  assert (forall k, k ∈ own_keys -> k ∉ core_keys -> dc !! k = None) as Hnone.
  { intros k Hk1 Hk2.
    assert (dc !! k = d0 !! k) as ->.
    { destruct (not_False_nor_None (cpuStats r)).
      - eapply dict_update_frame; [done | by apply Hkeys].
      - by injection Hupd as <-. }
    apply eq_None_not_Some. by rewrite Hcorekeys. }
  split; lookup_writes;
    (match goal with |- (if ?b then _ else _) = _ => destruct b end;
     [done | apply Hnone; solve_key]).
Qed.

Lemma doChecks_identity_tested_fields_witness :
  let w := with_probe_check
             (fun p => match p with
                       | Ganglia => Ok (PyInt 0)
                       | _ => sample_probes p
                       end) sample_world in
  (fun d : pydict => (d !! "ganglia", d !! "cassandra"))
    <$> emitted (calls (doChecks w PyFalse PyFalse (fresh_checks sample_config)))
    = [(Some (PyInt 0), None)].
Proof.
  cbn zeta.
  set (w := with_probe_check _ sample_world).
  assert (is_Ok (res (build_checksData w PyFalse PyFalse
                        (fresh_checks sample_config))) = true) as Hok
    by (vm_compute; reflexivity).
  destruct (res (build_checksData w PyFalse PyFalse
                   (fresh_checks sample_config))) as [d|e] eqn:Hb;
    [|discriminate Hok].
  assert (emitted (calls (doChecks w PyFalse PyFalse
                            (fresh_checks sample_config))) = [d]) as Hd
    by (by rewrite doChecks_emitted, Hb).
  destruct (doChecks_identity_tested_fields w PyFalse PyFalse
              (fresh_checks sample_config) d)
    as (g & c & Hg & Hc & Hpg & Hpc).
  - rewrite Hd. apply list_elem_of_here.
  - vm_compute. reflexivity.
  - rewrite Hd. cbn [fmap list_fmap]. rewrite Hpg, Hpc.
    injection Hg as <-. injection Hc as <-. reflexivity.
Defined.

(** X8.  The CPU statistics are merged into the top level of the payload:
    when the CPU probe returns a mapping, every key that is not one of
    [doChecks]' own holds in the delivered payload what it holds in that
    mapping; when the probe returns [False] or [None] the payload has no
    such key. *)
Theorem doChecks_merges_cpu_stats w firstRun systemStats s checksData k :
  checksData ∈ emitted (calls (doChecks w firstRun systemStats s)) ->
  k ∉ own_keys ->
  exists cpu,
    probe_check w CPU = Ok cpu /\
    (forall m, cpu = PyDict m -> checksData !! k = m !! k) /\
    (not_False_nor_None cpu = false -> checksData !! k = None).
Proof.
  intros Hd Hk.
  destruct (delivered_parts _ _ _ _ _ Hd)
    as (r & d & d' & Hrun & Hbefore & _ & _ & Hd' & Hafter).
  apply run_checks_Ok in Hrun as (_ & (_&_&_&_&Hc&_) & _).
  exists (cpuStats r). split; [done|].
  apply payload_after_hostname_frame in Hafter as (Hframe & _).
  assert (forall x, x ∈ own_keys -> String.eqb x k = false) as Hneq
    by (intros x Hx; apply String.eqb_neq; intros ->; done).
  assert (checksData !! k = d !! k) as ->.
  { rewrite Hframe, Hd'; [done|..]; intros ->; apply Hk; solve_key. }
  apply payload_before_hostname_Ok in Hbefore
    as (d0 & dc & a1 & a2 & a3 & m1 & m2 & m3 & m4 & m5 & m6 & m7 & m8 & n1
        & n2 & Hcore & Hupd & -> & _).
  cbn zeta. rewrite !lookup_put_if.
  rewrite !Hneq by solve_key. cbn [andb].
  apply core_payload_Ok in Hcore as (_ & _ & _ & _ & _ & Hcorekeys).
  assert (d0 !! k = None) as Hd0.
  { apply eq_None_not_Some. rewrite Hcorekeys. intros Hin. apply Hk.
    unfold own_keys. apply elem_of_app. by left. }
  split.
  - intros m Hm. rewrite Hm in Hupd. cbn in Hupd. injection Hupd as <-.
    rewrite lookup_union, Hd0. by destruct (m !! k).
  - intros Hn. rewrite Hn in Hupd. by injection Hupd as <-.
Qed.

Lemma doChecks_merges_cpu_stats_witness :
  (fun d : pydict => d !! "cpuUser")
    <$> emitted (calls (doChecks sample_world PyFalse PyFalse
                          (fresh_checks sample_config)))
    = [Some (PyInt 3)].
Proof.
  assert (is_Ok (res (build_checksData sample_world PyFalse PyFalse
                        (fresh_checks sample_config))) = true) as Hok
    by (vm_compute; reflexivity).
  destruct (res (build_checksData sample_world PyFalse PyFalse
                   (fresh_checks sample_config))) as [d|e] eqn:Hb;
    [|discriminate Hok].
  assert (emitted (calls (doChecks sample_world PyFalse PyFalse
                            (fresh_checks sample_config))) = [d]) as Hd
    by (by rewrite doChecks_emitted, Hb).
  destruct (doChecks_merges_cpu_stats sample_world PyFalse PyFalse
              (fresh_checks sample_config) d "cpuUser")
    as (cpu & Hcpu & Hm & _).
  - rewrite Hd. apply list_elem_of_here.
  - apply (bool_decide_unpack _). vm_compute. reflexivity.
  - rewrite Hd. cbn [fmap list_fmap]. injection Hcpu as <-.
    by rewrite (Hm _ eq_refl).
Defined.

Lemma doChecks_os_after w firstRun systemStats s :
  self_os (self_after (doChecks w firstRun systemStats s))
    = Some (os_in_cycle w s).
Proof.
  rewrite doChecks_after. apply run_checks_keeps_os.
  apply resolve_os_after.
Qed.

(** What a cycle that delivered a payload went through, with the
    operating system the payload names. *)
Lemma delivered_whole w firstRun systemStats s checksData :
  checksData ∈ emitted (calls (doChecks w firstRun systemStats s)) ->
  cpu_disjoint w = true ->
  exists r d d',
    res (run_checks w (self_after (resolve_os w s))) = Ok r /\
    payload_before_hostname w (self_agentConfig s) (Some (os_in_cycle w s))
      firstRun systemStats r = Ok d /\
    (forall k, k ∈ own_keys -> redefines (cpuStats r) k = false) /\
    d' !! "events" = Some (PyDict ∅) /\
    d' !! "resources" = Some (PyDict ∅) /\
    d' !! "internalHostname" = returned (socket_gethostname w) /\
    (forall e, socket_gethostname w = Raise e -> is_socket_error e = true) /\
    (forall k, k <> "internalHostname" -> d' !! k = d !! k) /\
    payload_after_hostname w (self_agentConfig s) (self_event_checks s)
      (self_resources_checks s) firstRun d' = Ok checksData.
Proof.
  intros Hd Hcpu.
  destruct (delivered_parts _ _ _ _ _ Hd)
    as (r & d & d' & Hrun & Hbefore & Hhost & Hsock & Hd' & Hafter).
  rewrite doChecks_os_after in Hbefore.
  pose proof (own_key_cpu _ _ _ _ _ _ Hd Hrun Hcpu) as Hkeys.
  exists r, d, d'. do 3 (split; [done|]).
  destruct (payload_before_hostname_fields _ _ _ _ _ _ _ Hbefore Hkeys)
    as ((Hev & Hrs & Hh & _) & _).
  rewrite !Hd' by done. do 2 (split; [done|]).
  split; [|done].
  rewrite Hhost. destruct (socket_gethostname w); [done|]. by rewrite Hh.
Qed.

(** X9.  The core fields of a delivered payload hold what the system
    probes returned: the three load averages and the five memory figures
    are the entries of the load and memory results (which therefore have
    them), and the disk, network and process results are stored whole. *)
Theorem doChecks_core_probe_fields w firstRun systemStats s checksData :
  checksData ∈ emitted (calls (doChecks w firstRun systemStats s)) ->
  cpu_disjoint w = true ->
  exists load mem disk net procs,
    (probe_check w Load = Ok load /\
     probe_check w Memory = Ok mem /\
     probe_check w Disk = Ok disk /\
     probe_check w Network = Ok net /\
     probe_check w Processes = Ok procs) /\
    Forall (field_copied checksData load) load_fields /\
    Forall (field_copied checksData mem) memory_fields /\
    checksData !! "diskUsage" = Some disk /\
    checksData !! "networkTraffic" = Some net /\
    checksData !! "processes" = Some procs.
Proof.
  intros Hd Hcpu.
  destruct (delivered_whole _ _ _ _ _ Hd Hcpu)
    as (r & d & d' & Hrun & Hbefore & Hkeys & _ & _ & _ & _ & Hd' & Hafter).
  apply payload_after_hostname_frame in Hafter as (Hframe & _).
  destruct (payload_before_hostname_core_values _ _ _ _ _ _ _ Hbefore Hkeys)
    as (d0 & Hcore & Hd0).
  assert (forall k, k ∈ core_keys -> k <> "events" -> k <> "resources" ->
                    checksData !! k = d0 !! k) as Hk.
  { intros k Hin H1 H2.
    assert (k <> "uuid" /\ k <> "internalHostname") as [H3 H4]
      by (split; intros ->; revert Hin; apply (bool_decide_unpack _);
          vm_compute; reflexivity).
    rewrite Hframe, Hd', Hd0; done. }
  apply run_checks_Ok in Hrun as ((_ & Hdisk & Hload & Hmem & _ & Hnet & _ & Hproc) & _).
  exists (loadAvrgs r), (memory r), (diskUsage r), (networkTraffic r),
         (processes r).
  split; [done|].
  destruct (core_payload_values _ _ _ _ _ Hcore)
    as (_ & _ & _ & _ & _ & Hl & Hm).
  destruct (core_payload_Ok _ _ _ _ _ Hcore) as (_ & _ & Hdu & Hnt & Hpr & _).
  assert (forall res_ fields,
            Forall (fun kf : string * string =>
                      fst kf ∈ core_keys /\ fst kf <> "events"
                      /\ fst kf <> "resources") fields ->
            Forall (fun kf => exists x, getitem res_ (snd kf) = Ok x /\
                                        d0 !! fst kf = Some x) fields ->
            Forall (field_copied checksData res_) fields) as Hcopy.
  { intros res_ fields Hin Hf.
    pose proof (conj Hin Hf) as Hboth. apply Forall_and in Hboth.
    eapply Forall_impl; [exact Hboth|].
    intros kf [(H1 & H2 & H3) (x & Hx & Hv)]. exists x.
    split; [done|]. by rewrite Hk. }
  split; [|split].
  - apply Hcopy; [|exact Hl]. unfold load_fields.
    repeat constructor; solve_key || discriminate.
  - apply Hcopy; [|exact Hm]. unfold memory_fields.
    repeat constructor; solve_key || discriminate.
  - rewrite !Hk; [done|..]; solve_key || discriminate.
Qed.

Lemma doChecks_core_probe_fields_witness :
  (fun d : pydict => (d !! "loadAvrg5", d !! "memCached", d !! "diskUsage"))
    <$> emitted (calls (doChecks sample_world PyFalse PyFalse
                          (fresh_checks sample_config)))
    = [(Some (PyInt 2), Some (PyInt 50), Some (PyList []))].
Proof.
  assert (is_Ok (res (build_checksData sample_world PyFalse PyFalse
                        (fresh_checks sample_config))) = true) as Hok
    by (vm_compute; reflexivity).
  destruct (res (build_checksData sample_world PyFalse PyFalse
                   (fresh_checks sample_config))) as [d|e] eqn:Hb;
    [|discriminate Hok].
  assert (emitted (calls (doChecks sample_world PyFalse PyFalse
                            (fresh_checks sample_config))) = [d]) as Hd
    by (by rewrite doChecks_emitted, Hb).
  destruct (doChecks_core_probe_fields sample_world PyFalse PyFalse
              (fresh_checks sample_config) d)
    as (load & mem & disk & net & procs & (Hl & Hm & Hdk & _) & Hlf & Hmf
        & Hdu & _).
  - rewrite Hd. apply list_elem_of_here.
  - vm_compute. reflexivity.
  - rewrite Hd. cbn [fmap list_fmap].
    injection Hl as <-. injection Hm as <-. injection Hdk as <-.
    rewrite Hdu.
    apply Forall_cons in Hlf as [_ Hlf]. apply Forall_cons in Hlf as [H5 _].
    do 4 apply Forall_cons in Hmf as [_ Hmf].
    apply Forall_cons in Hmf as [Hc _].
    destruct H5 as (x & Hx & H5). destruct Hc as (y & Hy & Hc).
    cbn [fst snd] in *. rewrite H5, Hc.
    vm_compute in Hx. vm_compute in Hy.
    injection Hx as <-. injection Hy as <-. reflexivity.
Defined.

(** X10.  A delivered payload identifies the agent and the host: the
    collection time is the clock's, [os] is the operating system resolved
    at the start of the cycle (or the one the instance already had),
    [agentKey], [agentVersion] and [apiKey] are the configuration's
    [agentKey], [version] and [apiKey], which are therefore set, [uuid] is
    the generated identifier and [internalHostname] the name
    [socket.gethostname] returned, absent when it raised. *)
Theorem doChecks_identity_fields w firstRun systemStats s checksData :
  checksData ∈ emitted (calls (doChecks w firstRun systemStats s)) ->
  cpu_disjoint w = true ->
  checksData !! "collection_timestamp" = Some (time_time w) /\
  checksData !! "os" = Some (PyStr (os_in_cycle w s)) /\
  (exists agentKey version apiKey,
     self_agentConfig s !! "agentKey" = Some agentKey /\
     self_agentConfig s !! "version" = Some version /\
     self_agentConfig s !! "apiKey" = Some apiKey /\
     checksData !! "agentKey" = Some agentKey /\
     checksData !! "agentVersion" = Some version /\
     checksData !! "apiKey" = Some apiKey) /\
  checksData !! "uuid" = Some (PyStr (uuid5_hex w)) /\
  checksData !! "internalHostname" = returned (socket_gethostname w).
Proof.
  intros Hd Hcpu.
  destruct (delivered_whole _ _ _ _ _ Hd Hcpu)
    as (r & d & d' & Hrun & Hbefore & Hkeys & Hev & Hrs & Hhost & _ & Hd'
        & Hafter).
  destruct (payload_after_hostname_Ok _ _ _ _ _ _ _ _ _ Hafter Hev Hrs)
    as (Hframe & Huuid & _).
  destruct (payload_before_hostname_core_values _ _ _ _ _ _ _ Hbefore Hkeys)
    as (d0 & Hcore & Hd0).
  destruct (core_payload_values _ _ _ _ _ Hcore)
    as (Hts & Hos & Hak & Hav & Hapi & _).
  destruct (core_payload_Ok _ _ _ _ _ Hcore) as (_ & _ & _ & _ & _ & Hdom).
  assert (forall k, k ∈ core_keys -> k <> "events" -> k <> "resources" ->
                    checksData !! k = d0 !! k) as Hk.
  { intros k Hin H1 H2.
    assert (k <> "uuid" /\ k <> "internalHostname") as [H3 H4]
      by (split; intros ->; revert Hin; apply (bool_decide_unpack _);
          vm_compute; reflexivity).
    rewrite Hframe, Hd', Hd0; done. }
  split; [rewrite Hk; [done|..]; solve_key || discriminate|].
  split; [rewrite Hk; [done|..]; solve_key || discriminate|].
  split; [|split; [done | by rewrite Hframe]].
  assert (is_Some (d0 !! "agentKey")) as [v1 H1] by (apply Hdom; solve_key).
  assert (is_Some (d0 !! "agentVersion")) as [v2 H2] by (apply Hdom; solve_key).
  assert (is_Some (d0 !! "apiKey")) as [v3 H3] by (apply Hdom; solve_key).
  exists v1, v2, v3. rewrite <- Hak, <- Hav, <- Hapi.
  do 3 (split; [done|]).
  split; [|split]; (rewrite Hk; [done|..]; solve_key || discriminate).
Qed.

Lemma doChecks_identity_fields_witness :
  (fun d : pydict => (d !! "os", d !! "uuid", d !! "agentVersion"))
    <$> emitted (calls (doChecks sample_world PyFalse PyFalse
                          (fresh_checks sample_config)))
    = [(Some (PyStr "linux"),
        Some (PyStr "0123456789abcdef0123456789abcdef"),
        sample_config !! "version")].
Proof.
  assert (is_Ok (res (build_checksData sample_world PyFalse PyFalse
                        (fresh_checks sample_config))) = true) as Hok
    by (vm_compute; reflexivity).
  destruct (res (build_checksData sample_world PyFalse PyFalse
                   (fresh_checks sample_config))) as [d|e] eqn:Hb;
    [|discriminate Hok].
  assert (emitted (calls (doChecks sample_world PyFalse PyFalse
                            (fresh_checks sample_config))) = [d]) as Hd
    by (by rewrite doChecks_emitted, Hb).
  destruct (doChecks_identity_fields sample_world PyFalse PyFalse
              (fresh_checks sample_config) d)
    as (_ & Hos & (k1 & k2 & k3 & _ & Hv & _ & _ & Hav & _) & Huuid & _).
  - rewrite Hd. apply list_elem_of_here.
  - vm_compute. reflexivity.
  - rewrite Hd. cbn [fmap list_fmap]. rewrite Hos, Huuid, Hav.
    cbn [fresh_checks self_agentConfig] in Hv. by rewrite Hv.
Defined.

Lemma build_checksData_core_fails w firstRun systemStats s r e :
  res (run_checks w (self_after (resolve_os w s))) = Ok r ->
  core_payload w (self_agentConfig s) (Some (os_in_cycle w s)) r = Raise e ->
  res (build_checksData w firstRun systemStats s) = Raise e.
Proof.
  intros Hrun Hcore. unfold build_checksData.
  destruct (resolve_os_eq w s) as (Hr & _ & Hsetup1 & _).
  rewrite (bind_Ok _ _ _ _ Hr). cbn [res].
  rewrite (bind_Ok _ _ _ _ Hrun). cbn [res]. rewrite !bind_gets.
  destruct (run_checks_confined w (self_after (resolve_os w s)))
    as [Hsetup2 _].
  pose proof (same_setup_trans _ _ _ Hsetup1 Hsetup2) as (Hcfg & _).
  rewrite Hcfg.
  rewrite (run_checks_keeps_os w (os_in_cycle w s))
    by apply resolve_os_after.
  unfold payload_before_hostname. rewrite Hcore. reflexivity.
Qed.

(** X11.  The settings [agentKey], [version] and [apiKey] are read without
    a default: when one of them is missing from the configuration the
    cycle delivers nothing, schedules nothing and raises.  The settings
    are read only after all the probes have run: with [agentKey] missing
    and every probe answering, the whole probe sequence is called and the
    cycle raises [KeyError('agentKey')]. *)
Theorem doChecks_missing_settings w firstRun systemStats s :
  let o := doChecks w firstRun systemStats s in
  (forall k, k ∈ ["agentKey"; "version"; "apiKey"] ->
     self_agentConfig s !! k = None ->
     is_Ok (res o) = false /\ emitted (calls o) = [] /\
     scheduled (calls o) = []) /\
  (forall r,
     self_agentConfig s !! "agentKey" = None ->
     res (run_checks w (self_after (resolve_os w s))) = Ok r ->
     res o = Raise (KeyError "agentKey") /\
     probes_called (calls o) = probe_order).
Proof.
  cbn zeta. split.
  - intros k Hk Hnone.
    assert (emitted (calls (doChecks w firstRun systemStats s)) = []) as Hem.
    { destruct (emitted _) as [|checksData l] eqn:Hem; [done|]. exfalso.
      assert (checksData ∈ emitted (calls (doChecks w firstRun systemStats s)))
        as Hd by (rewrite Hem; apply list_elem_of_here).
      destruct (delivered_parts _ _ _ _ _ Hd)
        as (r & d & d' & _ & Hbefore & _).
      apply payload_before_hostname_Ok in Hbefore as (d0 & ? & ? & ? & ? & ?
        & ? & ? & ? & ? & ? & ? & ? & ? & ? & Hcore & _).
      destruct (core_payload_values _ _ _ _ _ Hcore)
        as (_ & _ & Hak & Hav & Hapi & _).
      destruct (core_payload_Ok _ _ _ _ _ Hcore) as (_ & _ & _ & _ & _ & Hdom).
      assert (is_Some (d0 !! "agentKey")) as [v1 H1]
        by (apply Hdom; solve_key).
      assert (is_Some (d0 !! "agentVersion")) as [v2 H2]
        by (apply Hdom; solve_key).
      assert (is_Some (d0 !! "apiKey")) as [v3 H3] by (apply Hdom; solve_key).
      repeat (apply elem_of_cons in Hk as [->|Hk]); [congruence..|].
      by apply elem_of_nil in Hk. }
    rewrite doChecks_emitted in Hem.
    destruct (res (build_checksData w firstRun systemStats s)) as [d|e] eqn:Hb;
      [done|].
    assert (res (doChecks w firstRun systemStats s) = Raise e) as Hres
      by (rewrite doChecks_eq; cbn zeta; by rewrite Hb).
    rewrite doChecks_emitted, doChecks_scheduled, Hres, Hb. done.
  - intros r Hnone Hrun.
    assert (res (build_checksData w firstRun systemStats s)
            = Raise (KeyError "agentKey")) as Hb.
    { eapply build_checksData_core_fails; [done|].
      unfold core_payload, config_get. cbn [getitem]. by rewrite Hnone. }
    split.
    + rewrite doChecks_eq. cbn zeta. by rewrite Hb.
    + rewrite doChecks_probes. by apply run_checks_Ok in Hrun as (_&_&_&_&?).
Qed.

Lemma doChecks_missing_settings_witness :
  let o := doChecks sample_world PyFalse PyFalse
             (fresh_checks (delete "agentKey" sample_config)) in
  res o = Raise (KeyError "agentKey") /\
  probes_called (calls o) = probe_order /\ emitted (calls o) = [].
Proof.
  cbn zeta.
  destruct (doChecks_missing_settings sample_world PyFalse PyFalse
              (fresh_checks (delete "agentKey" sample_config))) as [H1 H2].
  assert (is_Ok (res (run_checks sample_world
            (self_after (resolve_os sample_world
               (fresh_checks (delete "agentKey" sample_config)))))) = true)
    as Hok by (vm_compute; reflexivity).
  destruct (res (run_checks sample_world _)) as [r|] eqn:Hrun;
    [|discriminate Hok].
  destruct (H2 r) as [Hres Hprobes]; [apply lookup_delete_eq | done |].
  destruct (H1 "agentKey") as (_ & Hem & _);
    [apply list_elem_of_here | apply lookup_delete_eq |].
  by repeat split.
Defined.

(** X12.  A cycle hands at most one payload to the emitter and returns
    normally exactly when it has scheduled the next cycle; an entry is put
    in the scheduler only after the emitter accepted the payload, with the
    configured [checkFreq], a number, as delay and [firstRun] false; and a
    cycle whose delivery succeeded but whose configuration has no
    [checkFreq] raises [KeyError('checkFreq')], so that no further cycle
    runs. *)
Theorem doChecks_delivery_and_schedule w firstRun systemStats s :
  let o := doChecks w firstRun systemStats s in
  List.length (emitted (calls o)) <= 1 /\
  (res o = Ok tt <->
   exists checkFreq, scheduled (calls o) = [(checkFreq, PyFalse)]) /\
  (forall entry, entry ∈ scheduled (calls o) ->
     exists checksData,
       emitted (calls o) = [checksData] /\
       emitter w checksData = Ok tt /\
       self_agentConfig s !! "checkFreq" = Some (fst entry) /\
       is_number (fst entry) = true /\
       snd entry = PyFalse) /\
  (forall checksData,
     checksData ∈ emitted (calls o) ->
     emitter w checksData = Ok tt ->
     self_agentConfig s !! "checkFreq" = None ->
     res o = Raise (KeyError "checkFreq") /\ scheduled (calls o) = []).
Proof.
  cbn zeta.
  destruct (build_checksData_confined w firstRun systemStats s)
    as [[Hcfg _] _].
  pose proof (doChecks_emitted w firstRun systemStats s) as Hem.
  pose proof (doChecks_scheduled w firstRun systemStats s) as Hsc.
  pose proof (doChecks_eq w firstRun systemStats s) as Heq. cbn zeta in Heq.
  rewrite Hcfg in Heq.
  destruct (res (build_checksData w firstRun systemStats s)) as [d|e] eqn:Hb.
  - rewrite Hem. split; [cbn; lia|].
    destruct (emitter w d) as [[]|e] eqn:He.
    + destruct (self_agentConfig s !! "checkFreq") as [f|] eqn:Hf.
      * destruct (is_number f) eqn:Hnum.
        -- assert (res (doChecks w firstRun systemStats s) = Ok tt) as Hres
             by (by rewrite Heq).
           rewrite Hres in Hsc. rewrite Hsc, Hres.
           split; [split; [by exists f | done]|]. split.
           ++ intros entry ->%list_elem_of_singleton. by exists d.
           ++ intros ? _ _ [=].
        -- assert (res (doChecks w firstRun systemStats s) = Raise TypeError)
             as Hres by (by rewrite Heq).
           rewrite Hres in Hsc. rewrite Hsc, Hres.
           split; [split; [done | by intros [? [=]]]|]. split.
           ++ by intros ? ?%elem_of_nil.
           ++ intros ? _ _ [=].
      * assert (res (doChecks w firstRun systemStats s)
                = Raise (KeyError "checkFreq")) as Hres by (by rewrite Heq).
        rewrite Hres in Hsc. rewrite Hsc, Hres.
        split; [split; [done | by intros [? [=]]]|]. split.
        -- by intros ? ?%elem_of_nil.
        -- done.
    + assert (res (doChecks w firstRun systemStats s) = Raise e) as Hres
        by (by rewrite Heq).
      rewrite Hres in Hsc. rewrite Hsc, Hres.
      split; [split; [done | by intros [? [=]]]|]. split.
      * by intros ? ?%elem_of_nil.
      * intros ? ->%list_elem_of_singleton. by rewrite He.
  - assert (res (doChecks w firstRun systemStats s) = Raise e) as Hres
      by (by rewrite Heq).
    rewrite Hres in Hsc. rewrite Hem, Hsc, Hres.
    split; [cbn; lia|].
    split; [split; [done | by intros [? [=]]]|]. split.
    + by intros ? ?%elem_of_nil.
    + by intros ? ?%elem_of_nil.
Qed.

Lemma doChecks_delivery_and_schedule_witness :
  let o := doChecks sample_world PyFalse PyFalse
             (fresh_checks (delete "checkFreq" sample_config)) in
  res o = Raise (KeyError "checkFreq") /\ scheduled (calls o) = [] /\
  List.length (emitted (calls o)) = 1.
Proof.
  cbn zeta.
  destruct (doChecks_delivery_and_schedule sample_world PyFalse PyFalse
              (fresh_checks (delete "checkFreq" sample_config)))
    as (_ & _ & _ & Hmiss).
  assert (is_Ok (res (build_checksData sample_world PyFalse PyFalse
            (fresh_checks (delete "checkFreq" sample_config)))) = true) as Hok
    by (vm_compute; reflexivity).
  destruct (res (build_checksData sample_world PyFalse PyFalse
             (fresh_checks (delete "checkFreq" sample_config))))
    as [d|e] eqn:Hb; [|discriminate Hok].
  assert (emitted (calls (doChecks sample_world PyFalse PyFalse
            (fresh_checks (delete "checkFreq" sample_config)))) = [d]) as Hd
    by (by rewrite doChecks_emitted, Hb).
  destruct (Hmiss d) as [Hres Hsc].
  - rewrite Hd. apply list_elem_of_here.
  - reflexivity.
  - apply lookup_delete_eq.
  - split; [exact Hres|]. split; [exact Hsc|]. rewrite Hd. reflexivity.
Defined.

(** X13.  A failure of [socket.gethostname] is survived only in a cycle
    that needs no host name: if a payload was delivered although the call
    raised, the exception was a [socket.error], [firstRun] was false, no
    resource probe had a snapshot, and the payload has no
    [internalHostname]. *)
Theorem doChecks_delivered_without_hostname w firstRun systemStats s
    checksData e :
  checksData ∈ emitted (calls (doChecks w firstRun systemStats s)) ->
  cpu_disjoint w = true ->
  socket_gethostname w = Raise e ->
  is_socket_error e = true /\
  truthy firstRun = false /\
  Forall (fun rc => contributes w rc = false) (self_resources_checks s) /\
  checksData !! "internalHostname" = None.
Proof.
  intros Hd Hcpu He.
  destruct (delivered_whole _ _ _ _ _ Hd Hcpu)
    as (r & d & d' & _ & _ & _ & Hev & Hrs & Hhost & Hsock & _ & Hafter).
  rewrite He in Hhost. cbn [returned] in Hhost.
  destruct (payload_after_hostname_Ok _ _ _ _ _ _ _ _ _ Hafter Hev Hrs)
    as (Hframe & _ & Hmeta & Hstart & _).
  split; [by apply Hsock|]. split; [|split].
  - destruct (truthy firstRun); [|done].
    destruct Hstart as (? & ? & _ & Hh & _). congruence.
  - destruct (existsb (contributes w) (self_resources_checks s)) eqn:Hex.
    + destruct Hmeta as (? & ? & _ & Hh & _). congruence.
    + apply Forall_forall. intros rc Hrc.
      destruct (contributes w rc) eqn:Hc; [|done].
      assert (existsb (contributes w) (self_resources_checks s) = true)
        as Hex'; [|congruence].
      apply existsb_exists. exists rc. split; [|done].
      by apply list_elem_of_In.
  - by rewrite Hframe.
Qed.

Lemma doChecks_delivered_without_hostname_witness :
  (fun d : pydict => d !! "internalHostname")
    <$> emitted (calls (doChecks no_hostname_world PyFalse PyFalse
                          (fresh_checks sample_config)))
    = [None].
Proof.
  assert (is_Ok (res (build_checksData no_hostname_world PyFalse PyFalse
                        (fresh_checks sample_config))) = true) as Hok
    by (vm_compute; reflexivity).
  destruct (res (build_checksData no_hostname_world PyFalse PyFalse
                   (fresh_checks sample_config))) as [d|e] eqn:Hb;
    [|discriminate Hok].
  assert (emitted (calls (doChecks no_hostname_world PyFalse PyFalse
                            (fresh_checks sample_config))) = [d]) as Hd
    by (by rewrite doChecks_emitted, Hb).
  destruct (doChecks_delivered_without_hostname no_hostname_world PyFalse
              PyFalse (fresh_checks sample_config) d SocketError)
    as (_ & _ & _ & Hnone).
  - rewrite Hd. apply list_elem_of_here.
  - vm_compute. reflexivity.
  - reflexivity.
  - rewrite Hd. cbn [fmap list_fmap]. by rewrite Hnone.
Defined.

(** X14.  The two first-run tests differ: [systemStats] is stored when
    [firstRun == True], the start event is added when [firstRun] is
    truthy.  So a delivered payload holds [systemStats] exactly in the
    first case and the start event under [events]['System'] in the
    second; a truthy [firstRun] that is not equal to [True], such as [2],
    gives the start event without [systemStats]. *)
Theorem doChecks_first_run_tests w firstRun systemStats s checksData :
  checksData ∈ emitted (calls (doChecks w firstRun systemStats s)) ->
  cpu_disjoint w = true ->
  checksData !! "systemStats"
    = (if eq_True firstRun then Some systemStats else None) /\
  exists events,
    checksData !! "events" = Some (PyDict events) /\
    if truthy firstRun
    then exists api_key host,
           self_agentConfig s !! "apiKey" = Some api_key /\
           socket_gethostname w = Ok host /\
           events !! "System" = Some (PyList [startup_record w api_key host])
    else "System" ∉ ev_key <$> self_event_checks s ->
         events !! "System" = None.
Proof.
  intros Hd Hcpu.
  destruct (delivered_whole _ _ _ _ _ Hd Hcpu)
    as (r & d & d' & _ & Hbefore & Hkeys & Hev & Hrs & Hhost & _ & Hd'
        & Hafter).
  destruct (payload_before_hostname_fields _ _ _ _ _ _ _ Hbefore Hkeys)
    as ((_ & _ & _ & Hss) & _).
  destruct (payload_after_hostname_Ok _ _ _ _ _ _ _ _ _ Hafter Hev Hrs)
    as (Hframe & _ & _ & Hstart & _).
  split; [by rewrite Hframe, Hd'|].
  destruct (truthy firstRun).
  - destruct Hstart as (api_key & host & Hapi & Hh & Hevents).
    eexists. split; [exact Hevents|]. exists api_key, host.
    split; [done|]. split; [|by rewrite lookup_insert_eq].
    rewrite Hh in Hhost. by destruct (socket_gethostname w) as [?|?];
      [injection Hhost as -> | discriminate Hhost].
  - eexists. split; [exact Hstart|]. intros Hk.
    by rewrite added_lookup_other.
Qed.

Lemma doChecks_first_run_tests_witness :
  (fun d : pydict => d !! "systemStats")
    <$> emitted (calls (doChecks sample_world (PyInt 2) (PyStr "facts")
                          (fresh_checks sample_config)))
    = [None] /\
  exists events,
    (fun d : pydict => d !! "events")
      <$> emitted (calls (doChecks sample_world (PyInt 2) (PyStr "facts")
                            (fresh_checks sample_config)))
      = [Some (PyDict events)] /\
    is_Some (events !! "System").
Proof.
  assert (is_Ok (res (build_checksData sample_world (PyInt 2) (PyStr "facts")
                        (fresh_checks sample_config))) = true) as Hok
    by (vm_compute; reflexivity).
  destruct (res (build_checksData sample_world (PyInt 2) (PyStr "facts")
                   (fresh_checks sample_config))) as [d|e] eqn:Hb;
    [|discriminate Hok].
  assert (emitted (calls (doChecks sample_world (PyInt 2) (PyStr "facts")
                            (fresh_checks sample_config))) = [d]) as Hd
    by (by rewrite doChecks_emitted, Hb).
  destruct (doChecks_first_run_tests sample_world (PyInt 2) (PyStr "facts")
              (fresh_checks sample_config) d)
    as (Hss & events & Hev & Hsys).
  - rewrite Hd. apply list_elem_of_here.
  - vm_compute. reflexivity.
  - rewrite Hd. cbn [fmap list_fmap]. split; [by rewrite Hss|].
    exists events. split; [by rewrite Hev|].
    cbn [truthy] in Hsys. destruct Hsys as (? & ? & _ & _ & ->). done.
Defined.

(** X15.  Under [events] a delivered payload holds, for each event probe,
    what its check returned when that is truthy and nothing when it is
    not (every event check returned: one that raises ends the cycle), and
    no key besides the probes' keys and [System]. *)
Theorem doChecks_event_entries w firstRun systemStats s checksData :
  checksData ∈ emitted (calls (doChecks w firstRun systemStats s)) ->
  cpu_disjoint w = true ->
  NoDup (ev_key <$> self_event_checks s) ->
  exists events,
    checksData !! "events" = Some (PyDict events) /\
    (forall ep, ep ∈ self_event_checks s ->
       ev_key ep <> "System" ->
       exists data,
         event_check w ep = Ok data /\
         events !! ev_key ep = if truthy data then Some data else None) /\
    (forall k, k <> "System" -> k ∉ ev_key <$> self_event_checks s ->
               events !! k = None).
Proof.
  intros Hd Hcpu Hnd.
  destruct (delivered_whole _ _ _ _ _ Hd Hcpu)
    as (r & d & d' & _ & _ & _ & Hev & Hrs & _ & _ & _ & Hafter).
  destruct (payload_after_hostname_Ok _ _ _ _ _ _ _ _ _ Hafter Hev Hrs)
    as (_ & _ & _ & Hstart & _).
  apply payload_after_hostname_frame in Hafter as (_ & Hret & _).
  set (Ea := added (event_entry w) ev_key (self_event_checks s) ∅) in *.
  assert (exists events,
            checksData !! "events" = Some (PyDict events) /\
            forall k, k <> "System" -> events !! k = Ea !! k)
    as (events & Hevents & Hsame).
  { destruct (truthy firstRun).
    - destruct Hstart as (? & ? & _ & _ & Hevents).
      eexists. split; [exact Hevents|]. intros k Hk.
      by rewrite lookup_insert_ne.
    - by exists Ea. }
  exists events. split; [done|]. split.
  - intros ep Hep Hk. rewrite Forall_forall in Hret.
    destruct (Hret ep Hep) as [data Hdata]. exists data. split; [done|].
    rewrite Hsame by done. unfold Ea. rewrite added_lookup by done.
    unfold event_entry. rewrite Hdata. destruct (truthy data); [done|].
    apply lookup_empty.
  - intros k Hk Hnot. rewrite Hsame by done. unfold Ea.
    rewrite added_lookup_other by done. apply lookup_empty.
Qed.

Lemma doChecks_event_entries_witness :
  let w := World "linux2" PyNone sample_probes (fun _ => Ok PyNone)
             (fun _ => false) sample_walk sample_load_source sample_run
             (Ok (PyStr "web-1")) "0123456789abcdef0123456789abcdef"
             (PyFloat (3 # 2)) (PyInt 1300000000)
             (fun ep => if Nat.eqb (ev_id ep) 1
                        then Ok (PyList [PyStr "host down"])
                        else Ok PyNone)
             (fun _ => Ok tt) (fun _ => Ok PyNone) (fun _ => Ok PyNone)
             (fun _ => Ok (PyInt 1)) (fun _ => Ok tt) (fun _ => false) in
  exists events,
    (fun d : pydict => d !! "events")
      <$> emitted (calls (doChecks w PyFalse PyFalse
                            (fresh_checks sample_config)))
      = [Some (PyDict events)] /\
    events !! "Nagios" = Some (PyList [PyStr "host down"]) /\
    events !! "Hudson" = None.
Proof.
  cbn zeta.
  set (w := World _ _ _ _ _ _ _ _ _ _ _ _ _ _ _ _ _ _ _).
  assert (is_Ok (res (build_checksData w PyFalse PyFalse
                        (fresh_checks sample_config))) = true) as Hok
    by (vm_compute; reflexivity).
  destruct (res (build_checksData w PyFalse PyFalse
                   (fresh_checks sample_config))) as [d|e] eqn:Hb;
    [|discriminate Hok].
  assert (emitted (calls (doChecks w PyFalse PyFalse
                            (fresh_checks sample_config))) = [d]) as Hd
    by (by rewrite doChecks_emitted, Hb).
  destruct (doChecks_event_entries w PyFalse PyFalse
              (fresh_checks sample_config) d)
    as (events & Hev & Hin & _).
  - rewrite Hd. apply list_elem_of_here.
  - vm_compute. reflexivity.
  - apply (bool_decide_unpack _). vm_compute. reflexivity.
  - exists events. rewrite Hd. cbn [fmap list_fmap]. rewrite Hev.
    split; [done|].
    destruct (Hin (EventProbe 1 "Nagios")) as (x & Hx & Hn);
      [apply list_elem_of_further, list_elem_of_here | discriminate |].
    destruct (Hin (EventProbe 0 "Hudson")) as (y & Hy & Hh);
      [apply list_elem_of_here | discriminate |].
    cbn in Hx, Hy. injection Hx as <-. injection Hy as <-.
    by split.
Defined.

(** ** The roll-up probes: [getDatadogData] *)

Section Datadog.

Variable w : world.

Lemma dd_body_eq acc dd s :
  dd_body w acc dd s =
    Outcome (match datadog_check w dd with
             | Ok r => Ok (<[dd_key dd := r]> acc)
             | Raise e => Raise e
             end) s [EvDatadog (dd_key dd)].
Proof.
  unfold dd_body. rewrite bind_emit.
  destruct (datadog_check w dd); [by rewrite bind_lift_Ok|].
  by rewrite bind_lift_Raise.
Qed.

Lemma datadogs_called_keys l :
  datadogs_called (EvDatadog <$> l) = l.
Proof. induction l as [|k l IH]; [done|]. cbn. by f_equal. Qed.

Lemma dd_loop_returns l : forall acc s,
  Forall (fun dd => is_Ok (datadog_check w dd) = true) l ->
  for_fold l acc (dd_body w) s =
    Outcome (Ok (added (fun dd => returned (datadog_check w dd)) dd_key l acc))
            s (EvDatadog <$> (dd_key <$> l)).
Proof.
  induction l as [|dd l IH]; intros acc s Hall; [done|].
  apply Forall_cons in Hall as [Hdd Hall]. cbn [for_fold].
  pose proof (dd_body_eq acc dd s) as Hb.
  destruct (datadog_check w dd) as [r|] eqn:Hr; [|done].
  assert (res (dd_body w acc dd s) = Ok (<[dd_key dd := r]> acc)) as Hres
    by (by rewrite Hb).
  rewrite (bind_Ok _ _ _ _ Hres), Hb. cbn [self_after calls].
  rewrite (IH _ _ Hall). cbn [res self_after calls].
  unfold added. cbn [foldl returned]. by rewrite Hr.
Qed.

Lemma dd_loop_raises pre : forall acc s dd post e,
  Forall (fun dd => is_Ok (datadog_check w dd) = true) pre ->
  datadog_check w dd = Raise e ->
  for_fold (pre ++ dd :: post) acc (dd_body w) s =
    Outcome (Raise e) s (EvDatadog <$> (dd_key <$> (pre ++ [dd]))).
Proof.
  induction pre as [|q pre IH]; intros acc s dd post e Hall Hdd.
  - cbn [app for_fold].
    assert (res (dd_body w acc dd s) = Raise e) as Hres
      by (by rewrite dd_body_eq, Hdd).
    rewrite (bind_Raise _ _ _ _ Hres). by rewrite dd_body_eq.
  - apply Forall_cons in Hall as [Hq Hall]. cbn [app for_fold].
    pose proof (dd_body_eq acc q s) as Hb.
    destruct (datadog_check w q) as [r|] eqn:Hr; [|done].
    assert (res (dd_body w acc q s) = Ok (<[dd_key q := r]> acc)) as Hres
      by (by rewrite Hb).
    rewrite (bind_Ok _ _ _ _ Hres), Hb. cbn [self_after calls].
    by rewrite (IH _ _ _ post e Hall Hdd).
Qed.

End Datadog.

(** X16.  [getDatadogData] checks the roll-up probes in order and returns
    a mapping from each probe's key to what its check returned (empty when
    the instance has none); a check that raises is not handled: the
    exception leaves [getDatadogData] and the probes after it are not
    checked.  The instance is not changed. *)
Theorem getDatadogData_checks_in_order w s :
  let o := getDatadogData w s in
  self_after o = s /\
  (Forall (fun dd => is_Ok (datadog_check w dd) = true) (datadog_probes s) ->
   res o = Ok (PyDict (added (fun dd => returned (datadog_check w dd)) dd_key
                             (datadog_probes s) ∅)) /\
   datadogs_called (calls o) = dd_key <$> datadog_probes s) /\
  (forall pre dd post e,
     datadog_probes s = pre ++ dd :: post ->
     Forall (fun dd => is_Ok (datadog_check w dd) = true) pre ->
     datadog_check w dd = Raise e ->
     res o = Raise e /\
     datadogs_called (calls o) = dd_key <$> (pre ++ [dd])).
Proof.
  cbn zeta. split; [apply getDatadogData_unchanged|].
  unfold getDatadogData, datadog_probes. rewrite !bind_gets.
  destruct (self_datadogs s) as [l|]; split.
  - intros Hall.
    pose proof (dd_loop_returns w l ∅ s Hall) as Hloop.
    unfold dd_body in Hloop.
    match goal with |- res (bind ?m _ _) = _ /\ _ =>
      assert (res (m s) = Ok (added (fun dd => returned (datadog_check w dd))
                                    dd_key l ∅)) as Hres
        by (by rewrite Hloop)
    end.
    rewrite !(bind_Ok _ _ _ _ Hres). rewrite Hloop.
    cbn [res calls self_after ret]. rewrite app_nil_r.
    by rewrite datadogs_called_keys.
  - intros pre dd post e -> Hall Hdd.
    pose proof (dd_loop_raises w pre ∅ s dd post e Hall Hdd) as Hloop.
    unfold dd_body in Hloop.
    match goal with |- res (bind ?m _ _) = _ /\ _ =>
      assert (res (m s) = Raise e) as Hres by (by rewrite Hloop)
    end.
    rewrite !(bind_Raise _ _ _ _ Hres). rewrite Hloop.
    cbn [res calls]. by rewrite datadogs_called_keys.
  - intros _. by rewrite bind_ret.
  - intros [|??] ? ? ? [=].
Qed.

Lemma getDatadogData_checks_in_order_witness :
  let w := World "linux2" PyNone sample_probes
             (fun dd => if Nat.eqb (dd_id dd) 1 then Raise IOError
                        else Ok (PyInt 7))
             (fun _ => false) sample_walk sample_load_source sample_run
             (Ok (PyStr "web-1")) "0123456789abcdef0123456789abcdef"
             (PyFloat (3 # 2)) (PyInt 1300000000)
             (fun _ => Ok PyNone) (fun _ => Ok tt) (fun _ => Ok PyNone)
             (fun _ => Ok PyNone) (fun _ => Ok (PyInt 1)) (fun _ => Ok tt) (fun _ => false) in
  let s := Checks sample_config None None
             (Some [DdProbe 0 "a"; DdProbe 1 "b"; DdProbe 2 "c"]) [] [] in
  res (getDatadogData w s) = Raise IOError /\
  datadogs_called (calls (getDatadogData w s)) = ["a"; "b"].
Proof.
  cbn zeta.
  match goal with |- res (getDatadogData ?w ?s) = _ /\ _ =>
    destruct (getDatadogData_checks_in_order w s) as (_ & _ & H)
  end.
  apply (H [DdProbe 0 "a"] (DdProbe 1 "b") [DdProbe 2 "c"] IOError).
  - reflexivity.
  - by repeat constructor.
  - reflexivity.
Defined.

(** ** The mount point of the Linux process file system *)

Lemma string_app_cons x (a b : string) :
  (String x a ++ b = String x (a ++ b))%string.
Proof. reflexivity. Qed.

Lemma string_app_nil_l (b : string) : ("" ++ b = b)%string.
Proof. reflexivity. Qed.

Lemma string_app_assoc (a b c : string) :
  ((a ++ b) ++ c = a ++ (b ++ c))%string.
Proof.
  induction a as [|x a IH]; [done|]. rewrite !string_app_cons. by f_equal.
Qed.

Lemma string_app_nil_r (a : string) : (a ++ "" = a)%string.
Proof.
  induction a as [|x a IH]; [done|]. rewrite string_app_cons. by f_equal.
Qed.

Lemma strip_literal_Some lit : forall s rest,
  strip_literal lit s = Some rest <-> s = (lit ++ rest)%string.
Proof.
  induction lit as [|c lit IH]; intros s rest; cbn [strip_literal].
  - rewrite string_app_nil_l. split; congruence.
  - rewrite string_app_cons. destruct s as [|c' s]; [split; discriminate|].
    destruct (Ascii.eqb_spec c c') as [->|Hne].
    + rewrite IH. split; congruence.
    + split; [discriminate | congruence].
Qed.

Lemma match_options_true s :
  match_options s = true <->
  exists options after,
    s = (options ++ ")" ++ after)%string /\ on_one_line options = true.
Proof.
  induction s as [|c s IH]; cbn [match_options].
  - split; [discriminate|]. intros ([|??] & ? & [=] & _).
  - destruct (Ascii.eqb_spec c ")") as [->|Hp].
    + split; [|done]. intros _. by exists EmptyString, s.
    + destruct (Ascii.eqb_spec c newline) as [->|Hn].
      * split; [discriminate|].
        intros ([|c' o] & a & Heq & Hline).
        -- rewrite string_app_nil_l, string_app_cons in Heq. congruence.
        -- rewrite string_app_cons in Heq. injection Heq as <- _.
           cbn in Hline. discriminate Hline.
      * rewrite IH. split.
        -- intros (o & a & -> & Hline). exists (String c o), a.
           split; [done|]. cbn. rewrite Hline.
           by apply Ascii.eqb_neq in Hn as ->.
        -- intros ([|c' o] & a & Heq & Hline).
           ++ rewrite string_app_nil_l, string_app_cons in Heq. congruence.
           ++ rewrite string_app_cons in Heq. injection Heq as <- ->.
              exists o, a. split; [done|]. cbn in Hline.
              by apply andb_prop in Hline as [_ ?].
Qed.

Lemma match_location_Some s : forall group found,
  match_location s group = Some found ->
  exists location rest,
    found = (group ++ location)%string /\
    s = (location ++ " (" ++ rest)%string /\
    on_one_line location = true /\
    match_options rest = true.
Proof.
  induction s as [|c s IH]; intros group found; cbn [match_location].
  - cbn. discriminate.
  - destruct (match strip_literal " (" (String c s) with
              | Some rest => match_options rest
              | None => false
              end) eqn:Hhere.
    + intros [= <-].
      destruct (strip_literal " (" (String c s)) as [rest|] eqn:Hs; [|done].
      apply strip_literal_Some in Hs. exists EmptyString, rest.
      by rewrite string_app_nil_r, string_app_nil_l.
    + destruct (Ascii.eqb_spec c newline) as [->|Hn]; [discriminate|].
      intros H. apply IH in H as (loc & rest & -> & -> & Hline & Hopt).
      exists (String c loc), rest. split; [|split; [done|split; [|done]]].
      * by rewrite string_app_assoc.
      * cbn. rewrite Hline. by apply Ascii.eqb_neq in Hn as ->.
Qed.

Lemma match_location_unfold s group :
  match_location s group =
    if match strip_literal " (" s with
       | Some rest => match_options rest
       | None => false
       end
    then Some group
    else match s with
         | EmptyString => None
         | String c s' =>
             if Ascii.eqb c newline then None
             else match_location s' (group ++ String c EmptyString)
         end.
Proof. by destruct s. Qed.

Lemma re_search_unfold s :
  re_search s =
    match match strip_literal "linprocfs on " s with
          | Some rest => match_location rest EmptyString
          | None => None
          end with
    | Some group => Some group
    | None => match s with
              | EmptyString => None
              | String _ s' => re_search s'
              end
    end.
Proof. by destruct s. Qed.

Lemma match_location_finds location : forall group rest,
  on_one_line location = true ->
  match_options rest = true ->
  is_Some (match_location (location ++ " (" ++ rest) group).
Proof.
  induction location as [|c loc IH]; intros group rest Hline Hopt.
  - rewrite string_app_nil_l, match_location_unfold.
    assert (strip_literal " (" (" (" ++ rest) = Some rest) as ->
      by (by apply strip_literal_Some).
    by rewrite Hopt.
  - cbn in Hline. apply andb_prop in Hline as [Hc Hline].
    rewrite string_app_cons, match_location_unfold.
    destruct (match strip_literal " (" (String c (loc ++ " (" ++ rest)) with
              | Some rest0 => match_options rest0
              | None => false
              end); [done|].
    apply negb_true_iff in Hc. rewrite Hc. by apply IH.
Qed.

Lemma re_search_Some s : forall location,
  re_search s = Some location -> names_mount_point s location.
Proof.
  induction s as [|c s IH]; intros location; rewrite re_search_unfold.
  - cbn. discriminate.
  - destruct (strip_literal "linprocfs on " (String c s)) as [rest|] eqn:Hs.
    + destruct (match_location rest EmptyString) as [g|] eqn:Hg.
      * intros [= <-]. apply strip_literal_Some in Hs.
        apply match_location_Some in Hg
          as (loc & rest' & -> & -> & Hline & Hopt).
        apply match_options_true in Hopt as (o & a & -> & Ho).
        exists EmptyString, o, a. by rewrite Hs.
      * intros H. apply IH in H as (b & o & a & -> & ? & ?).
        by exists (String c b), o, a.
    + intros H. apply IH in H as (b & o & a & -> & ? & ?).
      by exists (String c b), o, a.
Qed.

Lemma re_search_finds before : forall location options after,
  on_one_line location = true ->
  on_one_line options = true ->
  is_Some (re_search (before ++ "linprocfs on " ++ location ++ " ("
                             ++ options ++ ")" ++ after)).
Proof.
  induction before as [|c b IH]; intros loc o a Hl Ho.
  - rewrite string_app_nil_l, re_search_unfold.
    assert (strip_literal "linprocfs on "
              ("linprocfs on " ++ loc ++ " (" ++ o ++ ")" ++ a)
            = Some (loc ++ " (" ++ o ++ ")" ++ a)%string) as ->
      by (by apply strip_literal_Some).
    destruct (match_location_finds loc EmptyString (o ++ ")" ++ a) Hl)
      as [g ->]; [apply match_options_true; by exists o, a | done].
  - rewrite string_app_cons, re_search_unfold.
    destruct (match strip_literal "linprocfs on " _ with
              | Some rest => match_location rest EmptyString
              | None => None
              end); [done|].
    by apply IH.
Qed.

(** X17.  [getMountedLinuxProcFsLocation] returns either [False] or a
    string.  A string it returns is named by the output of [mount] as a
    mount point of [linprocfs], on a line [linprocfs on <location>
    (<options>)]; it returns [False] exactly when the output has no such
    line. *)
Theorem getMountedLinuxProcFsLocation_spec mountedPartitions :
  (forall location,
     getMountedLinuxProcFsLocation mountedPartitions = PyStr location ->
     names_mount_point mountedPartitions location) /\
  (getMountedLinuxProcFsLocation mountedPartitions = PyFalse <->
   forall location, ~ names_mount_point mountedPartitions location) /\
  (getMountedLinuxProcFsLocation mountedPartitions = PyFalse \/
   exists location,
     getMountedLinuxProcFsLocation mountedPartitions = PyStr location).
Proof.
  unfold getMountedLinuxProcFsLocation.
  destruct (re_search mountedPartitions) as [loc|] eqn:Hs.
  - split; [|split].
    + intros ? [= <-]. by apply re_search_Some.
    + split; [discriminate|]. intros Hno. destruct (Hno loc).
      by apply re_search_Some.
    + right. by exists loc.
  - split; [|split].
    + discriminate.
    + split; [|done]. intros _ loc (b & o & a & -> & Hl & Ho).
      destruct (re_search_finds b loc o a Hl Ho) as [? H]. congruence.
    + by left.
Qed.

Lemma getMountedLinuxProcFsLocation_spec_witness :
  getMountedLinuxProcFsLocation freebsd_mount_output
    = PyStr "/compat/linux/proc" /\
  names_mount_point freebsd_mount_output "/compat/linux/proc".
Proof.
  assert (getMountedLinuxProcFsLocation freebsd_mount_output
          = PyStr "/compat/linux/proc") as H by (vm_compute; reflexivity).
  split; [exact H|].
  by apply (getMountedLinuxProcFsLocation_spec freebsd_mount_output).
Defined.

(** ** The constructor *)

Lemma fold_result_Ok {A B} (xs : list A) (body : B -> A -> result B) :
  forall acc b,
    fold_result xs acc body = Ok b ->
    Forall (fun x => exists acc0 b0, body acc0 x = Ok b0) xs.
Proof.
  induction xs as [|x xs IH]; intros acc b H; [constructor|].
  cbn [fold_result] in H. apply and_then_Ok in H as (acc' & Hx & H).
  constructor; [by exists acc, acc' | by eapply IH].
Qed.

Lemma init_Ok w h agentConfig i :
  init w h agentConfig = Ok i ->
  exists mountedPartitions dds hudson hostname nagios processes,
    i = Instance (Checks agentConfig None None dds [hudson; nagios]
                         [processes])
                 (self_topIndex i)
                 (getMountedLinuxProcFsLocation mountedPartitions) /\
    mount_stdout h = Ok mountedPartitions /\
    Forall (fun '(p, args) => probe_ctor h p args = Ok tt)
           (ctor_calls (getMountedLinuxProcFsLocation mountedPartitions)
                       (self_topIndex i)) /\
    (if truthy (default PyFalse (agentConfig !! "has_datadog"))
     then exists dd, ddRollupLP h = Ok dd /\ dds = Some [dd]
     else dds = None) /\
    Hudson h = Ok hudson /\
    socket_gethostname w = Ok hostname /\
    Nagios h hostname = Ok nagios /\
    ResProcesses h agentConfig = Ok processes.
Proof.
  unfold init. intros H.
  apply and_then_Ok in H as (topIndex & _ & H).
  apply and_then_Ok in H as (out & Hmount & H). cbn zeta in H.
  apply and_then_Ok in H as ([] & Hctors & H).
  apply and_then_Ok in H as (dds & Hdd & H).
  apply and_then_Ok in H as (hudson & Hhudson & H).
  apply and_then_Ok in H as (hostname & Hhost & H).
  apply and_then_Ok in H as (nagios & Hnagios & H).
  apply and_then_Ok in H as (processes & Hproc & H).
  injection H as <-. cbn [self_topIndex].
  exists out, dds, hudson, hostname, nagios, processes.
  split; [done|]. split; [done|]. split; [|split; [|done]].
  - apply fold_result_Ok in Hctors. eapply Forall_impl; [exact Hctors|].
    intros [p args] ([] & [] & Hp). exact Hp.
  - destruct (truthy _); [|by injection Hdd as <-].
    apply and_then_Ok in Hdd as (dd & Hdd & [= <-]). by exists dd.
Qed.

Lemma init_topIndex w h agentConfig i :
  init w h agentConfig = Ok i ->
  (self_topIndex i = 5%Z \/ self_topIndex i = 6%Z) /\
  (self_topIndex i = 6%Z <->
   sys_platform w = "darwin" /\
   exists release,
     getindex (platform_mac_ver w) 0 = Ok (PyStr release) /\
     startswith release "10.6." = true).
Proof.
  unfold init. intros H.
  apply and_then_Ok in H as (topIndex & Htop & H).
  repeat (apply and_then_Ok in H as (? & _ & H)).
  injection H as <-. cbn [self_topIndex].
  destruct (String.eqb_spec (sys_platform w) "darwin") as [Hd|Hd].
  - destruct (truthy (platform_mac_ver w)) eqn:Ht.
    + apply and_then_Ok in Htop as (release & Hrel & Htop).
      destruct release as [| | | |r| | |]; try discriminate Htop.
      injection Htop as <-.
      destruct (startswith r "10.6.") eqn:Hs.
      * split; [by right|]. split; [|done]. intros _. split; [done|].
        by exists r.
      * split; [by left|]. split; [done|].
        intros (_ & r' & Hr' & Hs'). congruence.
    + injection Htop as <-. split; [by left|]. split; [done|].
      intros (_ & r & Hr & _). revert Ht Hr. clear.
      destruct (platform_mac_ver w) as [| | | |str|xs|xs|]; cbn; try done.
      all: try (by destruct str); try (by destruct xs).
  - cbn [truthy] in Htop. injection Htop as <-.
    split; [by left|]. split; [done|]. by intros [? _].
Qed.

(** X18.  An instance that [__init__] returned has no plugin list and no
    resolved operating system yet, keeps the configuration it was given,
    has one roll-up probe exactly when the setting [has_datadog] is
    truthy, and holds as [linuxProcFsLocation] what
    [getMountedLinuxProcFsLocation] made of the output of [mount].  The
    [topIndex] is 6 when the platform is [darwin] and the release
    [platform.mac_ver] reports starts with [10.6.], and 5 otherwise.  The
    constructor handles no failure: [mount], each probe constructor and
    [socket.gethostname] have returned. *)
Theorem init_instance w h agentConfig i :
  init w h agentConfig = Ok i ->
  let s := inst_checks i in
  self_agentConfig s = agentConfig /\
  self_plugins s = None /\
  self_os s = None /\
  (if truthy (default PyFalse (agentConfig !! "has_datadog"))
   then exists dd, ddRollupLP h = Ok dd /\ datadog_probes s = [dd]
   else self_datadogs s = None) /\
  (exists mountedPartitions,
     mount_stdout h = Ok mountedPartitions /\
     self_linuxProcFsLocation i
       = getMountedLinuxProcFsLocation mountedPartitions) /\
  Forall (fun '(p, args) => probe_ctor h p args = Ok tt)
         (ctor_calls (self_linuxProcFsLocation i) (self_topIndex i)) /\
  (exists hostname hudson nagios,
     socket_gethostname w = Ok hostname /\
     Hudson h = Ok hudson /\ Nagios h hostname = Ok nagios /\
     self_event_checks s = [hudson; nagios]) /\
  (self_topIndex i = 6%Z <->
   sys_platform w = "darwin" /\
   exists release,
     getindex (platform_mac_ver w) 0 = Ok (PyStr release) /\
     startswith release "10.6." = true) /\
  (self_topIndex i = 5%Z \/ self_topIndex i = 6%Z).
Proof.
  intros H. pose proof (init_topIndex _ _ _ _ H) as [Hrange Htop].
  apply init_Ok in H
    as (out & dds & hudson & hostname & nagios & processes & -> & Hmount
        & Hctors & Hdd & Hhudson & Hhost & Hnagios & _).
  cbn [inst_checks self_agentConfig self_plugins self_os self_datadogs
       self_event_checks self_linuxProcFsLocation datadog_probes] in *.
  do 3 (split; [done|]). split; [|split; [|split; [|split]]].
  - destruct (truthy _); [|done]. destruct Hdd as (dd & ? & ->).
    by exists dd.
  - by exists out.
  - done.
  - by exists hostname, hudson, nagios.
  - done.
Qed.

Lemma init_instance_witness :
  exists i,
    init sample_world sample_host
         (<["has_datadog" := PyTrue]> sample_config) = Ok i /\
    datadog_probes (inst_checks i) = [DdProbe 0 "rollup"] /\
    self_linuxProcFsLocation i = PyStr "/compat/linux/proc" /\
    self_plugins (inst_checks i) = None.
Proof.
  assert (is_Ok (init sample_world sample_host
                   (<["has_datadog" := PyTrue]> sample_config)) = true)
    as Hok by (vm_compute; reflexivity).
  destruct (init sample_world sample_host
              (<["has_datadog" := PyTrue]> sample_config)) as [i|e] eqn:Hi;
    [|discriminate Hok].
  exists i. split; [done|].
  destruct (init_instance _ _ _ _ Hi)
    as (_ & Hpl & _ & Hdd & (out & Hout & Hloc) & _).
  assert (truthy (default PyFalse
            (<["has_datadog" := PyTrue]> sample_config !! "has_datadog"))
          = true) as Ht by (by rewrite lookup_insert_eq).
  rewrite Ht in Hdd. destruct Hdd as (dd & Hdd & ->).
  injection Hdd as <-. injection Hout as <-.
  split; [done|]. split; [|done]. rewrite Hloc. vm_compute. reflexivity.
Defined.

(** X19.  The first cycle of a new instance.  When [doChecks] delivers a
    payload for an instance [__init__] has just returned, the payload
    names the operating system resolved from [sys.platform], its
    [datadog] entry is empty unless the setting [has_datadog] is truthy,
    in which case it holds what the roll-up probe returned under the
    probe's key, and afterwards the instance remembers the operating
    system. *)
Theorem init_then_doChecks w h agentConfig i firstRun systemStats checksData :
  init w h agentConfig = Ok i ->
  let o := doChecks w firstRun systemStats (inst_checks i) in
  checksData ∈ emitted (calls o) ->
  cpu_disjoint w = true ->
  checksData !! "os" = Some (PyStr (resolved_os w)) /\
  self_os (self_after o) = Some (resolved_os w) /\
  (if truthy (default PyFalse (agentConfig !! "has_datadog"))
   then exists dd x,
          ddRollupLP h = Ok dd /\ datadog_check w dd = Ok x /\
          checksData !! "datadog" = Some (PyDict {[ dd_key dd := x ]})
   else checksData !! "datadog" = Some (PyDict ∅)).
Proof.
  intros Hi. cbn zeta. intros Hd Hcpu.
  destruct (init_instance _ _ _ _ Hi) as (_ & _ & Hos & Hdd & _).
  cbn zeta in *.
  destruct (doChecks_identity_fields _ _ _ _ _ Hd Hcpu) as (_ & Hpos & _).
  destruct (doChecks_datadog_always_present _ _ _ _ _ Hd)
    as [Hpdd Hall].
  unfold os_in_cycle in Hpos. rewrite Hos in Hpos.
  split; [done|]. split.
  - rewrite doChecks_os_after. unfold os_in_cycle. by rewrite Hos.
  - destruct (truthy _).
    + destruct Hdd as (dd & Hdd & Hprobes). rewrite Hprobes in Hpdd, Hall.
      apply Forall_cons in Hall as [[x Hx] _]. exists dd, x.
      split; [done|]. split; [done|]. rewrite Hpdd.
      unfold added. cbn [foldl]. rewrite Hx. cbn [returned].
      by rewrite insert_empty.
    + rewrite Hpdd. unfold datadog_probes. by rewrite Hdd.
Qed.

Lemma init_then_doChecks_witness :
  exists i,
    init sample_world sample_host sample_config = Ok i /\
    (fun d : pydict => (d !! "os", d !! "datadog"))
      <$> emitted (calls (doChecks sample_world PyTrue (PyStr "facts")
                            (inst_checks i)))
      = [(Some (PyStr "linux"), Some (PyDict ∅))].
Proof.
  assert (is_Ok (init sample_world sample_host sample_config) = true)
    as Hok by (vm_compute; reflexivity).
  destruct (init sample_world sample_host sample_config) as [i|e] eqn:Hi;
    [|discriminate Hok].
  exists i. split; [done|].
  assert (inst_checks i = fresh_checks sample_config) as Hs.
  { revert Hi. unfold init. cbn. intros [= <-]. reflexivity. }
  assert (is_Ok (res (build_checksData sample_world PyTrue (PyStr "facts")
                        (fresh_checks sample_config))) = true) as Hok2
    by (vm_compute; reflexivity).
  destruct (res (build_checksData sample_world PyTrue (PyStr "facts")
                   (fresh_checks sample_config))) as [d|e] eqn:Hb;
    [|discriminate Hok2].
  assert (emitted (calls (doChecks sample_world PyTrue (PyStr "facts")
                            (inst_checks i))) = [d]) as Hd
    by (by rewrite Hs, doChecks_emitted, Hb).
  destruct (init_then_doChecks sample_world sample_host sample_config i
              PyTrue (PyStr "facts") d Hi) as (Hos & _ & Hdd).
  - rewrite Hd. apply list_elem_of_here.
  - vm_compute. reflexivity.
  - rewrite Hd. cbn [fmap list_fmap]. rewrite Hos.
    assert (truthy (default PyFalse (sample_config !! "has_datadog")) = false)
      as Ht by (vm_compute; reflexivity).
    rewrite Ht in Hdd. by rewrite Hdd.
Defined.

(** ** Where the plugins are imported from *)

Lemma confined_for_each_in {A} (P : event -> Prop) (xs : list A)
    (body : A -> M unit) :
  (forall x, x ∈ xs -> confined P (body x)) -> confined P (for_each xs body).
Proof.
  induction xs as [|x xs IH]; intros Hb; cbn [for_each].
  - apply confined_ret.
  - apply confined_bind.
    + apply Hb, list_elem_of_here.
    + intros _. apply IH. intros y Hy. by apply Hb, list_elem_of_further.
Qed.

Lemma load_plugins_imports w dir :
  confined (imports_under dir (discover w dir)) (load_plugins w dir).
Proof.
  unfold load_plugins.
  apply confined_bind; [apply confined_with_plugins|]. intros _.
  apply confined_bind; [by apply confined_emit|]. intros _.
  apply confined_for_each_in. intros name Hname.
  unfold load_one, instantiate, call_ctor, append_plugin.
  confine ltac:(first [exact I | by split]).
Qed.

Lemma run_plugins_imports w dir names ps :
  confined (imports_under dir names) (run_plugins w ps).
Proof. unfold run_plugins. confine ltac:(exact I). Qed.

Lemma import_paths_elem name path t :
  (name, path) ∈ import_paths t <-> EvImport name path ∈ t.
Proof.
  unfold import_paths. rewrite list_elem_of_omap. split.
  - intros ([] & He & [=]); by subst.
  - intros He. by exists (EvImport name path).
Qed.

Lemma discover_elem w dir name :
  name ∈ discover w dir <->
  exists root dirs files file,
    (root, dirs, files) ∈ os_walk w dir /\ file ∈ files /\
    plugin_name_of file = Some name.
Proof.
  unfold discover. rewrite list_elem_of_In, in_flat_map. split.
  - intros ([[root dirs] files] & Hin & Hname).
    apply (proj2 (list_elem_of_In _ _)) in Hname, Hin.
    apply list_elem_of_omap in Hname as (file & ? & ?).
    by exists root, dirs, files, file.
  - intros (root & dirs & files & file & Hin & Hfile & Hname).
    exists (root, dirs, files). split; [by apply list_elem_of_In|].
    apply list_elem_of_In, list_elem_of_omap. by exists file.
Qed.

(** X20.  Every import [getPlugins] makes is of a file [<name>.py], with a
    base name free of dots, that the walk found in the plugin directory or
    in one of its subdirectories; but the path handed to
    [imp.load_source] is always [<pluginDirectory>/<name>.py], whatever
    directory the file was found in. *)
Theorem getPlugins_imports_from_top w s dir name path :
  plugin_dir s = Some (PyStr dir) ->
  (name, path) ∈ import_paths (calls (getPlugins w s)) ->
  path = path_join dir (name ++ ".py") /\
  has_dot name = false /\
  exists root dirs files,
    (root, dirs, files) ∈ os_walk w dir /\ (name ++ ".py")%string ∈ files.
Proof.
  intros Hdir Hin. apply import_paths_elem in Hin.
  assert (Forall (imports_under dir (discover w dir)) (calls (getPlugins w s)))
    as Hall.
  { unfold getPlugins. rewrite bind_emit. cbn [calls].
    constructor; [exact I|]. rewrite bind_gets.
    unfold plugin_dir in Hdir. rewrite Hdir. cbn [as_path].
    rewrite bind_lift_Ok.
    match goal with |- Forall _ (calls (?m s)) =>
      assert (confined (imports_under dir (discover w dir)) m) as Hm
    end.
    { destruct (negb (path_exists w dir)); [apply confined_ret|].
      confine_with ltac:(exact I)
        ltac:(first [apply load_plugins_imports | apply run_plugins_imports]). }
    apply Hm. }
  rewrite Forall_forall in Hall. apply Hall in Hin as [-> Hname].
  split; [done|].
  apply discover_elem in Hname as (root & dirs & files & file & Hw & Hf & Hn).
  apply plugin_name_of_iff in Hn as [-> Hdot]. split; [done|].
  by exists root, dirs, files.
Qed.

Lemma getPlugins_imports_from_top_witness :
  let o := getPlugins nested_plugin_world (fresh_checks sample_plugin_config) in
  import_paths (calls o) = [("Zero", "/etc/dd-agent/plugins/Zero.py")] /\
  res o = Raise IOError.
Proof.
  cbn zeta.
  assert (import_paths (calls (getPlugins nested_plugin_world
                                 (fresh_checks sample_plugin_config)))
          = [("Zero", path_join "/etc/dd-agent/plugins" ("Zero" ++ ".py"))]
          /\ res (getPlugins nested_plugin_world
                    (fresh_checks sample_plugin_config)) = Raise IOError)
    as [Hpaths Hres] by (vm_compute; done).
  split; [|exact Hres].
  destruct (getPlugins_imports_from_top nested_plugin_world
              (fresh_checks sample_plugin_config) "/etc/dd-agent/plugins"
              "Zero" (path_join "/etc/dd-agent/plugins" ("Zero" ++ ".py")))
    as (Hp & _).
  - reflexivity.
  - rewrite Hpaths. apply list_elem_of_here.
  - rewrite Hpaths. reflexivity.
Defined.

(** ** The collection calls in sequence *)

Section Sequence.

Context {A : Type} (f : A -> result pyval).

Lemma reached_split pre c post e :
  Forall (fun x => is_Ok (f x) = true) pre ->
  f c = Raise e ->
  reached f (pre ++ c :: post) = pre ++ [c] /\
  first_error f (pre ++ c :: post) = Some e.
Proof.
  intros Hpre Hc. induction Hpre as [|x pre Hx _ IH]; cbn.
  - by rewrite Hc.
  - destruct IH as [-> ->]. rewrite Hx. by destruct (f x).
Qed.

Lemma reached_all xs :
  first_error f xs = None <-> Forall (fun x => is_Ok (f x) = true) xs.
Proof.
  induction xs as [|x xs IH]; cbn.
  - split; [constructor | done].
  - destruct (f x) as [v|e] eqn:Hx; cbn.
    + rewrite IH. split.
      * intros H. constructor; [by rewrite Hx | done].
      * intros H. by apply Forall_cons in H as [_ ?].
    + split; [done|]. intros H. apply Forall_cons in H as [H _].
      by rewrite Hx in H.
Qed.

End Sequence.

Lemma getDatadogData_same_probes w s s' :
  self_datadogs s = self_datadogs s' ->
  res (getDatadogData w s) = res (getDatadogData w s') /\
  calls (getDatadogData w s) = calls (getDatadogData w s').
Proof.
  intros Heq. unfold getDatadogData. rewrite !bind_gets, <- Heq.
  destruct (self_datadogs s) as [l|]; [|by rewrite !bind_ret].
  assert (forall acc,
            res (for_fold l acc (dd_body w) s)
              = res (for_fold l acc (dd_body w) s') /\
            calls (for_fold l acc (dd_body w) s)
              = calls (for_fold l acc (dd_body w) s')) as Hloop.
  { clear Heq. induction l as [|dd l IH]; intros acc; [done|].
    cbn [for_fold].
    pose proof (dd_body_eq w acc dd s) as Hb.
    pose proof (dd_body_eq w acc dd s') as Hb'.
    destruct (datadog_check w dd) as [r|e].
    - assert (res (dd_body w acc dd s) = Ok (<[dd_key dd := r]> acc)) as H1
        by (by rewrite Hb).
      assert (res (dd_body w acc dd s') = Ok (<[dd_key dd := r]> acc)) as H2
        by (by rewrite Hb').
      rewrite (bind_Ok _ _ _ _ H1), (bind_Ok _ _ _ _ H2), Hb, Hb'.
      cbn [res self_after calls].
      destruct (IH (<[dd_key dd := r]> acc)) as [-> ->]. done.
    - assert (res (dd_body w acc dd s) = Raise e) as H1 by (by rewrite Hb).
      assert (res (dd_body w acc dd s') = Raise e) as H2 by (by rewrite Hb').
      rewrite (bind_Raise _ _ _ _ H1), (bind_Raise _ _ _ _ H2), Hb, Hb'.
      done. }
  destruct (Hloop ∅) as [Hr Hc]. unfold dd_body in Hr, Hc.
  match type of Hr with res ?m = res ?m' =>
    destruct (res m') as [d|e] eqn:Hres'
  end.
  - rewrite (bind_Ok _ _ _ _ Hr), (bind_Ok _ _ _ _ Hres').
    cbn [res calls ret]. by rewrite Hc.
  - rewrite (bind_Raise _ _ _ _ Hr), (bind_Raise _ _ _ _ Hres').
    cbn [res calls]. by rewrite Hc.
Qed.

Lemma built_ins_probe p cs : built_ins (BuiltIn p :: cs) = p :: built_ins cs.
Proof. done. Qed.

Lemma datadogs_called_probe p t :
  datadogs_called (EvProbe p :: t) = datadogs_called t.
Proof. done. Qed.

Lemma datadogs_called_app t1 t2 :
  datadogs_called (t1 ++ t2) = datadogs_called t1 ++ datadogs_called t2.
Proof. apply omap_app. Qed.

Lemma getPlugins_no_datadog w s : datadogs_called (calls (getPlugins w s)) = [].
Proof.
  destruct (getPlugins_confined w s) as [_ Hc].
  induction Hc as [|e t He _ IH]; [done|]. by destruct e.
Qed.

Ltac seq_leaf Hq Hqp Hdp Hdcalls :=
  rewrite <- ?Hdcalls; cbn [is_Ok res calls ret built_ins];
  split; [first [by intros ? [= <-] | by intros ? [=]]|];
  split; [first [done | by intros [=]]|];
  split; [repeat first [rewrite probes_called_probe
                       |rewrite probes_called_app
                       |rewrite built_ins_probe
                       |rewrite Hqp | rewrite Hdp]; try done|];
  split;
  [first
     [ by (intros H; exfalso; apply H;
           repeat first [apply list_elem_of_here
                        |apply list_elem_of_further])
     | intros _ H;
       repeat (apply elem_of_cons in H as [H|H]; [discriminate H|]);
       by apply elem_of_nil in H ]
  |first
     [ by (intros H; exfalso; apply H;
           repeat first [apply list_elem_of_here
                        |apply list_elem_of_further])
     | intros _;
       repeat first [rewrite datadogs_called_probe
                    |rewrite datadogs_called_app
                    |rewrite Hq]; done ]].

(** [run_checks] makes the collection calls in the order of the source
    and stops at the first that raises, with its exception. *)
Lemma run_checks_sequence w s :
  let f := call_result w s in
  let o := run_checks w s in
  (forall e, first_error f call_order = Some e -> res o = Raise e) /\
  (first_error f call_order = None -> is_Ok (res o) = true) /\
  probes_called (calls o) = built_ins (reached f call_order) /\
  (Plugins ∉ reached f call_order -> EvGetPlugins ∉ calls o) /\
  (Datadog ∉ reached f call_order -> datadogs_called (calls o) = []).
Proof.
  cbn zeta.
  pose proof (getPlugins_no_datadog w s) as Hq.
  assert (probes_called (calls (getPlugins w s)) = []) as Hqp.
  { destruct (getPlugins_quiet w s) as [_ Hc].
    eapply Forall_impl in Hc; [|by intros ? [? _]].
    by apply without_probes. }
  destruct (getPlugins_confined w s) as [(_ & Hsame & _) _].
  destruct (getDatadogData_same_probes w s (self_after (getPlugins w s)))
    as [Hdres Hdcalls]; [done|].
  assert (probes_called (calls (getDatadogData w s)) = []) as Hdp.
  { destruct (getDatadogData_confined w s) as [_ Hc].
    eapply Forall_impl in Hc; [|by intros ? [? _]].
    by apply without_probes. }
  unfold run_checks.
  cbn [call_order first_error reached call_result].
  repeat lazymatch goal with
  | |- context [bind (call_probe w ?p) _ ?s0] =>
      rewrite !bind_call_probe;
      destruct (probe_check w p) eqn:?;
      [cbn [is_Ok res calls] | seq_leaf Hq Hqp Hdp Hdcalls]
  | |- context [bind (getPlugins w) _ ?s0] =>
      let Hg := fresh "Hg" in
      destruct (res (getPlugins w s)) eqn:Hg;
      [rewrite !(bind_Ok _ _ _ _ Hg); cbn [is_Ok res calls]
      |rewrite !(bind_Raise _ _ _ _ Hg); seq_leaf Hq Hqp Hdp Hdcalls]
  | |- context [bind (getDatadogData w) _ ?s0] =>
      let Hd := fresh "Hd" in
      let Hd2 := fresh "Hdd" in
      destruct (res (getDatadogData w s)) eqn:Hd;
      pose proof Hdres as Hd2; symmetry in Hd2;
      [rewrite !(bind_Ok _ _ _ _ Hd2); cbn [is_Ok res calls]
      |rewrite !(bind_Raise _ _ _ _ Hd2);
       seq_leaf Hq Hqp Hdp Hdcalls]
  end.
  seq_leaf Hq Hqp Hdp Hdcalls.
Qed.

Lemma payload_before_hostname_identity w config os firstRun systemStats r d :
  payload_before_hostname w config os firstRun systemStats r = Ok d ->
  (forall k, k ∈ own_keys -> redefines (cpuStats r) k = false) ->
  d !! "ganglia"
    = (if not_False_nor_None (gangliaData r) then Some (gangliaData r)
       else None) /\
  d !! "datadog"
    = (if not_False_nor_None (datadogData r) then Some (datadogData r)
       else None) /\
  d !! "cassandra"
    = (if not_False_nor_None (cassandraData r) then Some (cassandraData r)
       else None).
Proof.
  intros Hbefore Hkeys.
  apply payload_before_hostname_Ok in Hbefore
    as (d0 & dc & a1 & a2 & a3 & m1 & m2 & m3 & m4 & m5 & m6 & m7 & m8 & n1
        & n2 & Hcore & Hupd & -> & _).
  cbn zeta.
  apply core_payload_Ok in Hcore as (_ & _ & _ & _ & _ & Hcorekeys).
  assert (forall k, k ∈ own_keys -> k ∉ core_keys -> dc !! k = None) as Hnone.
  { intros k Hk1 Hk2.
    assert (dc !! k = d0 !! k) as ->.
    { destruct (not_False_nor_None (cpuStats r)).
      - eapply dict_update_frame; [done | by apply Hkeys].
      - by injection Hupd as <-. }
    apply eq_None_not_Some. by rewrite Hcorekeys. }
  split; [|split]; lookup_writes;
    (match goal with |- (if ?b then _ else _) = _ => destruct b end;
     [done | apply Hnone; solve_key]).
Qed.

Lemma doChecks_when_checks_raise w firstRun systemStats s e :
  res (run_checks w (self_after (resolve_os w s))) = Raise e ->
  res (doChecks w firstRun systemStats s) = Raise e /\
  calls (doChecks w firstRun systemStats s)
    = calls (run_checks w (self_after (resolve_os w s))) /\
  emitted (calls (doChecks w firstRun systemStats s)) = [].
Proof.
  intros Hrun.
  assert (res (build_checksData w firstRun systemStats s) = Raise e /\
          calls (build_checksData w firstRun systemStats s)
            = calls (run_checks w (self_after (resolve_os w s)))) as [Hb Hc].
  { unfold build_checksData.
    destruct (resolve_os_eq w s) as (Hr & Hc & _).
    rewrite (bind_Ok _ _ _ _ Hr). cbn [res calls]. rewrite Hc.
    by rewrite (bind_Raise _ _ _ _ Hrun). }
  rewrite doChecks_emitted, doChecks_eq. cbn zeta. by rewrite Hb.
Qed.

Lemma call_order_NoDup : NoDup call_order.
Proof.
  unfold call_order.
  repeat (constructor;
          [intros H; repeat (apply elem_of_cons in H as [H|H];
                             [discriminate H|]);
           by apply elem_of_nil in H|]).
  constructor.
Qed.

(** C1, amended.  The collection calls (the fifteen built-in probes,
    [getPlugins] and [getDatadogData]) are made in the order of the source
    with no handler around them.  When one of them raises, those before
    it having returned, [doChecks] raises that exception, the calls after
    it are not made, no payload is handed to the emitter and the next
    cycle is not scheduled; so whenever any of them raises, the cycle
    raises and delivers nothing.  A cycle that hands a payload to the
    emitter has made every collection call, each of which returned; the
    payload holds the mandatory core fields and, when the CPU statistics
    write none of [doChecks]' own keys, the keys of each optional call
    exactly when the value the call returned passes its test. *)
Theorem doChecks_without_fault_isolation w firstRun systemStats s :
  let o := doChecks w firstRun systemStats s in
  let made := call_result w (self_after (resolve_os w s)) in
  (forall pre c post e,
     call_order = pre ++ c :: post ->
     Forall (fun c' => is_Ok (made c') = true) pre ->
     made c = Raise e ->
     res o = Raise e /\
     emitted (calls o) = [] /\
     scheduled (calls o) = [] /\
     probes_called (calls o) = built_ins (pre ++ [c]) /\
     (Plugins ∈ post -> EvGetPlugins ∉ calls o) /\
     (Datadog ∈ post -> datadogs_called (calls o) = [])) /\
  (forall c e,
     c ∈ call_order ->
     made c = Raise e ->
     is_Ok (res o) = false /\
     emitted (calls o) = [] /\
     scheduled (calls o) = []) /\
  (forall checksData,
     checksData ∈ emitted (calls o) ->
     Forall (fun c => is_Ok (made c) = true) call_order /\
     probes_called (calls o) = probe_order /\
     (forall k, k ∈ core_keys -> is_Some (checksData !! k)) /\
     (cpu_disjoint w = true ->
      forall c k, k ∈ keys_of c ->
        exists v, made c = Ok v /\
                  (is_Some (checksData !! k) <-> passes c v = true))).
Proof.
  cbn zeta. set (s1 := self_after (resolve_os w s)).
  destruct (run_checks_sequence w s1) as (Herr & Hall & Hprobes & Hgp & Hdd).
  cbn zeta in *. split; [|split].
  - intros pre c post e Horder Hpre Hc.
    destruct (reached_split (call_result w s1) pre c post e Hpre Hc)
      as [Hreached Hfirst].
    rewrite Horder in Herr, Hprobes, Hgp, Hdd.
    rewrite Hreached in Hprobes, Hgp, Hdd.
    specialize (Herr e Hfirst).
    destruct (doChecks_when_checks_raise w firstRun systemStats s e Herr)
      as (Hres & Hcalls & Hem).
    pose proof call_order_NoDup as Hnd. rewrite Horder in Hnd.
    apply NoDup_app in Hnd as (_ & Hdisj & Hnd).
    apply NoDup_cons in Hnd as [Hcpost _].
    assert (forall x, x ∈ post -> x ∉ pre ++ [c]) as Hlater.
    { intros x Hx Hin. apply elem_of_app in Hin as [Hin|Hin].
      - apply (Hdisj x Hin). by right.
      - apply list_elem_of_singleton in Hin as ->. done. }
    split; [done|].
    split; [done|].
    split; [by rewrite doChecks_scheduled, Hres|].
    rewrite Hcalls. split; [done|]. split.
    + intros Hin. apply Hgp. by apply Hlater.
    + intros Hin. apply Hdd. by apply Hlater.
  - intros c e Hin Hc.
    destruct (first_error (call_result w s1) call_order) as [e'|] eqn:Hf.
    + destruct (doChecks_when_checks_raise w firstRun systemStats s e'
                  (Herr e' eq_refl)) as (Hres & _ & Hem).
      rewrite doChecks_scheduled, Hres. done.
    + apply reached_all in Hf. rewrite Forall_forall in Hf.
      specialize (Hf c Hin). by rewrite Hc in Hf.
  - intros checksData Hd.
    pose proof (emitted_payload _ _ _ _ _ Hd) as Hbuilt.
    apply build_checksData_Ok in Hbuilt
      as (r & os & d1 & d2 & Hrun & Hbefore & Hhost & Hafter).
    fold s1 in Hrun.
    assert (first_error (call_result w s1) call_order = None) as Hnone.
    { destruct (first_error _ _) as [e|] eqn:Hf; [|done].
      rewrite (Herr e eq_refl) in Hrun. discriminate Hrun. }
    split; [by apply reached_all|].
    rewrite doChecks_probes. fold s1.
    pose proof Hrun as Hrun'.
    apply run_checks_Ok in Hrun' as (H1 & H2 & Hplugins & _ & Hcalls).
    split; [done|]. split.
    { intros k Hk.
      apply (payload_after_hostname_grows _ _ _ _ _ _ _ _ Hafter).
      pose proof (payload_before_hostname_core _ _ _ _ _ _ _ k Hbefore Hk)
        as Hd1.
      destruct Hhost as [(name & _ & ->)|(e & _ & _ & ->)]; [|done].
      rewrite lookup_insert. by case_decide. }
    intros Hcpu c k Hk.
    destruct (delivered_whole _ _ _ _ _ Hd Hcpu)
      as (r' & d & d' & Hrun2 & Hbefore2 & Hkeys & _ & _ & _ & _ & Hd'
          & Hafter2).
    fold s1 in Hrun2. rewrite Hrun in Hrun2. injection Hrun2 as <-.
    apply payload_after_hostname_frame in Hafter2 as (Hframe & _).
    assert (forall k, k ∈ keys_of c -> checksData !! k = d !! k) as Hsame.
    { intros k' Hk'. rewrite Hframe, Hd'; [done|..];
        intros ->; destruct c as [[]| |]; cbn in Hk';
        repeat (apply elem_of_cons in Hk' as [Hk'|Hk']; [discriminate Hk'|]);
        by apply elem_of_nil in Hk'. }
    rewrite (Hsame k Hk).
    destruct (payload_before_hostname_fields _ _ _ _ _ _ _ Hbefore2 Hkeys)
      as (_ & (Hrab & Hmon & Hcou & Hplu & Hio) & Hap & Hmy & Hng & _).
    destruct (payload_before_hostname_identity _ _ _ _ _ _ _ Hbefore2 Hkeys)
      as (Hgan & Hdat & Hcas).
    destruct (run_checks_datadog _ _ _ Hrun) as (s' & (_ & Hsd & _) & Hdd').
    destruct (getDatadogData_same_probes w s1 s') as [Hdres _]; [done|].
    destruct H1 as (Ha & _ & _ & _ & Hm & _ & Hn & _).
    destruct H2 as (Hr & Ho & Hc & Hi & _ & Hg & Hca).
    assert (forall status fields,
              Forall (field_written d status) fields ->
              k ∈ fields.*1 ->
              is_Some (d !! k) <-> ne_False status = true) as Hfields.
    { intros status fields Hfs Hin.
      apply list_elem_of_fmap in Hin as (kf & -> & Hin).
      rewrite Forall_forall in Hfs. destruct (Hfs kf Hin) as [Hyes Hno].
      destruct (ne_False status).
      - destruct (Hyes eq_refl) as (x & _ & ->). by split; [|eexists].
      - rewrite (Hno eq_refl). split; [by intros [? ?] | done]. }
    assert (forall v k', value_written d v k' ->
              is_Some (d !! k') <-> ne_False v = true) as Hvalue.
    { intros v k' ->. destruct (ne_False v); split;
        first [done | by intros [? ?]]. }
    assert (forall v k',
              d !! k' = (if not_False_nor_None v then Some v else None) ->
              is_Some (d !! k') <-> not_False_nor_None v = true) as Hident.
    { intros v k' ->. destruct (not_False_nor_None v); split;
        first [done | by intros [? ?]]. }
    destruct c as [[]| |]; cbn [keys_of] in Hk;
      try (by apply elem_of_nil in Hk); cbn [call_result passes].
    + exists (apacheStatus r). split; [done|].
      by apply (Hfields _ apache_fields).
    + exists (mysqlStatus r). split; [done|].
      by apply (Hfields _ mysql_fields).
    + exists (nginxStatus r). split; [done|].
      by apply (Hfields _ nginx_fields).
    + apply list_elem_of_singleton in Hk as ->.
      exists (rabbitmq r). split; [done|]. by apply Hvalue.
    + apply list_elem_of_singleton in Hk as ->.
      exists (mongodb r). split; [done|]. by apply Hvalue.
    + apply list_elem_of_singleton in Hk as ->.
      exists (couchdb r). split; [done|]. by apply Hvalue.
    + apply list_elem_of_singleton in Hk as ->.
      exists (ioStats r). split; [done|]. by apply Hvalue.
    + apply list_elem_of_singleton in Hk as ->.
      exists (gangliaData r). split; [done|]. by apply Hident.
    + apply list_elem_of_singleton in Hk as ->.
      exists (cassandraData r). split; [done|]. by apply Hident.
    + apply list_elem_of_singleton in Hk as ->.
      exists (plugins r). split; [done|]. by apply Hvalue.
    + apply list_elem_of_singleton in Hk as ->.
      exists (datadogData r). split; [by rewrite Hdres|]. by apply Hident.
Qed.

Lemma doChecks_without_fault_isolation_witness :
  let o := doChecks rollup_down_world PyFalse PyFalse rollup_checks in
  res o = Raise IOError /\
  emitted (calls o) = [] /\
  probes_called (calls o)
    = [Apache; Disk; Load; Memory; MySQL; Network; Nginx; Processes;
       RabbitMQ; MongoDB; CouchDB; IOStats; CPU; Ganglia] /\
  datadogs_called (calls o) = ["rollup"].
Proof.
  cbn zeta.
  destruct (doChecks_without_fault_isolation rollup_down_world PyFalse PyFalse
              rollup_checks) as (Hfail & _ & _).
  destruct (Hfail (take 15 call_order) Datadog [BuiltIn Cassandra] IOError)
    as (Hres & Hem & _ & Hprobes & _).
  - reflexivity.
  - repeat constructor; vm_compute; reflexivity.
  - vm_compute. reflexivity.
  - split; [exact Hres|]. split; [exact Hem|]. split.
    + rewrite Hprobes. reflexivity.
    + vm_compute. reflexivity.
Defined.
